(** * Health-score engine: a shallow embedding of the scoring functions

    The repository holds three variants of one Firebase function that turns
    nutrition-label data into a 0-100 health score:

    - the category-aware variant (food / beverage ladders, [mcg] unit), which
      takes the nutrition record from the request body
      ([src/unnamed/part_000]): module [Engine];
    - the stored-product variant, which reads the record of a product from
      the document store and writes the score back
      ([src/unnamed/part_001]): module [StoredProduct];
    - the first variant ([src/functions/index.js]), with its lenient number
      parser and ladders of five breakpoints: module [Legacy].

    The HTTP functions around them are modelled on a small request and
    response model, module [Http]; logging is left out.

    The JavaScript the functions run on is modelled in module [JS]: IEEE-754
    binary64 numbers (Rocq's [SpecFloat], no rounding is idealised away),
    byte strings, the number-and-unit pattern of the parser, [parseFloat],
    [Number.prototype.toString], [Math.round] and friends.  Code that can
    throw lives in the error monad [exc]. *)

From Stdlib Require Import ZArith List Ascii String Lia Bool DecimalString.
From Stdlib Require Import Floats.SpecFloat.
From stdpp Require Import base gmap strings list.

Local Open Scope string_scope.
Local Open Scope Z_scope.

(** ** Exceptions *)

Inductive jsError := TypeError (msg : string) | Error (msg : string).

Inductive exc (A : Type) : Type :=
| Ok (a : A)
| Throw (e : jsError).
Arguments Ok {A} a.
Arguments Throw {A} e.

#[global] Instance exc_ret : MRet exc := fun A a => Ok a.

#[global] Instance exc_bind : MBind exc := fun A B f m =>
  match m with
  | Ok a => f a
  | Throw e => Throw e
  end.

Module JS.

(** ** Numbers: IEEE-754 binary64 *)

Definition prec : Z := 53.
Definition emax : Z := 1024.

Definition number := spec_float.

Definition NaN : number := S754_nan.

Definition add : number -> number -> number := SFadd prec emax.
Definition sub : number -> number -> number := SFsub prec emax.
Definition mul : number -> number -> number := SFmul prec emax.
Definition div : number -> number -> number := SFdiv prec emax.

(** [x < y], [x <= y], [x > y], [x >= y]: false as soon as one side is NaN. *)
Definition lt (x y : number) : bool := SFltb x y.
Definition le (x y : number) : bool := SFleb x y.
Definition gt (x y : number) : bool := SFltb y x.
Definition ge (x y : number) : bool := SFleb y x.

(** The number an integer rounds to (exact below 2^53). *)
Definition of_Z (z : Z) : number := binary_normalize prec emax z 0 false.

(** The number nearest to [m * 10^k] for [m >= 0] (ties to even): what a
    decimal literal or a parsed decimal string denotes.  Division of the two
    exact integers rounds once, whatever their sizes. *)
Definition decimal (m : Z) (k : Z) : number :=
  match m with
  | Z0 => S754_zero false
  | Zpos p =>
      if 0 <=? k then binary_normalize prec emax (m * 10 ^ k) 0 false
      else div (S754_finite false p 0) (S754_finite false (Z.to_pos (10 ^ (- k))) 0)
  | Zneg _ => S754_nan
  end.

(** Decimal literals of the source ([7.2], [4.184], [1_000_000]) are read by
    [decimal]. *)
Definition of_literal (n : Number.number) : option number :=
  match n with
  | Number.Decimal (Decimal.Decimal (Decimal.Pos i) f) =>
      Some (decimal (Z.of_N (N.of_uint (Decimal.app i f)))
                    (- Z.of_nat (Decimal.nb_digits f)))
  | _ => None
  end.

Definition to_literal (x : number) : option Number.number := None.

Declare Scope js_scope.
Delimit Scope js_scope with js.
Number Notation spec_float of_literal to_literal : js_scope.

Definition is_NaN (x : number) : bool :=
  match x with S754_nan => true | _ => false end.

Definition is_zero (x : number) : bool :=
  match x with S754_zero _ => true | _ => false end.

(** [Math.max(a, b)] and [Math.min(a, b)]: NaN if either is, and -0 < +0. *)
Definition Math_max (a b : number) : number :=
  match a, b with
  | S754_nan, _ | _, S754_nan => NaN
  | S754_zero sa, S754_zero sb => S754_zero (sa && sb)
  | _, _ => if lt a b then b else a
  end.

Definition Math_min (a b : number) : number :=
  match a, b with
  | S754_nan, _ | _, S754_nan => NaN
  | S754_zero sa, S754_zero sb => S754_zero (sa || sb)
  | _, _ => if lt b a then b else a
  end.

(** [Math.round(x)]: the integer nearest to [x], a tie going up; zeros,
    infinities and NaN are returned as they are, and a negative [x] that
    rounds to zero gives -0. *)
Definition Math_round (x : number) : number :=
  match x with
  | S754_finite s m e =>
      if 0 <=? e then x
      else
        let d := 2 ^ (- e) in
        let v := if s then Z.neg m else Z.pos m in
        let r := (2 * v + d) / (2 * d) in
        if r =? 0 then S754_zero s else of_Z r
  | _ => x
  end.

(** ** Strings

    A string is the byte string of its UTF-8 encoding.  The character classes
    of the source are ASCII, so they read bytes as they read UTF-16 units: no
    byte of a non-ASCII character is in either class. *)

Definition code (c : ascii) : N := N_of_ascii c.

Definition isDigit (c : ascii) : bool := (48 <=? code c)%N && (code c <=? 57)%N.
Definition isUpper (c : ascii) : bool := (65 <=? code c)%N && (code c <=? 90)%N.
Definition isLower (c : ascii) : bool := (97 <=? code c)%N && (code c <=? 122)%N.

(** The class [0-9.] *)
Definition isNumberChar (c : ascii) : bool := isDigit c || (code c =? 46)%N.
(** The class [a-zA-Z%] *)
Definition isUnitChar (c : ascii) : bool :=
  isLower c || isUpper c || (code c =? 37)%N.

Fixpoint takeWhile (p : ascii -> bool) (s : string) : string :=
  match s with
  | String c s' => if p c then String c (takeWhile p s') else EmptyString
  | EmptyString => EmptyString
  end.

Fixpoint dropWhile (p : ascii -> bool) (s : string) : string :=
  match s with
  | String c s' => if p c then dropWhile p s' else s
  | EmptyString => EmptyString
  end.

(** [s.match(re)] for the pattern of [parseNutritionValue], a run of [0-9.]
    and then a possibly empty run of [a-zA-Z%]: the leftmost match, both
    runs as long as they can be (the two classes are disjoint, so nothing
    backtracks).  [Some (g1, g2)] holds the two groups, [None] is [null]. *)
Fixpoint match_number_unit (s : string) : option (string * string) :=
  match s with
  | EmptyString => None
  | String c s' =>
      if isNumberChar c
      then Some (takeWhile isNumberChar s,
                 takeWhile isUnitChar (dropWhile isNumberChar s))
      else match_number_unit s'
  end.

(** [s.replace(re, '')] for the global pattern of the first variant, which
    deletes every character outside [0-9.]. *)
Fixpoint keep_number_chars (s : string) : string :=
  match s with
  | EmptyString => EmptyString
  | String c s' =>
      if isNumberChar c then String c (keep_number_chars s')
      else keep_number_chars s'
  end.

Definition toLowerCase_char (c : ascii) : ascii :=
  if isUpper c then ascii_of_N (code c + 32) else c.

(** [s.toLowerCase()] on ASCII letters (the only letters a unit can hold). *)
Fixpoint toLowerCase (s : string) : string :=
  match s with
  | EmptyString => EmptyString
  | String c s' => String (toLowerCase_char c) (toLowerCase s')
  end.

(** White space and line terminators, as UTF-8: TAB, LF, VT, FF, CR, SP,
    U+00A0, U+1680, U+2000 to U+200A, U+2028, U+2029, U+202F, U+205F, U+3000
    and U+FEFF. *)
Definition whiteSpace : list (list N) :=
  List.app
    [ [9]; [10]; [11]; [12]; [13]; [32]; [194; 160]; [225; 154; 128] ]%N
    (List.app
       (map (fun b => [226; 128; b]%N)
            [128; 129; 130; 131; 132; 133; 134; 135; 136; 137; 138]%N)
       [ [226; 128; 168]; [226; 128; 169]; [226; 128; 175]; [226; 129; 159];
         [227; 128; 128]; [239; 187; 191] ]%N).

Fixpoint dropPrefix (p l : list N) : option (list N) :=
  match p, l with
  | [], _ => Some l
  | a :: p', b :: l' => if (a =? b)%N then dropPrefix p' l' else None
  | _ :: _, [] => None
  end.

Fixpoint dropOne (seqs : list (list N)) (l : list N) : option (list N) :=
  match seqs with
  | [] => None
  | w :: seqs' =>
      match dropPrefix w l with
      | Some r => Some r
      | None => dropOne seqs' l
      end
  end.

Fixpoint dropAll (fuel : nat) (seqs : list (list N)) (l : list N) : list N :=
  match fuel with
  | O => l
  | S fuel' =>
      match dropOne seqs l with
      | Some r => dropAll fuel' seqs r
      | None => l
      end
  end.

Definition bytes (s : string) : list N := map code (list_ascii_of_string s).
Definition of_bytes (l : list N) : string :=
  string_of_list_ascii (map ascii_of_N l).

Definition trimStart (s : string) : string :=
  of_bytes (dropAll (String.length s) whiteSpace (bytes s)).

Definition trimEnd (s : string) : string :=
  of_bytes (rev (dropAll (String.length s) (map (@rev N) whiteSpace) (rev (bytes s)))).

(** [s.trim()] *)
Definition trim (s : string) : string := trimEnd (trimStart s).

(** ** [parseFloat] *)

Definition digit_value (c : ascii) : Z := Z.of_N (code c) - 48.

(** The integer a run of decimal digits spells, most significant first. *)
Fixpoint digits_value (acc : Z) (s : string) : Z :=
  match s with
  | EmptyString => acc
  | String c s' => digits_value (10 * acc + digit_value c) s'
  end.

(** The exponent part of a decimal literal, [0] when there is none: [e] or
    [E], an optional sign, and at least one digit. *)
Definition exponent_part (s : string) : Z :=
  match s with
  | String c r =>
      if (code c =? 101)%N || (code c =? 69)%N then
        match r with
        | String c1 r1 =>
            if (code c1 =? 45)%N then
              match takeWhile isDigit r1 with
              | EmptyString => 0
              | ds => - digits_value 0 ds
              end
            else
              match takeWhile isDigit (if (code c1 =? 43)%N then r1 else r) with
              | EmptyString => 0
              | ds => digits_value 0 ds
              end
        | EmptyString => 0
        end
      else 0
  | EmptyString => 0
  end.

(** [parseFloat(s)]: leading white space is skipped, then the longest prefix
    that is a decimal literal (sign, [Infinity], digits, a dot and digits,
    an exponent) is read; [NaN] when no prefix is one. *)
Definition parseFloat (s : string) : number :=
  let s1 := trimStart s in
  let '(neg, s2) :=
    match s1 with
    | String c r =>
        if (code c =? 45)%N then (true, r)
        else if (code c =? 43)%N then (false, r)
        else (false, s1)
    | EmptyString => (false, s1)
    end in
  let signed (x : number) := if neg then SFopp x else x in
  if String.prefix "Infinity" s2 then signed (S754_infinity false)
  else
    let ip := takeWhile isDigit s2 in
    let r1 := dropWhile isDigit s2 in
    let '(fp, r2) :=
      match r1 with
      | String c r =>
          if (code c =? 46)%N
          then (takeWhile isDigit r, dropWhile isDigit r)
          else (EmptyString, r1)
      | EmptyString => (EmptyString, r1)
      end in
    match ip, fp with
    | EmptyString, EmptyString => NaN
    | _, _ =>
        signed (decimal (digits_value 0 (ip ++ fp))
                        (exponent_part r2 - Z.of_nat (String.length fp)))
    end.

(** ** [Number.prototype.toString]

    The shortest decimal that reads back as the same number, laid out as
    ECMAScript's Number::toString does (radix 10). *)

Definition digits_of (n : Z) : string :=
  NilZero.string_of_uint (N.to_uint (Z.to_N n)).

(** [10^n <= num / den] *)
Definition ge_pow10 (num den n : Z) : bool :=
  if 0 <=? n then den * 10 ^ n <=? num else den <=? num * 10 ^ (- n).

Fixpoint magnitude_up (fuel : nat) (num den n : Z) : Z :=
  match fuel with
  | O => n
  | S fuel' => if ge_pow10 num den n then magnitude_up fuel' num den (n + 1) else n
  end.

Fixpoint magnitude_down (fuel : nat) (num den n : Z) : Z :=
  match fuel with
  | O => n
  | S fuel' => if ge_pow10 num den (n - 1) then n else magnitude_down fuel' num den (n - 1)
  end.

(** The [n] with [10^(n-1) <= num / den < 10^n]; binary64 magnitudes lie
    between 10^-324 and 10^309. *)
Definition magnitude (num den : Z) : Z :=
  magnitude_down 400 num den (magnitude_up 400 num den 0).

(** [floor (num / den * 10^j)] *)
Definition scaled_floor (num den j : Z) : Z :=
  if 0 <=? j then (num * 10 ^ j) / den else num / (den * 10 ^ (- j)).

(** How [2 * num / den * 10^j] compares with the odd integer [t]. *)
Definition scaled_compare (num den j t : Z) : comparison :=
  if 0 <=? j then (2 * num * 10 ^ j ?= t * den)
  else (2 * num ?= t * den * 10 ^ (- j)).

Definition same_number (x y : number) : bool :=
  match x, y with
  | S754_finite sx mx ex, S754_finite sy my ey =>
      Bool.eqb sx sy && (mx =? my)%positive && (ex =? ey)
  | _, _ => false
  end.

(** The digits [s] and the exponent [n] of Number::toString: the least [k]
    for which some [s] of [k] digits has [s * 10^(n-k)] read back as [x];
    of two such [s] the one nearer to [x], and the even one when both are as
    near.  Seventeen digits always suffice. *)
Fixpoint shortest (fuel : nat) (x : number) (num den n k : Z) : Z * Z :=
  match fuel with
  | O => (0, n)
  | S fuel' =>
      let j := k - n in
      let lo := scaled_floor num den j in
      let hi := lo + 1 in
      let oklo := (10 ^ (k - 1) <=? lo) && same_number (decimal lo (- j)) x in
      let okhi := same_number (decimal hi (- j)) x in
      let pick (s : Z) := if s =? 10 ^ k then (10 ^ (k - 1), n + 1) else (s, n) in
      match oklo, okhi with
      | true, false => pick lo
      | false, true => pick hi
      | true, true =>
          match scaled_compare num den j (2 * lo + 1) with
          | Lt => pick lo
          | Gt => pick hi
          | Eq => if Z.even lo then pick lo else pick hi
          end
      | false, false => shortest fuel' x num den n (k + 1)
      end
  end.

Fixpoint zeros (n : nat) : string :=
  match n with
  | O => EmptyString
  | S n' => String "0" (zeros n')
  end.

Definition layout (s n : Z) : string :=
  let ds := digits_of s in
  let k := Z.of_nat (String.length ds) in
  if (k <=? n) && (n <=? 21) then ds ++ zeros (Z.to_nat (n - k))
  else if (0 <? n) && (n <=? 21) then
    String.substring 0 (Z.to_nat n) ds ++ "."
    ++ String.substring (Z.to_nat n) (Z.to_nat (k - n)) ds
  else if (-6 <? n) && (n <=? 0) then "0." ++ zeros (Z.to_nat (- n)) ++ ds
  else
    let e := n - 1 in
    let sign := if e <? 0 then "-" else "+" in
    if k =? 1 then ds ++ "e" ++ sign ++ digits_of (Z.abs e)
    else String.substring 0 1 ds ++ "."
         ++ String.substring 1 (Z.to_nat (k - 1)) ds
         ++ "e" ++ sign ++ digits_of (Z.abs e).

Definition Number_toString (x : number) : string :=
  match x with
  | S754_nan => "NaN"
  | S754_zero _ => "0"
  | S754_infinity s => if s then "-Infinity" else "Infinity"
  | S754_finite s m e =>
      let num := if 0 <=? e then Z.pos m * 2 ^ e else Z.pos m in
      let den := if 0 <=? e then 1 else 2 ^ (- e) in
      let '(d, n) :=
        shortest 17 (S754_finite false m e) num den (magnitude num den) 1 in
      (if s then "-" else "") ++ layout d n
  end.

(** ** Values of a nutrition record

    A field of a nutrition record is absent ([undefined]), [null], a boolean,
    a number or a string: the scalars JSON and the document store carry.  The
    one nested object the code reads, [customNutritionFields], is a second
    mapping of the record.  Objects and arrays as values of the scored fields
    are outside this type, as they are outside the nutrition record of the
    specification. *)

Inductive raw :=
| RUndefined
| RNull
| RBool (b : bool)
| RNum (x : number)
| RStr (s : string).

(** Truthiness: what [!v], [v || w] and [if (v)] test. *)
Definition ToBoolean (v : raw) : bool :=
  match v with
  | RUndefined | RNull => false
  | RBool b => b
  | RNum x => negb (is_zero x || is_NaN x)
  | RStr s => negb (String.eqb s "")
  end.

(** [a || b] *)
Definition or_else (a b : raw) : raw := if ToBoolean a then a else b.

(** [v.toString()]: a TypeError on [undefined] and [null]. *)
Definition toString (v : raw) : exc string :=
  match v with
  | RUndefined => Throw (TypeError "Cannot read properties of undefined (reading 'toString')")
  | RNull => Throw (TypeError "Cannot read properties of null (reading 'toString')")
  | RBool b => Ok (if b then "true" else "false")
  | RNum x => Ok (Number_toString x)
  | RStr s => Ok s
  end.

(** A parameter with a default value: [undefined] takes the default. *)
Definition default_arg (v d : raw) : raw :=
  match v with RUndefined => d | _ => v end.

Record NutritionRecord := {
  fields : gmap string raw;
  customNutritionFields : option (gmap string raw)
}.

(** [o.k] on a mapping: [undefined] when the key is absent. *)
Definition get (o : gmap string raw) (k : string) : raw :=
  default RUndefined (o !! k).

(** [o?.k] on a mapping that may be absent. *)
Definition get_opt (o : option (gmap string raw)) (k : string) : raw :=
  match o with
  | Some m => get m k
  | None => RUndefined
  end.

(** [a.filter(t => x > t).length] *)
Definition count_exceeded (x : number) (thresholds : list number) : Z :=
  Z.of_nat (length (List.filter (fun t => gt x t) thresholds)).

End JS.

Import JS.

(** * The category-aware variant *)

Module Engine.

(** Unit conversion handler with field name flexibility *)
Definition parseNutritionValue (rawValue : raw) (nutrientType : string) : exc number :=
  if negb (ToBoolean rawValue) then mret 0%js
  else
    s ← toString rawValue;
    let strValue := trim s in
    match match_number_unit strValue with
    | None => mret 0%js
    | Some (g1, g2) =>
        let value := parseFloat g1 in
        let unit := toLowerCase g2 in
        if String.eqb nutrientType "energy" then
          mret (if String.eqb unit "kj" then div value 4.184%js else value)
        else if String.eqb nutrientType "sodium" then
          mret (if String.eqb unit "g" then mul value 1000%js else value)
        else if String.eqb nutrientType "mass" then
          if String.eqb unit "mg" then mret (div value 1000%js)
          else if String.eqb unit "mcg" then mret (div value 1_000_000%js)
          else mret value
        else if String.eqb nutrientType "percentage" then
          mret (if String.eqb unit "%" then value else 0%js)
        else mret value
    end.

(** The threshold arrays of [calculateNegativePoints], by category. *)
Definition energyThresholds (isBeverage : raw) : list number :=
  if ToBoolean isBeverage
  then [7.2; 14.3; 21.5; 28.5; 35.9; 43.0; 50.2; 57.4; 64.5]%js
  else [80; 160; 240; 320; 400; 480; 560; 640; 720; 800]%js.

Definition sugarsThresholds (isBeverage : raw) : list number :=
  if ToBoolean isBeverage
  then [0; 1.5; 3.0; 4.5; 6.0; 7.5; 9.0; 10.5; 12.0; 13.5]%js
  else [4.5; 9.0; 13.5; 18.0; 22.5; 27.0; 31.0; 36.0; 40.0; 45.0]%js.

Definition satFatThresholds (isBeverage : raw) : list number :=
  if ToBoolean isBeverage
  then [0; 0.1; 0.2; 0.3; 0.4; 0.5; 0.6; 0.7; 0.8; 0.9; 1.0]%js
  else [1; 2; 3; 4; 5; 6; 7; 8; 9; 10]%js.

Definition sodiumThresholds (isBeverage : raw) : list number :=
  if ToBoolean isBeverage
  then [0; 45; 90; 135; 180; 225; 270; 315; 360; 405]%js
  else [90; 180; 270; 360; 450; 540; 630; 720; 810; 900]%js.

(** Negative Points Calculation *)
Definition calculateNegativePoints (nutrition : NutritionRecord) (isBeverage : raw) : exc Z :=
  let isBeverage := default_arg isBeverage (RNum 0%js) in
  let n := fields nutrition in
  energy ← parseNutritionValue (or_else (get n "energy") (RStr "0")) "energy";
  let sugarsValue := or_else (or_else (get n "TotalSugars") (get n "sugars")) (RStr "0") in
  sugars ← parseNutritionValue sugarsValue "mass";
  saturatedFat ← parseNutritionValue (or_else (get n "saturatedFat") (RStr "0")) "mass";
  sodium ← parseNutritionValue (or_else (get n "sodium") (RStr "0")) "sodium";
  let energyPoints := count_exceeded energy (energyThresholds isBeverage) in
  let sugarsPoints := count_exceeded sugars (sugarsThresholds isBeverage) in
  let satFatPoints := count_exceeded saturatedFat (satFatThresholds isBeverage) in
  let sodiumPoints := count_exceeded sodium (sodiumThresholds isBeverage) in
  mret (energyPoints + sugarsPoints + satFatPoints + sodiumPoints).

Record PositivePoints := {
  fvln : Z;
  fiber : Z;
  protein : Z;
  total : Z
}.

Definition fiberThresholds : list number := [0.7; 1.4; 2.1; 2.8; 3.5]%js.
Definition proteinThresholds : list number := [1.6; 3.2; 4.8; 6.4; 8.0]%js.

(** Positive Points Calculation *)
Definition calculatePositivePoints (nutrition : NutritionRecord) (isBeverage : raw) : exc PositivePoints :=
  let n := fields nutrition in
  let fiberValue := or_else (or_else (get n "dietaryfiber") (get n "fiber")) (RStr "0") in
  fvln ← parseNutritionValue (or_else (get n "fruitsVegetablesNuts") (RStr "0")) "percentage";
  fiber ← parseNutritionValue fiberValue "mass";
  protein ← parseNutritionValue (or_else (get n "protein") (RStr "0")) "mass";
  let fvlnPoints :=
    if ge fvln 80%js then 5
    else if ge fvln 60%js then 2
    else if ge fvln 40%js then 1
    else 0 in
  let fiberPoints := count_exceeded fiber fiberThresholds in
  let proteinPoints := count_exceeded protein proteinThresholds in
  mret {| fvln := fvlnPoints;
          fiber := fiberPoints;
          protein := proteinPoints;
          total := fvlnPoints + fiberPoints + proteinPoints |}.

Record Details := {
  negativePoints : Z;
  positivePoints : Z;
  fsaScore : Z
}.

Record Result := {
  healthScore : number;
  calculationDetails : Details
}.

Definition minScore : number := SFopp 15%js.
Definition maxScore : number := 40%js.

(** Normalize to 0-100 scale (higher = healthier).  The FSA score is a
    small integer, kept as such; the rescaling is binary64 arithmetic. *)
Definition normalized (fsaScore : Z) : number :=
  mul (div (sub (of_Z fsaScore) minScore) (sub maxScore minScore)) 100%js.

Definition rescale (fsaScore : Z) : number :=
  Math_round (sub 100%js (Math_min 100%js (Math_max 0%js (normalized fsaScore)))).

(** Main calculation function *)
Definition calculateHealthScore (nutrition : NutritionRecord) (isBeverage : raw) : exc Result :=
  let isBeverage := default_arg isBeverage (RNum 0%js) in
  N ← calculateNegativePoints nutrition isBeverage;
  P ← calculatePositivePoints nutrition isBeverage;
  let fsaScore :=
    if N <? 11 then N - total P
    else if fvln P =? 5 then N - total P
    else N - (fvln P + fiber P) in
  let healthScore := rescale fsaScore in
  mret {| healthScore := healthScore;
          calculationDetails :=
            {| negativePoints := N;
               positivePoints := total P;
               fsaScore := fsaScore |} |}.

End Engine.

(** * The HTTP functions

    A request carries its method and its parsed body; [None] is a missing
    body ([undefined]), and a body that is a scalar has no properties, like
    the empty mapping.  A response records what the handler did to [res]:
    the headers it set, the status (200 until set) and what it sent. *)

Module Http.

(** A property of a request body: a scalar, or a nutrition object. *)
Inductive value :=
| Scalar (v : raw)
| Object (o : NutritionRecord).

Definition truthy (x : value) : bool :=
  match x with
  | Scalar v => ToBoolean v
  | Object _ => true
  end.

(** [body.k] *)
Definition prop (b : gmap string value) (k : string) : value :=
  default (Scalar RUndefined) (b !! k).

(** The object whose fields the engine reads: a scalar has none of them. *)
Definition as_record (x : value) : NutritionRecord :=
  match x with
  | Object o => o
  | Scalar _ => {| fields := ∅; customNutritionFields := None |}
  end.

Record request (B : Type) := {
  method : string;
  body : option B
}.
Arguments method {B} r.
Arguments body {B} r.

Inductive payload :=
| Text (s : string)
| JsonError (message : string)
| JsonResult (r : Engine.Result)
| JsonScore (productId : string) (healthScore : number).

Record response := {
  headers : gmap string string;
  statusCode : Z;
  sent : option payload
}.

Definition fresh : response :=
  {| headers := ∅; statusCode := 200; sent := None |}.

(** [res.set(k, v)], [res.status(n)], and [res.send(p)] or [res.json(p)] *)
Definition set (k v : string) (res : response) : response :=
  {| headers := <[k := v]> (headers res);
     statusCode := statusCode res;
     sent := sent res |}.

Definition status (n : Z) (res : response) : response :=
  {| headers := headers res; statusCode := n; sent := sent res |}.

Definition send (p : payload) (res : response) : response :=
  {| headers := headers res; statusCode := statusCode res; sent := Some p |}.

(** [error.message] *)
Definition message (e : jsError) : string :=
  match e with
  | TypeError msg => msg
  | Error msg => msg
  end.

(** [const { k } = req.body]: a TypeError on a missing body. *)
Definition destructure {B} (req : request B) (k : string) : exc B :=
  match body req with
  | Some b => Ok b
  | None =>
      Throw (TypeError ("Cannot destructure property '" ++ k
                        ++ "' of 'req.body' as it is undefined."))
  end.

End Http.

(** Firebase HTTP Function with CORS, of the category-aware variant *)

Module EngineExports.

Import Http.

Definition calculateHealthScore (req : request (gmap string value)) : response :=
  let res := set "Access-Control-Allow-Origin" "*" fresh in
  if String.eqb (method req) "OPTIONS" then
    let res := set "Access-Control-Allow-Methods" "POST" res in
    let res := set "Access-Control-Allow-Headers" "Content-Type" res in
    send (Text "") (status 204 res)
  else
    let attempt : exc response :=
      if negb (String.eqb (method req) "POST")
      then mret (send (Text "POST required") (status 400 res))
      else
        b ← destructure req "nutrition";
        let nutrition := prop b "nutrition" in
        let isBeverage := prop b "isBeverage" in
        if negb (truthy nutrition)
        then mret (send (JsonError "Nutrition data required") (status 400 res))
        else
          let isBeverageFlag := if truthy isBeverage then RNum 1%js else RNum 0%js in
          result ← Engine.calculateHealthScore (as_record nutrition) isBeverageFlag;
          mret (send (JsonResult result) res) in
    match attempt with
    | Ok res' => res'
    | Throw error => send (JsonError (message error)) (status 500 res)
    end.

End EngineExports.

(** ** The same functions on a heap

    [calculateHealthScore] receives a reference to the nutrition object.
    Here the object lives in a heap and every property read goes through
    it, so that what the call does to the object can be stated. *)

Module OnHeap.

Definition loc := positive.
Definition heap := gmap loc NutritionRecord.

Definition St (A : Type) : Type := heap -> exc A * heap.

#[global] Instance St_ret : MRet St := fun A a h => (Ok a, h).

#[global] Instance St_bind : MBind St := fun A B f m h =>
  match m h with
  | (Ok a, h') => f a h'
  | (Throw e, h') => (Throw e, h')
  end.

(** A call of a function that touches no object. *)
Definition call {A} (m : exc A) : St A := fun h => (m, h).

(** [o.k] through the reference [o] *)
Definition read (o : loc) (k : string) : St raw := fun h =>
  match h !! o with
  | Some r => (Ok (get (fields r) k), h)
  | None => (Throw (TypeError "Cannot read properties of undefined"), h)
  end.

(** [o.k = v] through the reference [o].  The heap can be written as well
    as read; the three functions below never do. *)
Definition write (o : loc) (k : string) (v : raw) : St unit := fun h =>
  match h !! o with
  | Some r =>
      (Ok tt,
       <[ o := {| fields := <[ k := v ]> (fields r);
                  customNutritionFields := customNutritionFields r |} ]> h)
  | None => (Throw (TypeError "Cannot set properties of undefined"), h)
  end.

Definition calculateNegativePoints (nutrition : loc) (isBeverage : raw) : St Z :=
  let isBeverage := default_arg isBeverage (RNum 0%js) in
  e ← read nutrition "energy";
  energy ← call (Engine.parseNutritionValue (or_else e (RStr "0")) "energy");
  ts ← read nutrition "TotalSugars";
  sg ← (if ToBoolean ts then mret ts else read nutrition "sugars");
  let sugarsValue := or_else sg (RStr "0") in
  sugars ← call (Engine.parseNutritionValue sugarsValue "mass");
  sf ← read nutrition "saturatedFat";
  saturatedFat ← call (Engine.parseNutritionValue (or_else sf (RStr "0")) "mass");
  so ← read nutrition "sodium";
  sodium ← call (Engine.parseNutritionValue (or_else so (RStr "0")) "sodium");
  let energyPoints := count_exceeded energy (Engine.energyThresholds isBeverage) in
  let sugarsPoints := count_exceeded sugars (Engine.sugarsThresholds isBeverage) in
  let satFatPoints := count_exceeded saturatedFat (Engine.satFatThresholds isBeverage) in
  let sodiumPoints := count_exceeded sodium (Engine.sodiumThresholds isBeverage) in
  mret (energyPoints + sugarsPoints + satFatPoints + sodiumPoints).

Definition calculatePositivePoints (nutrition : loc) (isBeverage : raw) : St Engine.PositivePoints :=
  df ← read nutrition "dietaryfiber";
  fb ← (if ToBoolean df then mret df else read nutrition "fiber");
  let fiberValue := or_else fb (RStr "0") in
  fv ← read nutrition "fruitsVegetablesNuts";
  fvln ← call (Engine.parseNutritionValue (or_else fv (RStr "0")) "percentage");
  fiber ← call (Engine.parseNutritionValue fiberValue "mass");
  pr ← read nutrition "protein";
  protein ← call (Engine.parseNutritionValue (or_else pr (RStr "0")) "mass");
  let fvlnPoints :=
    if ge fvln 80%js then 5
    else if ge fvln 60%js then 2
    else if ge fvln 40%js then 1
    else 0 in
  let fiberPoints := count_exceeded fiber Engine.fiberThresholds in
  let proteinPoints := count_exceeded protein Engine.proteinThresholds in
  mret {| Engine.fvln := fvlnPoints;
          Engine.fiber := fiberPoints;
          Engine.protein := proteinPoints;
          Engine.total := fvlnPoints + fiberPoints + proteinPoints |}.

Definition calculateHealthScore (nutrition : loc) (isBeverage : raw) : St Engine.Result :=
  let isBeverage := default_arg isBeverage (RNum 0%js) in
  N ← calculateNegativePoints nutrition isBeverage;
  P ← calculatePositivePoints nutrition isBeverage;
  let fsaScore :=
    if N <? 11 then N - Engine.total P
    else if Engine.fvln P =? 5 then N - Engine.total P
    else N - (Engine.fvln P + Engine.fiber P) in
  let healthScore := Engine.rescale fsaScore in
  mret {| Engine.healthScore := healthScore;
          Engine.calculationDetails :=
            {| Engine.negativePoints := N;
               Engine.positivePoints := Engine.total P;
               Engine.fsaScore := fsaScore |} |}.

End OnHeap.

(** * The stored-product variant *)

Module StoredProduct.

(** Unit conversion handler with field name flexibility *)
Definition parseNutritionValue (rawValue : raw) (nutrientType : string) : exc number :=
  if negb (ToBoolean rawValue) then mret 0%js
  else
    s ← toString rawValue;
    let strValue := trim s in
    match match_number_unit strValue with
    | None => mret 0%js
    | Some (g1, g2) =>
        let value := parseFloat g1 in
        let unit := toLowerCase g2 in
        if String.eqb nutrientType "energy" then
          mret (if String.eqb unit "kj" then div value 4.184%js else value)
        else if String.eqb nutrientType "sodium" then
          mret (if String.eqb unit "g" then mul value 1000%js else value)
        else if String.eqb nutrientType "mass" then
          mret (if String.eqb unit "mg" then div value 1000%js else value)
        else if String.eqb nutrientType "percentage" then
          mret (if String.eqb unit "%" then value else 0%js)
        else mret value
    end.

Definition energyThresholds : list number :=
  [80; 160; 240; 320; 400; 480; 560; 640; 720; 800]%js.
Definition sugarsThresholds : list number :=
  [7.2; 14.3; 21.5; 28.5; 35.9; 43.0; 50.2; 57.4; 64.5]%js.
Definition satFatThresholds : list number :=
  [4.5; 9.0; 13.5; 18.0; 22.5; 27.0; 31.0; 36.0; 40.0; 45.0]%js.
Definition sodiumThresholds : list number :=
  [90; 180; 270; 360; 450; 540; 630; 720; 810; 900]%js.

(** Negative Points Calculation *)
Definition calculateNegativePoints (nutrition : NutritionRecord) : exc Z :=
  let n := fields nutrition in
  let sugarsValue := or_else (or_else (get n "TotalSugars") (get n "sugars")) (RStr "0") in
  energy ← parseNutritionValue (or_else (get n "energy") (RStr "0")) "energy";
  sugars ← parseNutritionValue sugarsValue "mass";
  saturatedFat ← parseNutritionValue
    (or_else (get_opt (customNutritionFields nutrition) "saturatedFat") (RStr "0")) "mass";
  sodium ← parseNutritionValue (or_else (get n "sodium") (RStr "0")) "sodium";
  let energyPoints := count_exceeded energy energyThresholds in
  let sugarsPoints := count_exceeded sugars sugarsThresholds in
  let satFatPoints := count_exceeded saturatedFat satFatThresholds in
  let sodiumPoints := count_exceeded sodium sodiumThresholds in
  mret (energyPoints + sugarsPoints + satFatPoints + sodiumPoints).

(** Positive Points Calculation *)
Definition calculatePositivePoints (nutrition : NutritionRecord) : exc Engine.PositivePoints :=
  let n := fields nutrition in
  let fiberValue := or_else (or_else (get n "dietaryfiber") (get n "fiber")) (RStr "0") in
  fvln ← parseNutritionValue (or_else (get n "fruitsVegetablesNuts") (RStr "0")) "percentage";
  fiber ← parseNutritionValue fiberValue "mass";
  protein ← parseNutritionValue (or_else (get n "protein") (RStr "0")) "mass";
  let fvlnPoints :=
    if ge fvln 80%js then 5
    else if ge fvln 60%js then 2
    else if ge fvln 40%js then 1
    else 0 in
  let fiberPoints := count_exceeded fiber Engine.fiberThresholds in
  let proteinPoints := count_exceeded protein Engine.proteinThresholds in
  mret {| Engine.fvln := fvlnPoints;
          Engine.fiber := fiberPoints;
          Engine.protein := proteinPoints;
          Engine.total := fvlnPoints + fiberPoints + proteinPoints |}.

(** A document of the [products] collection: the nutrition record, and what
    [calculateHealthScore] stores beside it. *)
Record Product := {
  nutritionInfo : option NutritionRecord;
  storedHealthScore : option number;
  updatedAt : option Z;
  storedDetails : option Engine.Details
}.

Definition Db := gmap string Product.

Definition emptyRecord : NutritionRecord :=
  {| fields := ∅; customNutritionFields := None |}.

(** [db.collection('products').doc(productId)].  The library checks the id
    before anything is read and raises an error of its own on an id it does
    not accept.  Which ids those are, and what the error says, is the
    library's business and no code of this repository: the functions below
    take its answer as their first argument, the key of the document the id
    denotes or the error raised. *)
Definition DocumentOf := string -> exc string.

(** Main calculation function: reads the product, scores it, and updates
    the document.  [now] is the server's timestamp. *)
Definition calculateHealthScore
    (doc : DocumentOf) (productId : string) (now : Z) (db : Db) : exc number * Db :=
  match doc productId with
  | Throw e => (Throw e, db)
  | Ok productRef =>
      match db !! productRef with
      | None => (Throw (Error "Product not found"), db)
      | Some productDoc =>
          let nutrition := default emptyRecord (nutritionInfo productDoc) in
          match calculateNegativePoints nutrition with
          | Throw e => (Throw e, db)
          | Ok N =>
              match calculatePositivePoints nutrition with
              | Throw e => (Throw e, db)
              | Ok P =>
                  let fsaScore :=
                    if N <? 11 then N - Engine.total P
                    else if Engine.fvln P =? 5 then N - Engine.total P
                    else N - (Engine.fvln P + Engine.fiber P) in
                  let healthScore := Engine.rescale fsaScore in
                  (Ok healthScore,
                   <[ productRef :=
                        {| nutritionInfo := nutritionInfo productDoc;
                           storedHealthScore := Some healthScore;
                           updatedAt := Some now;
                           storedDetails :=
                             Some {| Engine.negativePoints := N;
                                     Engine.positivePoints := Engine.total P;
                                     Engine.fsaScore := fsaScore |} |} ]> db)
              end
          end
      end
  end.

End StoredProduct.

(** Firebase HTTP Function with CORS, of the stored-product variant.  The
    body is a JSON object whose [productId], if any, is a string. *)

Module StoredProductExports.

Import Http.

Definition calculateHealthScore
    (doc : StoredProduct.DocumentOf)
    (req : request (gmap string string)) (now : Z) (db : StoredProduct.Db)
    : response * StoredProduct.Db :=
  let res := set "Access-Control-Allow-Origin" "*" fresh in
  if String.eqb (method req) "OPTIONS" then
    let res := set "Access-Control-Allow-Methods" "POST" res in
    let res := set "Access-Control-Allow-Headers" "Content-Type" res in
    (send (Text "") (status 204 res), db)
  else
    let attempt : exc response * StoredProduct.Db :=
      if negb (String.eqb (method req) "POST")
      then (Ok (send (Text "POST required") (status 400 res)), db)
      else
        match destructure req "productId" with
        | Throw e => (Throw e, db)
        | Ok b =>
            let productId := default "" (b !! "productId") in
            if String.eqb productId ""
            then (Ok (send (JsonError "productId required") (status 400 res)), db)
            else
              match StoredProduct.calculateHealthScore doc productId now db with
              | (Ok score, db') => (Ok (send (JsonScore productId score) res), db')
              | (Throw e, db') => (Throw e, db')
              end
        end in
    match attempt with
    | (Ok res', db') => (res', db')
    | (Throw error, db') => (send (JsonError (message error)) (status 500 res), db')
    end.

End StoredProductExports.

(** * The first variant *)

Module Legacy.

(** Helper function to parse nutrition values: every character that is no
    digit and no dot is deleted, and a [NaN] from [parseFloat] becomes 0. *)
Definition parseNutritionValue (value : raw) : exc number :=
  s ← toString value;
  let numericPart := keep_number_chars s in
  let x := parseFloat numericPart in
  mret (if ToBoolean (RNum x) then x else 0%js).

(** [if (c) points += 1] *)
Definition bump (c : bool) (points : Z) : Z := if c then points + 1 else points.

(** Nutri-Score Calculation Function: reads the product, scores it with
    ladders of five breakpoints and no unit conversion, and stores the
    inverted score.  [now] is the server's timestamp. *)
Definition calculateHealthScore
    (doc : StoredProduct.DocumentOf) (productId : string) (now : Z) (db : StoredProduct.Db)
    : exc number * StoredProduct.Db :=
  match doc productId with
  | Throw e => (Throw e, db)
  | Ok productRef =>
      match db !! productRef with
      | None => (Throw (Error "Product not found"), db)
      | Some productData =>
          let nutritionInfo :=
            default StoredProduct.emptyRecord (StoredProduct.nutritionInfo productData) in
          let n := fields nutritionInfo in
          let scored : exc number :=
            energy ← parseNutritionValue (or_else (get n "energy") (RStr "0"));
            sugars ← parseNutritionValue (or_else (get n "sugars") (RStr "0"));
            sodium ← parseNutritionValue (or_else (get n "sodium") (RStr "0"));
            fiber ← parseNutritionValue (or_else (get n "fiber") (RStr "0"));
            protein ← parseNutritionValue (or_else (get n "protein") (RStr "0"));
            fruitsVegetablesNuts ←
              parseNutritionValue (or_else (get n "fruitsVegetablesNuts") (RStr "0"));
            saturatedFat ←
              parseNutritionValue
                (or_else (get_opt (customNutritionFields nutritionInfo) "saturatedFat")
                         (RStr "0"));
            let negativePoints := 0 in
            energyKcal ← parseNutritionValue (RStr (Number_toString energy));
            let negativePoints := bump (gt energyKcal 335%js) negativePoints in
            let negativePoints := bump (gt energyKcal 670%js) negativePoints in
            let negativePoints := bump (gt energyKcal 1005%js) negativePoints in
            let negativePoints := bump (gt energyKcal 1340%js) negativePoints in
            let negativePoints := bump (gt energyKcal 1675%js) negativePoints in
            let negativePoints := bump (gt sugars 4.5%js) negativePoints in
            let negativePoints := bump (gt sugars 9%js) negativePoints in
            let negativePoints := bump (gt sugars 13.5%js) negativePoints in
            let negativePoints := bump (gt sugars 18%js) negativePoints in
            let negativePoints := bump (gt sugars 22.5%js) negativePoints in
            let negativePoints := bump (gt saturatedFat 1%js) negativePoints in
            let negativePoints := bump (gt saturatedFat 2%js) negativePoints in
            let negativePoints := bump (gt saturatedFat 3%js) negativePoints in
            let negativePoints := bump (gt saturatedFat 4%js) negativePoints in
            let negativePoints := bump (gt saturatedFat 5%js) negativePoints in
            let negativePoints := bump (gt sodium 90%js) negativePoints in
            let negativePoints := bump (gt sodium 180%js) negativePoints in
            let negativePoints := bump (gt sodium 270%js) negativePoints in
            let negativePoints := bump (gt sodium 360%js) negativePoints in
            let negativePoints := bump (gt sodium 450%js) negativePoints in
            let positivePoints := 0 in
            let positivePoints := bump (gt fruitsVegetablesNuts 40%js) positivePoints in
            let positivePoints := bump (gt fruitsVegetablesNuts 60%js) positivePoints in
            let positivePoints := bump (gt fruitsVegetablesNuts 80%js) positivePoints in
            let positivePoints := bump (gt fiber 0.9%js) positivePoints in
            let positivePoints := bump (gt fiber 1.9%js) positivePoints in
            let positivePoints := bump (gt fiber 2.8%js) positivePoints in
            let positivePoints := bump (gt fiber 3.7%js) positivePoints in
            let positivePoints := bump (gt fiber 4.7%js) positivePoints in
            let positivePoints := bump (gt protein 1.6%js) positivePoints in
            let positivePoints := bump (gt protein 3.2%js) positivePoints in
            let positivePoints := bump (gt protein 4.8%js) positivePoints in
            let positivePoints := bump (gt protein 6.4%js) positivePoints in
            let positivePoints := bump (gt protein 8.0%js) positivePoints in
            let nutriScore := negativePoints - positivePoints in
            let healthScore := Math_round (Engine.normalized nutriScore) in
            mret (sub 100%js healthScore) in
          match scored with
          | Throw e => (Throw e, db)
          | Ok inverted =>
              (Ok inverted,
               <[ productRef :=
                    {| StoredProduct.nutritionInfo := StoredProduct.nutritionInfo productData;
                       StoredProduct.storedHealthScore := Some inverted;
                       StoredProduct.updatedAt := Some now;
                       StoredProduct.storedDetails := StoredProduct.storedDetails productData |} ]> db)
          end
      end
  end.

(** Firebase Cloud Function.  The body is a JSON object whose [productId],
    if any, is a string. *)
Definition calculateProductHealthScore
    (doc : StoredProduct.DocumentOf)
    (req : Http.request (gmap string string)) (now : Z) (db : StoredProduct.Db)
    : Http.response * StoredProduct.Db :=
  let res := Http.fresh in
  let attempt : exc Http.response * StoredProduct.Db :=
    if negb (String.eqb (Http.method req) "POST")
    then (Ok (Http.send (Http.Text "Only POST requests are accepted") (Http.status 400 res)), db)
    else
      match Http.destructure req "productId" with
      | Throw e => (Throw e, db)
      | Ok b =>
          let productId := default "" (b !! "productId") in
          if String.eqb productId ""
          then (Ok (Http.send (Http.Text "Product ID is required") (Http.status 400 res)), db)
          else
            match calculateHealthScore doc productId now db with
            | (Ok healthScore, db') =>
                (Ok (Http.send (Http.JsonScore productId healthScore) (Http.status 200 res)), db')
            | (Throw e, db') => (Throw e, db')
            end
      end in
  match attempt with
  | (Ok res', db') => (res', db')
  | (Throw error, db') =>
      (Http.send (Http.Text ("Error processing request: " ++ Http.message error))
                 (Http.status 500 res), db')
  end.

End Legacy.

(** * Notions the statements use *)

Module Notions.

(** The number [parseNutritionValue] returns.  [NaN] stands in for a throw,
    which never happens: that is lemma [parse_returns] below. *)
Definition parsed (v : raw) (t : string) : number :=
  match Engine.parseNutritionValue v t with
  | Ok x => x
  | Throw _ => NaN
  end.

(** The same for the parser of the stored-product variant; lemma
    [stored_parse_closed]. *)
Definition stored_parsed (v : raw) (t : string) : number :=
  match StoredProduct.parseNutritionValue v t with
  | Ok x => x
  | Throw _ => NaN
  end.

(** The four nutrients that earn negative points, each with the fields it
    is resolved from, the order of resolution, its unit family and its
    threshold array. *)
Inductive nutrient := Energy | Sugars | SaturatedFat | Sodium.

Definition field_names (d : nutrient) : list string :=
  match d with
  | Energy => ["energy"]
  | Sugars => ["TotalSugars"; "sugars"]
  | SaturatedFat => ["saturatedFat"]
  | Sodium => ["sodium"]
  end.

Definition resolved (d : nutrient) (n : gmap string raw) : raw :=
  match d with
  | Energy => or_else (get n "energy") (RStr "0")
  | Sugars => or_else (or_else (get n "TotalSugars") (get n "sugars")) (RStr "0")
  | SaturatedFat => or_else (get n "saturatedFat") (RStr "0")
  | Sodium => or_else (get n "sodium") (RStr "0")
  end.

Definition dimension (d : nutrient) : string :=
  match d with
  | Energy => "energy"
  | Sugars | SaturatedFat => "mass"
  | Sodium => "sodium"
  end.

Definition ladder (d : nutrient) (isBeverage : raw) : list number :=
  match d with
  | Energy => Engine.energyThresholds isBeverage
  | Sugars => Engine.sugarsThresholds isBeverage
  | SaturatedFat => Engine.satFatThresholds isBeverage
  | Sodium => Engine.sodiumThresholds isBeverage
  end.

(** The normalized quantity of a nutrient in a record. *)
Definition quantity (d : nutrient) (n : NutritionRecord) : number :=
  parsed (resolved d (fields n)) (dimension d).

Definition points (d : nutrient) (n : NutritionRecord) (isBeverage : raw) : Z :=
  count_exceeded (quantity d n) (ladder d isBeverage).

(** The score the rescaling denotes in exact arithmetic:
    [100 - 100 * (fsa + 15) / 55], rounded to the nearest integer, a tie
    going up. *)
Definition exact_score (fsa : Z) : Z := (200 * (40 - fsa) + 55) / 110.

(** The FSA scores the engine can reach. *)
Definition fsa_domain : list Z := seqZ (-15) 56.

(** Ladders of ten breakpoints in equal steps: [step * k / 10^digits] for
    [k] from 1 to 10. *)
Definition uniform_ladder (step : Z) (digits : Z) : list number :=
  (fun k => decimal (step * k) (- digits)) <$> seqZ 1 10.

(** The food ladder for sugars as the specification words it: breakpoint
    [k] is [4.5 * k]. *)
Definition specified_sugar_ladder : list number := uniform_ladder 45 1.

(** Records with a single field, at top level or in the nested mapping
    of custom fields. *)
Definition top_level (k : string) (v : raw) : NutritionRecord :=
  {| fields := {[ k := v ]}; customNutritionFields := None |}.

Definition nested (k : string) (v : raw) : NutritionRecord :=
  {| fields := ∅; customNutritionFields := Some {[ k := v ]} |}.

Definition food : raw := RNum 0%js.
Definition beverage : raw := RNum 1%js.

(** A heavily penalized food (20 negative points) with some fiber, much
    protein, and the given share of produce. *)
Definition penalized (produce : string) : NutritionRecord :=
  {| fields := list_to_map
       [("energy", RStr "900"); ("sugars", RStr "50g"); ("fiber", RStr "1g");
        ("protein", RStr "9g"); ("fruitsVegetablesNuts", RStr produce)];
     customNutritionFields := None |}.

(** Every character of a string passes a test; the first one, if any,
    fails it. *)
Fixpoint all_chars (p : ascii -> bool) (s : string) : bool :=
  match s with
  | EmptyString => true
  | String c s' => p c && all_chars p s'
  end.

Definition head_fails (p : ascii -> bool) (s : string) : bool :=
  match s with
  | EmptyString => true
  | String c _ => negb (p c)
  end.

(** A run of digits and dots that starts with a number [parseFloat] can
    read: a digit, or a dot that a digit follows. *)
Definition starts_with_number (s : string) : bool :=
  match s with
  | String c r => isDigit c || ((code c =? 46)%N && negb (head_fails isDigit r))
  | EmptyString => false
  end.

(** Characters and bytes outside both classes of the pattern. *)
Definition inert (c : ascii) : bool := negb (isNumberChar c) && negb (isUnitChar c).

Definition inert_bytes (w : list N) : bool :=
  forallb (fun b => inert (ascii_of_N b)) w.

Definition sign_clear (x : number) : bool :=
  match x with
  | S754_zero s | S754_infinity s | S754_finite s _ _ => negb s
  | S754_nan => false
  end.

Definition fsa_of (N : Z) (P : Engine.PositivePoints) : Z :=
  if N <? 11 then N - Engine.total P
  else if Engine.fvln P =? 5 then N - Engine.total P
  else N - (Engine.fvln P + Engine.fiber P).

Inductive bonus := Produce | Fiber | Protein.

Definition bonus_fields (p : bonus) : list string :=
  match p with
  | Produce => ["fruitsVegetablesNuts"]
  | Fiber => ["dietaryfiber"; "fiber"]
  | Protein => ["protein"]
  end.

Definition bonus_resolved (p : bonus) (n : gmap string raw) : raw :=
  match p with
  | Produce => or_else (get n "fruitsVegetablesNuts") (RStr "0")
  | Fiber => or_else (or_else (get n "dietaryfiber") (get n "fiber")) (RStr "0")
  | Protein => or_else (get n "protein") (RStr "0")
  end.

Definition bonus_dimension (p : bonus) : string :=
  match p with
  | Produce => "percentage"
  | Fiber | Protein => "mass"
  end.

Definition bonus_quantity (p : bonus) (n : NutritionRecord) : number :=
  parsed (bonus_resolved p (fields n)) (bonus_dimension p).

Definition produce_band (x : number) : Z :=
  if ge x 80%js then 5 else if ge x 60%js then 2 else if ge x 40%js then 1 else 0.

Definition negative_total (n : NutritionRecord) (isBeverage : raw) : Z :=
  points Energy n isBeverage + points Sugars n isBeverage
  + points SaturatedFat n isBeverage + points Sodium n isBeverage.

Definition positive_breakdown (n : NutritionRecord) : Engine.PositivePoints :=
  let v := produce_band (bonus_quantity Produce n) in
  let f := count_exceeded (bonus_quantity Fiber n) Engine.fiberThresholds in
  let p := count_exceeded (bonus_quantity Protein n) Engine.proteinThresholds in
  {| Engine.fvln := v; Engine.fiber := f; Engine.protein := p; Engine.total := v + f + p |}.

Definition result_of (N : Z) (P : Engine.PositivePoints) : Engine.Result :=
  {| Engine.healthScore := Engine.rescale (fsa_of N P);
     Engine.calculationDetails :=
       {| Engine.negativePoints := N;
          Engine.positivePoints := Engine.total P;
          Engine.fsaScore := fsa_of N P |} |}.

(** The fields the category-aware variant reads. *)
Definition consulted : list string :=
  ["energy"; "TotalSugars"; "sugars"; "saturatedFat"; "sodium";
   "fruitsVegetablesNuts"; "dietaryfiber"; "fiber"; "protein"].

(** Two values of a field that [a || b] cannot tell apart: equal, or both
    falsy. *)
Definition same_reading (a b : raw) : Prop :=
  a = b \/ (ToBoolean a = false /\ ToBoolean b = false).

End Notions.

Import Notions.

(** * Proof tools *)

(** Equality of numbers is decidable, so a property of the 56 reachable
    scores is checked by evaluation. *)
#[global] Instance spec_float_eq_dec : EqDecision spec_float.
Proof. solve_decision. Defined.

#[global] Instance number_eq_dec : EqDecision number := spec_float_eq_dec.

(** Case analysis on every integer comparison in sight. *)
Ltac cmp_cases :=
  repeat match goal with
  | H : context [ PosDef.Pos.compare_cont Eq ?a ?b ] |- _ =>
      change (PosDef.Pos.compare_cont Eq a b) with (Pos.compare a b) in H
  | |- context [ PosDef.Pos.compare_cont Eq ?a ?b ] =>
      change (PosDef.Pos.compare_cont Eq a b) with (Pos.compare a b)
  end;
  repeat match goal with
  | H : context [ (?a ?= ?b)%Z ] |- _ => destruct (Z.compare_spec a b)
  | |- context [ (?a ?= ?b)%Z ] => destruct (Z.compare_spec a b)
  | H : context [ (?a ?= ?b)%positive ] |- _ => destruct (Pos.compare_spec a b)
  | |- context [ (?a ?= ?b)%positive ] => destruct (Pos.compare_spec a b)
  end.

(** A field name is not in a short list of names. *)
Ltac not_listed := rewrite list_elem_of_In; simpl; intuition discriminate.

(** Every breakpoint of one ladder lies below its partner in another. *)
Ltac rungs_below := repeat (constructor; [reflexivity|]); constructor.

(** Closes the side cases of a case analysis on a request: the premises are
    taken apart and contradict what is known. *)
Ltac settle :=
  intros;
  repeat match goal with
  | H : _ /\ _ |- _ => destruct H
  | H : exists _, _ |- _ => destruct H
  | H : _ \/ _ |- _ => destruct H
  end;
  solve [reflexivity | discriminate | congruence | contradiction | left; reflexivity].

(** A field name is one of the consulted ones. *)
Ltac is_consulted := rewrite list_elem_of_In; simpl; tauto.

(** * Facts about the platform *)

(** Literals denote the nearest binary64 number; halves and integers are
    exact. *)
Example literals :
  7.2%js = decimal 72 (-1) /\
  4.184%js = div (of_Z 4184) (of_Z 1000) /\
  1_000_000%js = of_Z 1000000 /\
  4.5%js = div (of_Z 9) (of_Z 2) /\
  Number_toString 7.2%js = "7.2" /\
  Number_toString (div 1%js 3%js) = "0.3333333333333333".
Proof. repeat split; vm_compute; reflexivity. Qed.

(** Comparison of numbers is transitive where it is defined: what exceeds
    a threshold keeps exceeding it when it grows. *)
Lemma lt_le_trans (t x y : number) :
  lt t x = true -> le x y = true -> lt t y = true.
Proof.
  unfold lt, le, SFltb, SFleb, SFcompare.
  destruct t as [st|st| |st mt et], x as [sx|sx| |sx mx ex], y as [sy|sy| |sy my ey];
    try discriminate; try reflexivity;
    repeat match goal with s : bool |- _ => destruct s end;
    try discriminate; try reflexivity;
    intros; cmp_cases; simpl in *;
    try discriminate; try reflexivity; try lia.
Qed.

Lemma count_exceeded_bounds (x : number) (l : list number) :
  0 <= count_exceeded x l <= Z.of_nat (length l).
Proof.
  unfold count_exceeded. pose proof (List.filter_length_le (fun t => gt x t) l). lia.
Qed.

Lemma count_exceeded_mono (x y : number) (l : list number) :
  le x y = true -> count_exceeded x l <= count_exceeded y l.
Proof.
  intros Hxy. unfold count_exceeded.
  induction l as [|t l IH]; simpl; [lia|].
  destruct (gt x t) eqn:Hx.
  - assert (Hy : gt y t = true) by exact (lt_le_trans t x y Hx Hxy).
    rewrite Hy. simpl length. lia.
  - destruct (gt y t); simpl length; lia.
Qed.

Lemma ToBoolean_default_arg (b : raw) :
  ToBoolean (default_arg b (RNum 0%js)) = ToBoolean b.
Proof. destruct b; reflexivity. Qed.

Lemma default_arg_idem (b d : raw) :
  default_arg (default_arg b d) d = default_arg b d.
Proof. destruct b, d; reflexivity. Qed.

(** ** The pattern and [trim] *)

Lemma of_bytes_app (a b : list N) : of_bytes (a ++ b)%list = of_bytes a ++ of_bytes b.
Proof.
  unfold of_bytes. induction a as [|x a IH]; simpl; [reflexivity|].
  rewrite IH. reflexivity.
Qed.

Lemma of_bytes_bytes (s : string) : of_bytes (bytes s) = s.
Proof.
  unfold of_bytes, bytes. induction s as [|c s IH]; simpl; [reflexivity|].
  unfold code. rewrite ascii_N_embedding. f_equal. exact IH.
Qed.

Lemma of_bytes_inert (w : list N) :
  inert_bytes w = true -> all_chars inert (of_bytes w) = true.
Proof.
  unfold of_bytes, inert_bytes. induction w as [|x w IH]; simpl; [reflexivity|].
  intros H. apply andb_true_iff in H as [Hx Hw]. rewrite Hx. simpl. auto.
Qed.

Lemma inert_bytes_app (a b : list N) :
  inert_bytes a = true -> inert_bytes b = true -> inert_bytes (a ++ b)%list = true.
Proof. unfold inert_bytes. intros Ha Hb. rewrite forallb_app, Ha, Hb. reflexivity. Qed.

Lemma inert_bytes_rev (a : list N) : inert_bytes a = true -> inert_bytes (rev a) = true.
Proof.
  unfold inert_bytes. rewrite !forallb_forall. intros H x Hx. apply H.
  apply in_rev. exact Hx.
Qed.

Lemma dropPrefix_spec (w l r : list N) : dropPrefix w l = Some r -> l = (w ++ r)%list.
Proof.
  revert l. induction w as [|a w IH]; intros [|b l]; simpl; intros H; try congruence.
  destruct (N.eqb_spec a b) as [->|]; [|discriminate].
  f_equal. apply IH. exact H.
Qed.

Lemma dropOne_spec (seqs : list (list N)) (l r : list N) :
  forallb inert_bytes seqs = true ->
  dropOne seqs l = Some r ->
  exists w, inert_bytes w = true /\ l = (w ++ r)%list.
Proof.
  induction seqs as [|w seqs IH]; simpl; intros Hs H; [discriminate|].
  apply andb_true_iff in Hs as [Hw Hs].
  destruct (dropPrefix w l) as [r'|] eqn:Hp.
  - injection H as ->. exists w. split; [exact Hw|]. apply dropPrefix_spec. exact Hp.
  - apply IH; assumption.
Qed.

Lemma dropAll_spec (fuel : nat) (seqs : list (list N)) (l : list N) :
  forallb inert_bytes seqs = true ->
  exists w, inert_bytes w = true /\ l = (w ++ dropAll fuel seqs l)%list.
Proof.
  intros Hs. revert l. induction fuel as [|fuel IH]; intros l; simpl.
  - exists []. split; reflexivity.
  - destruct (dropOne seqs l) as [r|] eqn:Hd.
    + destruct (dropOne_spec seqs l r Hs Hd) as (w & Hw & ->).
      destruct (IH r) as (w' & Hw' & Hr).
      exists (w ++ w')%list. split; [apply inert_bytes_app; assumption|].
      rewrite <- app_assoc. f_equal. exact Hr.
    + exists []. split; reflexivity.
Qed.

Lemma whiteSpace_inert :
  forallb inert_bytes whiteSpace = true /\
  forallb inert_bytes (map (@rev N) whiteSpace) = true.
Proof. split; vm_compute; reflexivity. Qed.

Lemma trim_decompose (s : string) :
  exists pre post : string,
    s = pre ++ trim s ++ post /\
    all_chars inert pre = true /\ all_chars inert post = true.
Proof.
  destruct whiteSpace_inert as [Hws Hrev].
  unfold trim.
  destruct (dropAll_spec (String.length s) whiteSpace (bytes s) Hws) as (w1 & Hw1 & H1).
  set (t := trimStart s).
  destruct (dropAll_spec (String.length t) (map (@rev N) whiteSpace) (rev (bytes t)) Hrev)
    as (w2 & Hw2 & H2).
  exists (of_bytes w1), (of_bytes (rev w2)).
  split; [|split; apply of_bytes_inert; [|apply inert_bytes_rev]; assumption].
  assert (Ht : t = trimEnd t ++ of_bytes (rev w2)).
  { unfold trimEnd. rewrite <- of_bytes_app, <- rev_app_distr, <- H2, rev_involutive.
    symmetry. apply of_bytes_bytes. }
  rewrite <- Ht. unfold t, trimStart. rewrite <- of_bytes_app, <- H1.
  symmetry. apply of_bytes_bytes.
Qed.

Lemma match_none_on_inert (s : string) :
  all_chars inert s = true -> match_number_unit s = None.
Proof.
  induction s as [|c s IH]; simpl; [reflexivity|].
  intros H. apply andb_true_iff in H as [Hc Hs].
  unfold inert in Hc. apply andb_true_iff in Hc as [Hn _].
  apply negb_true_iff in Hn. rewrite Hn. auto.
Qed.

Lemma match_skips_inert_prefix (pre m : string) :
  all_chars inert pre = true ->
  match_number_unit (pre ++ m) = match_number_unit m.
Proof.
  induction pre as [|c pre IH]; simpl; [reflexivity|].
  intros H. apply andb_true_iff in H as [Hc Hs].
  unfold inert in Hc. apply andb_true_iff in Hc as [Hn _].
  apply negb_true_iff in Hn. rewrite Hn. auto.
Qed.

Lemma takeWhile_app (p : ascii -> bool) (m post : string) :
  all_chars (fun c => negb (p c)) post = true ->
  takeWhile p (m ++ post) = takeWhile p m.
Proof.
  intros Hpost. induction m as [|c m IH]; simpl.
  - destruct post as [|c post]; simpl in *; [reflexivity|].
    apply andb_true_iff in Hpost as [Hc _]. apply negb_true_iff in Hc.
    rewrite Hc. reflexivity.
  - destruct (p c); [f_equal; exact IH | reflexivity].
Qed.

Lemma dropWhile_app (p : ascii -> bool) (m post : string) :
  all_chars (fun c => negb (p c)) post = true ->
  dropWhile p (m ++ post) = dropWhile p m ++ post.
Proof.
  intros Hpost. induction m as [|c m IH]; simpl.
  - destruct post as [|c post]; simpl in *; [reflexivity|].
    apply andb_true_iff in Hpost as [Hc _]. apply negb_true_iff in Hc.
    rewrite Hc. reflexivity.
  - destruct (p c); [exact IH | reflexivity].
Qed.

Lemma all_chars_weaken (p q : ascii -> bool) (s : string) :
  (forall c, p c = true -> q c = true) ->
  all_chars p s = true -> all_chars q s = true.
Proof.
  intros Hpq. induction s as [|c s IH]; simpl; [reflexivity|].
  intros H. apply andb_true_iff in H as [Hc Hs].
  rewrite (Hpq c Hc). simpl. auto.
Qed.

Lemma match_ignores_inert_suffix (m post : string) :
  all_chars inert post = true ->
  match_number_unit (m ++ post) = match_number_unit m.
Proof.
  intros Hpost.
  assert (Hnum : all_chars (fun c => negb (isNumberChar c)) post = true).
  { revert Hpost. apply all_chars_weaken. unfold inert. intros c H.
    apply andb_true_iff in H. tauto. }
  assert (Hunit : all_chars (fun c => negb (isUnitChar c)) post = true).
  { revert Hpost. apply all_chars_weaken. unfold inert. intros c H.
    apply andb_true_iff in H. tauto. }
  induction m as [|c m IH].
  - simpl. apply match_none_on_inert. exact Hpost.
  - change (String c m ++ post) with (String c (m ++ post)).
    cbn [match_number_unit]. destruct (isNumberChar c) eqn:Hc; [|exact IH].
    change (String c (m ++ post)) with (String c m ++ post).
    rewrite (takeWhile_app isNumberChar _ _ Hnum).
    rewrite (dropWhile_app isNumberChar _ _ Hnum).
    rewrite (takeWhile_app isUnitChar _ _ Hunit). reflexivity.
Qed.

Lemma match_after_trim (s : string) :
  match_number_unit (trim s) = match_number_unit s.
Proof.
  destruct (trim_decompose s) as (pre & post & Hs & Hpre & Hpost).
  rewrite Hs at 2.
  rewrite (match_skips_inert_prefix _ _ Hpre).
  rewrite (match_ignores_inert_suffix _ _ Hpost). reflexivity.
Qed.


Lemma takeWhile_all (p : ascii -> bool) (a b : string) :
  all_chars p a = true -> head_fails p b = true -> takeWhile p (a ++ b) = a.
Proof.
  intros Ha Hb. induction a as [|c a IH].
  - destruct b as [|c b]; simpl in *; [reflexivity|].
    apply negb_true_iff in Hb. rewrite Hb. reflexivity.
  - simpl in Ha. apply andb_true_iff in Ha as [Hc Ha].
    change (String c a ++ b) with (String c (a ++ b)). simpl.
    rewrite Hc, (IH Ha). reflexivity.
Qed.

Lemma dropWhile_all (p : ascii -> bool) (a b : string) :
  all_chars p a = true -> head_fails p b = true -> dropWhile p (a ++ b) = b.
Proof.
  intros Ha Hb. induction a as [|c a IH].
  - destruct b as [|c b]; simpl in *; [reflexivity|].
    apply negb_true_iff in Hb. rewrite Hb. reflexivity.
  - simpl in Ha. apply andb_true_iff in Ha as [Hc Ha].
    change (String c a ++ b) with (String c (a ++ b)). simpl.
    rewrite Hc. exact (IH Ha).
Qed.

Lemma classes_disjoint (c : ascii) : isUnitChar c = true -> isNumberChar c = false.
Proof. destruct c as [[] [] [] [] [] [] [] []]; simpl; intros H; try reflexivity; discriminate H. Qed.

Lemma match_skips_prefix (pre m : string) :
  all_chars (fun c => negb (isNumberChar c)) pre = true ->
  match_number_unit (pre ++ m) = match_number_unit m.
Proof.
  induction pre as [|c pre IH]; simpl; [reflexivity|].
  intros H. apply andb_true_iff in H as [Hc Hs].
  apply negb_true_iff in Hc.
  change (String c pre ++ m) with (String c (pre ++ m)). simpl.
  rewrite Hc. auto.
Qed.

Lemma match_by_shape (pre num unit rest : string) :
  all_chars (fun c => negb (isNumberChar c)) pre = true ->
  num <> "" ->
  all_chars isNumberChar num = true ->
  all_chars isUnitChar unit = true ->
  head_fails (fun c => isNumberChar c || isUnitChar c) rest = true ->
  match_number_unit (pre ++ num ++ unit ++ rest) = Some (num, unit).
Proof.
  intros Hpre Hne Hnum Hunit Hrest.
  rewrite (match_skips_prefix _ _ Hpre).
  assert (Hr1 : head_fails isUnitChar rest = true).
  { destruct rest as [|c rest]; simpl in *; [reflexivity|].
    apply negb_true_iff, orb_false_iff in Hrest as [_ H]. rewrite H. reflexivity. }
  assert (Htail : head_fails isNumberChar (unit ++ rest) = true).
  { destruct unit as [|c unit]; simpl in *.
    - destruct rest as [|c rest]; simpl in *; [reflexivity|].
      apply negb_true_iff, orb_false_iff in Hrest as [H _]. rewrite H. reflexivity.
    - apply andb_true_iff in Hunit as [Hc _].
      rewrite (classes_disjoint c Hc). reflexivity. }
  destruct num as [|c num]; [congruence|].
  change (String c num ++ unit ++ rest) with (String c (num ++ unit ++ rest)).
  cbn [match_number_unit].
  simpl in Hnum. pose proof Hnum as Hnum'. apply andb_true_iff in Hnum as [Hc Hnum].
  rewrite Hc.
  change (String c (num ++ unit ++ rest)) with (String c num ++ (unit ++ rest)).
  rewrite (takeWhile_all isNumberChar (String c num) _ Hnum' Htail).
  rewrite (dropWhile_all isNumberChar (String c num) _ Hnum' Htail).
  rewrite (takeWhile_all isUnitChar unit rest Hunit Hr1). reflexivity.
Qed.

(** ** Where [NaN] can come from *)

Lemma shr_1_nonneg (mrs : shr_record) : 0 <= shr_m mrs -> 0 <= shr_m (shr_1 mrs).
Proof.
  destruct mrs as [m r s]. destruct m as [|p|p]; simpl; intros H; try lia;
    destruct p; simpl; lia.
Qed.

Lemma iter_shr_1_nonneg (p : positive) (mrs : shr_record) :
  0 <= shr_m mrs -> 0 <= shr_m (SpecFloat.iter_pos shr_1 p mrs).
Proof.
  revert mrs. induction p as [p IH|p IH|]; intros mrs H; simpl.
  - apply IH, IH, shr_1_nonneg, H.
  - apply IH, IH, H.
  - apply shr_1_nonneg, H.
Qed.

Lemma shr_fexp_nonneg (m e : Z) (l : location) :
  0 <= m -> 0 <= shr_m (fst (shr_fexp prec emax m e l)).
Proof.
  intros H. unfold shr_fexp, shr.
  assert (H0 : 0 <= shr_m (shr_record_of_loc m l)) by (destruct l as [|[]]; exact H).
  destruct (fexp prec emax (Zdigits2 m + e) - e); simpl; try exact H0.
  apply iter_shr_1_nonneg, H0.
Qed.

Lemma round_nearest_even_nonneg (m : Z) (l : location) :
  0 <= m -> 0 <= round_nearest_even m l.
Proof. intros H. destruct l as [|[]]; simpl; try destruct (Z.even m); lia. Qed.

Lemma binary_round_aux_not_NaN (s : bool) (m e : Z) (l : location) :
  0 <= m -> binary_round_aux prec emax s m e l <> NaN.
Proof.
  intros H. unfold binary_round_aux.
  pose proof (shr_fexp_nonneg m e l H) as H1.
  destruct (shr_fexp prec emax m e l) as [mrs' e']. simpl in H1.
  pose proof (shr_fexp_nonneg _ e' loc_Exact
                (round_nearest_even_nonneg _ (loc_of_shr_record mrs') H1)) as H2.
  destruct (shr_fexp prec emax (round_nearest_even _ _) e' loc_Exact) as [mrs'' e''].
  simpl in H2. destruct (shr_m mrs''); [discriminate| |lia].
  destruct (e'' <=? emax - prec); discriminate.
Qed.

Lemma div_not_NaN (x : number) (s : bool) (m : positive) (e : Z) :
  x <> NaN -> div x (S754_finite s m e) <> NaN.
Proof.
  intros Hx. destruct x as [sx|sx| |sx mx ex];
    [discriminate | discriminate | exfalso; apply Hx; reflexivity |].
  unfold div, SFdiv.
  destruct (SFdiv_core_binary prec emax (Z.pos mx) ex (Z.pos m) e) as [[q e'] l] eqn:Hq.
  apply binary_round_aux_not_NaN.
  unfold SFdiv_core_binary in Hq.
  set (m' := match _ - _ - _ with Z.pos _ => _ | _ => _ end) in Hq.
  assert (Hm' : 0 <= m').
  { unfold m'. destruct (_ - _ - _); try lia. apply Z.shiftl_nonneg. lia. }
  pose proof (Z.div_pos m' (Z.pos m) Hm' ltac:(lia)) as Hd.
  unfold Z.div in Hd. destruct (Z.div_eucl m' (Z.pos m)) as [q0 r0].
  injection Hq as <- _ _. exact Hd.
Qed.

Lemma mul_not_NaN (x : number) (s : bool) (m : positive) (e : Z) :
  x <> NaN -> mul x (S754_finite s m e) <> NaN.
Proof.
  intros Hx. destruct x as [sx|sx| |sx mx ex];
    [discriminate | discriminate | exfalso; apply Hx; reflexivity |].
  unfold mul, SFmul. apply binary_round_aux_not_NaN. lia.
Qed.

Lemma decimal_not_NaN (m k : Z) : 0 <= m -> decimal m k <> NaN.
Proof.
  intros Hm. unfold decimal. destruct m as [|p|p]; [discriminate| |lia].
  destruct (0 <=? k) eqn:Hk.
  - unfold binary_normalize.
    assert (0 <= Z.pos p * 10 ^ k) by (apply Z.mul_nonneg_nonneg; [lia | apply Z.pow_nonneg; lia]).
    destruct (Z.pos p * 10 ^ k) as [|q|q]; [discriminate| |lia].
    unfold binary_round. destruct (shl_align _ _ _) as [mz ez].
    apply binary_round_aux_not_NaN. lia.
  - apply div_not_NaN. discriminate.
Qed.

Lemma takeWhile_all_chars (p : ascii -> bool) (s : string) :
  all_chars p (takeWhile p s) = true.
Proof.
  induction s as [|c s IH]; simpl; [reflexivity|].
  destruct (p c) eqn:Hc; simpl; [rewrite Hc; exact IH | reflexivity].
Qed.

Lemma match_groups (s num unit : string) :
  match_number_unit s = Some (num, unit) ->
  num <> "" /\ all_chars isNumberChar num = true.
Proof.
  induction s as [|c s IH]; simpl; [discriminate|].
  destruct (isNumberChar c) eqn:Hc; [|exact IH].
  intros H. injection H as <- _. split; [discriminate|].
  simpl. rewrite Hc. apply takeWhile_all_chars.
Qed.

Lemma digit_value_nonneg (c : ascii) : isDigit c = true -> 0 <= digit_value c.
Proof.
  unfold isDigit, digit_value. intros H. apply andb_true_iff in H as [H _].
  apply N.leb_le in H. lia.
Qed.

Lemma digits_value_nonneg (s : string) (acc : Z) :
  0 <= acc -> all_chars isDigit s = true -> 0 <= digits_value acc s.
Proof.
  revert acc. induction s as [|c s IH]; intros acc Hacc Hs; simpl; [exact Hacc|].
  simpl in Hs. apply andb_true_iff in Hs as [Hc Hs].
  apply IH; [|exact Hs]. pose proof (digit_value_nonneg c Hc). lia.
Qed.

Lemma all_chars_app (p : ascii -> bool) (a b : string) :
  all_chars p a = true -> all_chars p b = true -> all_chars p (a ++ b) = true.
Proof.
  intros Ha Hb. induction a as [|c a IH]; [exact Hb|].
  simpl in Ha. apply andb_true_iff in Ha as [Hc Ha].
  change (String c a ++ b) with (String c (a ++ b)). simpl.
  rewrite Hc. exact (IH Ha).
Qed.

Lemma number_char_codes (c : ascii) :
  isNumberChar c = true ->
  (code c =? 45)%N = false /\ (code c =? 43)%N = false /\ c <> "I"%char /\
  (isDigit c = true /\ (code c =? 46)%N = false \/
   isDigit c = false /\ (code c =? 46)%N = true).
Proof.
  destruct c as [[] [] [] [] [] [] [] []]; simpl; intros H;
    try discriminate H; repeat split; try discriminate; auto.
Qed.

Lemma trimStart_number (s : string) :
  head_fails isNumberChar s = false -> trimStart s = s.
Proof.
  destruct s as [|c s]; [discriminate|]. simpl. intros H.
  apply negb_false_iff in H.
  unfold trimStart. change (String.length (String c s)) with (S (String.length s)).
  assert (Hd : dropOne whiteSpace (bytes (String c s)) = None).
  { unfold bytes. simpl.
    destruct c as [[] [] [] [] [] [] [] []]; try discriminate H; reflexivity. }
  cbn [dropAll]. rewrite Hd. apply of_bytes_bytes.
Qed.

Lemma no_Infinity_in_number (c : ascii) (r : string) :
  isNumberChar c = true -> String.prefix "Infinity" (String c r) = false.
Proof.
  destruct c as [[] [] [] [] [] [] [] []]; intros H; try discriminate H; reflexivity.
Qed.

Lemma parseFloat_of_number_chars (num : string) :
  num <> "" ->
  all_chars isNumberChar num = true ->
  (starts_with_number num = true -> parseFloat num <> NaN) /\
  (starts_with_number num = false -> parseFloat num = NaN).
Proof.
  intros Hne Hall. destruct num as [|c r]; [congruence|].
  simpl in Hall. apply andb_true_iff in Hall as [Hc Hr].
  destruct (number_char_codes c Hc) as (H45 & H43 & HI & Hcase).
  unfold parseFloat. rewrite trimStart_number by (simpl; rewrite Hc; reflexivity).
  rewrite H45, H43.
  rewrite (no_Infinity_in_number c r Hc). simpl takeWhile. simpl dropWhile. simpl starts_with_number.
  destruct Hcase as [[Hd H46] | [Hd H46]]; rewrite Hd.
  - split; [intros _ | discriminate].
    destruct (dropWhile isDigit r) as [|c1 r1] eqn:Hdrop.
    + apply decimal_not_NaN. apply digits_value_nonneg; [lia|].
      apply (all_chars_app isDigit (String c (takeWhile isDigit r)) "").
      * simpl. rewrite Hd. apply takeWhile_all_chars.
      * reflexivity.
    + destruct (code c1 =? 46)%N.
      * apply decimal_not_NaN. apply digits_value_nonneg; [lia|].
        apply (all_chars_app isDigit (String c (takeWhile isDigit r))).
        -- simpl. rewrite Hd. apply takeWhile_all_chars.
        -- apply takeWhile_all_chars.
      * apply decimal_not_NaN. apply digits_value_nonneg; [lia|].
        apply (all_chars_app isDigit (String c (takeWhile isDigit r)) "").
        -- simpl. rewrite Hd. apply takeWhile_all_chars.
        -- reflexivity.
  - rewrite H46. simpl.
    destruct r as [|c1 r1]; simpl.
    + split; [discriminate | reflexivity].
    + destruct (isDigit c1) eqn:Hd1; simpl.
      * split; [intros _ | discriminate].
        apply decimal_not_NaN. apply digits_value_nonneg;
          [pose proof (digit_value_nonneg c1 Hd1); lia | apply takeWhile_all_chars].
      * split; [discriminate | reflexivity].
Qed.

Lemma Ok_inj {A} (x y : A) : Ok x = Ok y -> x = y.
Proof. intros H. injection H as ->. reflexivity. Qed.

(** * Facts about the engine *)

(** The parser returns on every value and every nutrient type. *)
Lemma parse_returns (v : raw) (t : string) :
  Engine.parseNutritionValue v t = Ok (parsed v t).
Proof.
  unfold parsed.
  assert (H : exists x, Engine.parseNutritionValue v t = Ok x).
  { unfold Engine.parseNutritionValue.
    destruct (ToBoolean v) eqn:Hv; simpl; [|eauto].
    destruct v; try discriminate Hv; simpl;
      destruct (match_number_unit _) as [[g1 g2]|]; repeat case_match; eauto. }
  destruct H as [x ->]. reflexivity.
Qed.

Lemma ladder_default_arg (d : nutrient) (b : raw) :
  ladder d (default_arg b (RNum 0%js)) = ladder d b.
Proof.
  destruct d; unfold ladder, Engine.energyThresholds, Engine.sugarsThresholds,
    Engine.satFatThresholds, Engine.sodiumThresholds;
    rewrite ToBoolean_default_arg; reflexivity.
Qed.

(** The negative points are the sum, over the four nutrients, of the
    thresholds the quantity strictly exceeds. *)
Lemma negative_points_sum (n : NutritionRecord) (b : raw) :
  Engine.calculateNegativePoints n b =
  Ok (points Energy n b + points Sugars n b + points SaturatedFat n b + points Sodium n b).
Proof.
  unfold Engine.calculateNegativePoints, points, quantity.
  rewrite <- (ladder_default_arg Energy b), <- (ladder_default_arg Sugars b),
    <- (ladder_default_arg SaturatedFat b), <- (ladder_default_arg Sodium b).
  cbv zeta. rewrite !parse_returns. reflexivity.
Qed.

Lemma negative_points_default_arg (n : NutritionRecord) (b : raw) :
  Engine.calculateNegativePoints n (default_arg b (RNum 0%js)) =
  Engine.calculateNegativePoints n b.
Proof.
  unfold Engine.calculateNegativePoints. rewrite default_arg_idem. reflexivity.
Qed.

Lemma ladder_length (d : nutrient) (b : raw) :
  (length (ladder d b) <= 11)%nat /\
  (length (ladder Energy b) + length (ladder Sugars b)
   + length (ladder SaturatedFat b) + length (ladder Sodium b) = 40)%nat.
Proof.
  unfold ladder, Engine.energyThresholds, Engine.sugarsThresholds,
    Engine.satFatThresholds, Engine.sodiumThresholds.
  destruct d, (ToBoolean b); simpl; lia.
Qed.

Lemma negative_points_range (n : NutritionRecord) (b : raw) :
  exists N, Engine.calculateNegativePoints n b = Ok N /\ 0 <= N <= 40.
Proof.
  rewrite negative_points_sum. eexists; split; [reflexivity|].
  unfold points.
  pose proof (count_exceeded_bounds (quantity Energy n) (ladder Energy b)).
  pose proof (count_exceeded_bounds (quantity Sugars n) (ladder Sugars b)).
  pose proof (count_exceeded_bounds (quantity SaturatedFat n) (ladder SaturatedFat b)).
  pose proof (count_exceeded_bounds (quantity Sodium n) (ladder Sodium b)).
  destruct (ladder_length Energy b) as [_ Hsum]. lia.
Qed.

(** The positive breakdown: the produce band is one of 0, 1, 2 and 5, fiber
    and protein earn at most 5 each, and the total is their sum. *)
Lemma positive_points_range (n : NutritionRecord) (b : raw) :
  exists P, Engine.calculatePositivePoints n b = Ok P /\
    (Engine.fvln P = 0 \/ Engine.fvln P = 1 \/ Engine.fvln P = 2 \/ Engine.fvln P = 5) /\
    0 <= Engine.fiber P <= 5 /\
    0 <= Engine.protein P <= 5 /\
    Engine.total P = Engine.fvln P + Engine.fiber P + Engine.protein P.
Proof.
  unfold Engine.calculatePositivePoints. cbv zeta. rewrite !parse_returns.
  eexists; split; [reflexivity|]. simpl.
  split; [repeat case_match; auto|].
  split; [apply (count_exceeded_bounds _ Engine.fiberThresholds)|].
  split; [apply (count_exceeded_bounds _ Engine.proteinThresholds)|].
  reflexivity.
Qed.

Lemma in_fsa_domain (f : Z) : -15 <= f <= 40 -> f ∈ fsa_domain.
Proof. intros H. unfold fsa_domain. apply elem_of_seqZ. lia. Qed.

(** On every reachable FSA score the binary64 rescaling gives the score of
    exact arithmetic: rounding errors never reach the final integer. *)
Lemma rescale_exact (f : Z) :
  -15 <= f <= 40 -> Engine.rescale f = of_Z (exact_score f).
Proof.
  intros H. apply in_fsa_domain in H. revert f H. apply Forall_forall.
  apply (bool_decide_unpack _). vm_compute. exact I.
Qed.

Lemma exact_score_range (f : Z) : -15 <= f <= 40 -> 0 <= exact_score f <= 100.
Proof.
  intros H. unfold exact_score. split.
  - apply Z.div_pos; lia.
  - assert (Hlt : (200 * (40 - f) + 55) / 110 < 101)
      by (apply Z.div_lt_upper_bound; lia).
    lia.
Qed.

(** On every reachable FSA score the clamp of the rescaling is the
    identity. *)
Lemma clamp_is_identity (f : Z) :
  -15 <= f <= 40 ->
  Math_min 100%js (Math_max 0%js (Engine.normalized f)) = Engine.normalized f.
Proof.
  intros H. apply in_fsa_domain in H. revert f H. apply Forall_forall.
  apply (bool_decide_unpack _). vm_compute. exact I.
Qed.

(** The three branches of the FSA score and the range each one reaches. *)
Lemma fsa_branches (N : Z) (P : Engine.PositivePoints) (f : Z) :
  0 <= N <= 40 ->
  (Engine.fvln P = 0 \/ Engine.fvln P = 1 \/ Engine.fvln P = 2 \/ Engine.fvln P = 5) ->
  0 <= Engine.fiber P <= 5 ->
  0 <= Engine.protein P <= 5 ->
  Engine.total P = Engine.fvln P + Engine.fiber P + Engine.protein P ->
  f = (if N <? 11 then N - Engine.total P
       else if Engine.fvln P =? 5 then N - Engine.total P
       else N - (Engine.fvln P + Engine.fiber P)) ->
  (N < 11 -> f = N - Engine.total P) /\
  (11 <= N -> Engine.fvln P = 5 -> f = N - Engine.total P) /\
  (11 <= N -> Engine.fvln P < 5 -> f = N - (Engine.fvln P + Engine.fiber P)) /\
  (11 <= N -> Engine.fvln P < 5 -> 4 <= f) /\
  -15 <= f <= 40.
Proof.
  intros HN Hv Hf Hp Ht ->.
  destruct (Z.ltb_spec N 11), (Z.eqb_spec (Engine.fvln P) 5); lia.
Qed.

(** What a call of [calculateHealthScore] returns, in terms of the two
    tallies. *)
Lemma health_score_eq (n : NutritionRecord) (b : raw) :
  exists N P,
    Engine.calculateNegativePoints n b = Ok N /\
    Engine.calculatePositivePoints n b = Ok P /\
    0 <= N <= 40 /\
    (Engine.fvln P = 0 \/ Engine.fvln P = 1 \/ Engine.fvln P = 2 \/ Engine.fvln P = 5) /\
    0 <= Engine.fiber P <= 5 /\
    0 <= Engine.protein P <= 5 /\
    Engine.total P = Engine.fvln P + Engine.fiber P + Engine.protein P /\
    Engine.calculateHealthScore n b =
      let f := if N <? 11 then N - Engine.total P
               else if Engine.fvln P =? 5 then N - Engine.total P
               else N - (Engine.fvln P + Engine.fiber P) in
      Ok {| Engine.healthScore := Engine.rescale f;
            Engine.calculationDetails :=
              {| Engine.negativePoints := N;
                 Engine.positivePoints := Engine.total P;
                 Engine.fsaScore := f |} |}.
Proof.
  destruct (negative_points_range n b) as (N & HN & HNr).
  destruct (positive_points_range n b) as (P & HP & Hv & Hf & Hp & Ht).
  exists N, P. do 7 (split; [assumption|]).
  unfold Engine.calculateHealthScore. cbv zeta.
  change (Engine.calculatePositivePoints n (default_arg b (RNum 0%js)))
    with (Engine.calculatePositivePoints n b).
  rewrite negative_points_default_arg, HN, HP. reflexivity.
Qed.

(** A text that holds a number, a unit and a rest that starts with neither
    is truthy, and the parser finds that number and that unit in it. *)
Lemma parse_by_shape (pre num unit rest : string) :
  all_chars (fun c => negb (isNumberChar c)) pre = true ->
  num <> "" ->
  all_chars isNumberChar num = true ->
  all_chars isUnitChar unit = true ->
  head_fails (fun c => isNumberChar c || isUnitChar c) rest = true ->
  let s := pre ++ num ++ unit ++ rest in
  s <> "" /\ match_number_unit (trim s) = Some (num, unit).
Proof.
  intros Hpre Hne Hnum Hunit Hrest s. split.
  - unfold s. destruct pre; [destruct num; [congruence | discriminate] | discriminate].
  - rewrite match_after_trim. apply match_by_shape; assumption.
Qed.

Lemma stored_parse_returns (v : raw) (t : string) :
  exists x, StoredProduct.parseNutritionValue v t = Ok x.
Proof.
  unfold StoredProduct.parseNutritionValue.
  destruct (ToBoolean v) eqn:Hv; simpl; [|eauto].
  destruct v; try discriminate Hv; simpl;
    destruct (match_number_unit _) as [[g1 g2]|]; repeat case_match; eauto.
Qed.

Lemma stored_parse_closed (v : raw) (t : string) :
  StoredProduct.parseNutritionValue v t = Ok (stored_parsed v t).
Proof.
  unfold stored_parsed. destruct (stored_parse_returns v t) as [x ->]. reflexivity.
Qed.

(** * The claims *)

(** C1.  For every nutrition record and every category flag,
    [calculateHealthScore] returns a result whose health score is an
    integer between 0 and 100, whose negative points lie between 0 and 40
    and whose positive points lie between 0 and 15. *)
Theorem health_score_ranges (nutrition : NutritionRecord) (isBeverage : raw) :
  exists (r : Engine.Result) (z : Z),
    Engine.calculateHealthScore nutrition isBeverage = Ok r /\
    Engine.healthScore r = of_Z z /\
    0 <= z <= 100 /\
    0 <= Engine.negativePoints (Engine.calculationDetails r) <= 40 /\
    0 <= Engine.positivePoints (Engine.calculationDetails r) <= 15.
Proof.
  destruct (health_score_eq nutrition isBeverage)
    as (N & P & _ & _ & HN & Hv & Hf & Hp & Ht & Hr).
  cbv zeta in Hr.
  set (f := if N <? 11 then _ else _) in Hr.
  destruct (fsa_branches N P f HN Hv Hf Hp Ht eq_refl) as (_ & _ & _ & _ & Hdom).
  eexists; exists (exact_score f).
  split; [exact Hr|]. simpl.
  split; [apply rescale_exact; exact Hdom|].
  split; [apply exact_score_range; exact Hdom|].
  split; [exact HN|]. lia.
Qed.

(** C2.  With N the negative points and P the positive breakdown of a
    record: below 11 negative points the FSA score is [N - P.total]; from 11
    on it is [N - P.total] when the produce band is at its maximum of 5, and
    [N - (P.fvln + P.fiber)] when it is below 5, protein left out. *)
Theorem fsa_cap_rule (nutrition : NutritionRecord) (isBeverage : raw) :
  exists (N : Z) (P : Engine.PositivePoints) (r : Engine.Result),
    Engine.calculateNegativePoints nutrition isBeverage = Ok N /\
    Engine.calculatePositivePoints nutrition isBeverage = Ok P /\
    Engine.calculateHealthScore nutrition isBeverage = Ok r /\
    let fsa := Engine.fsaScore (Engine.calculationDetails r) in
    (N < 11 -> fsa = N - Engine.total P) /\
    (11 <= N -> Engine.fvln P = 5 -> fsa = N - Engine.total P) /\
    (11 <= N -> Engine.fvln P < 5 ->
       fsa = N - (Engine.fvln P + Engine.fiber P)).
Proof.
  destruct (health_score_eq nutrition isBeverage)
    as (N & P & HNe & HPe & HN & Hv & Hf & Hp & Ht & Hr).
  cbv zeta in Hr.
  set (f := if N <? 11 then _ else _) in Hr.
  destruct (fsa_branches N P f HN Hv Hf Hp Ht eq_refl) as (H1 & H2 & H3 & _ & _).
  exists N, P. eexists.
  split; [exact HNe|]. split; [exact HPe|]. split; [exact Hr|].
  simpl. auto.
Qed.

(** The cap rule on two records under the same load of 20 negative points:
    with 70% produce the 5 protein points do not count, with 80% they do. *)
Example cap_rule_excludes_protein :
  Engine.calculateHealthScore (penalized "70%") food
  = Ok {| Engine.healthScore := of_Z 42;
          Engine.calculationDetails :=
            {| Engine.negativePoints := 20;
               Engine.positivePoints := 8;
               Engine.fsaScore := 17 |} |}.
Proof. vm_compute. reflexivity. Qed.

Example cap_rule_includes_protein :
  Engine.calculateHealthScore (penalized "80%") food
  = Ok {| Engine.healthScore := of_Z 56;
          Engine.calculationDetails :=
            {| Engine.negativePoints := 20;
               Engine.positivePoints := 11;
               Engine.fsaScore := 9 |} |}.
Proof. vm_compute. reflexivity. Qed.

Lemma fsa_cap_rule_witness :
  exists (N : Z) (P : Engine.PositivePoints) (r : Engine.Result),
    Engine.calculateNegativePoints (penalized "70%") food = Ok N /\
    Engine.calculatePositivePoints (penalized "70%") food = Ok P /\
    Engine.calculateHealthScore (penalized "70%") food = Ok r /\
    11 <= N /\ Engine.fvln P < 5 /\ 0 < Engine.protein P /\
    Engine.fsaScore (Engine.calculationDetails r) = N - (Engine.fvln P + Engine.fiber P).
Proof.
  destruct (fsa_cap_rule (penalized "70%") food) as (N & P & r & HN & HP & Hr & _ & _ & H3).
  exists N, P, r.
  assert (HN' : Ok N = Ok 20) by (rewrite <- HN; vm_compute; reflexivity).
  assert (HP' : Ok P = Ok {| Engine.fvln := 2; Engine.fiber := 1;
                             Engine.protein := 5; Engine.total := 8 |})
    by (rewrite <- HP; vm_compute; reflexivity).
  injection HN' as HN'. injection HP' as HP'.
  assert (H11 : 11 <= N) by (rewrite HN'; lia).
  assert (H5 : Engine.fvln P < 5) by (rewrite HP'; simpl; lia).
  assert (Hpr : 0 < Engine.protein P) by (rewrite HP'; simpl; lia).
  repeat (split; [assumption|]). exact (H3 H11 H5).
Defined.

(** C10.  The FSA score of every record lies in the rescaling domain
    [-15, 40], and is at least 4 in the cap branch with a produce band below
    5; so the clamp of the rescaling leaves the normalized value as it is. *)
Theorem fsa_in_rescaling_domain (nutrition : NutritionRecord) (isBeverage : raw) :
  exists (N : Z) (P : Engine.PositivePoints) (r : Engine.Result),
    Engine.calculateNegativePoints nutrition isBeverage = Ok N /\
    Engine.calculatePositivePoints nutrition isBeverage = Ok P /\
    Engine.calculateHealthScore nutrition isBeverage = Ok r /\
    let fsa := Engine.fsaScore (Engine.calculationDetails r) in
    -15 <= fsa <= 40 /\
    (11 <= N -> Engine.fvln P < 5 -> 4 <= fsa) /\
    Math_min 100%js (Math_max 0%js (Engine.normalized fsa)) = Engine.normalized fsa.
Proof.
  destruct (health_score_eq nutrition isBeverage)
    as (N & P & HNe & HPe & HN & Hv & Hf & Hp & Ht & Hr).
  cbv zeta in Hr.
  set (f := if N <? 11 then _ else _) in Hr.
  destruct (fsa_branches N P f HN Hv Hf Hp Ht eq_refl) as (_ & _ & _ & H4 & Hdom).
  exists N, P. eexists.
  split; [exact HNe|]. split; [exact HPe|]. split; [exact Hr|].
  simpl. split; [exact Hdom|]. split; [exact H4|].
  apply clamp_is_identity. exact Hdom.
Qed.

Lemma fsa_in_rescaling_domain_witness :
  exists (N : Z) (P : Engine.PositivePoints) (r : Engine.Result),
    Engine.calculateNegativePoints (penalized "70%") food = Ok N /\
    Engine.calculatePositivePoints (penalized "70%") food = Ok P /\
    Engine.calculateHealthScore (penalized "70%") food = Ok r /\
    11 <= N /\ Engine.fvln P < 5 /\
    4 <= Engine.fsaScore (Engine.calculationDetails r) <= 40.
Proof.
  destruct (fsa_in_rescaling_domain (penalized "70%") food)
    as (N & P & r & HN & HP & Hr & Hdom & H4 & _).
  exists N, P, r.
  assert (HN' : Ok N = Ok 20) by (rewrite <- HN; vm_compute; reflexivity).
  assert (HP' : Ok P = Ok {| Engine.fvln := 2; Engine.fiber := 1;
                             Engine.protein := 5; Engine.total := 8 |})
    by (rewrite <- HP; vm_compute; reflexivity).
  injection HN' as HN'. injection HP' as HP'.
  assert (H11 : 11 <= N) by (rewrite HN'; lia).
  assert (H5 : Engine.fvln P < 5) by (rewrite HP'; simpl; lia).
  repeat (split; [assumption|]).
  cbv zeta in Hdom, H4. specialize (H4 H11 H5). lia.
Defined.

(** C3, as stated, fails: the seventh and ninth breakpoints of the food
    ladder for sugars are 31 and 40, not 31.5 and 40.5, so 31.2 g of sugars
    earn 7 points where a ladder in steps of 4.5 gives 6. *)
Lemma sugar_ladder_is_not_uniform :
  Engine.sugarsThresholds food !! 6%nat = Some 31%js /\
  specified_sugar_ladder !! 6%nat = Some 31.5%js /\
  Engine.sugarsThresholds food !! 8%nat = Some 40%js /\
  specified_sugar_ladder !! 8%nat = Some 40.5%js /\
  Engine.calculateNegativePoints (top_level "sugars" (RStr "31.2g")) food = Ok 7 /\
  count_exceeded 31.2%js specified_sugar_ladder = 6.
Proof. repeat split; vm_compute; reflexivity. Qed.

(** C3, amended.  For food the ladders are: energy 80, 160, ..., 800;
    sugars 4.5, 9, 13.5, 18, 22.5, 27, 31, 36, 40, 45 (steps of 4.5 but for
    the seventh and ninth breakpoints); saturated fat 1, 2, ..., 10; sodium 90,
    180, ..., 900; and the negative points are the number of breakpoints the
    four quantities strictly exceed. *)
Theorem food_ladders (nutrition : NutritionRecord) (isBeverage : raw) :
  ToBoolean isBeverage = false ->
  ladder Energy isBeverage = uniform_ladder 80 0 /\
  ladder Sugars isBeverage =
    <[6%nat := 31%js]> (<[8%nat := 40%js]> specified_sugar_ladder) /\
  ladder SaturatedFat isBeverage = uniform_ladder 1 0 /\
  ladder Sodium isBeverage = uniform_ladder 90 0 /\
  Engine.calculateNegativePoints nutrition isBeverage =
    Ok (Z.of_nat (length (List.filter (fun t => lt t (quantity Energy nutrition))
                                      (ladder Energy isBeverage)))
        + Z.of_nat (length (List.filter (fun t => lt t (quantity Sugars nutrition))
                                        (ladder Sugars isBeverage)))
        + Z.of_nat (length (List.filter (fun t => lt t (quantity SaturatedFat nutrition))
                                        (ladder SaturatedFat isBeverage)))
        + Z.of_nat (length (List.filter (fun t => lt t (quantity Sodium nutrition))
                                        (ladder Sodium isBeverage)))).
Proof.
  intros Hfood.
  unfold ladder, Engine.energyThresholds, Engine.sugarsThresholds,
    Engine.satFatThresholds, Engine.sodiumThresholds.
  rewrite Hfood.
  repeat (split; [vm_compute; reflexivity|]).
  rewrite negative_points_sum. unfold points, count_exceeded, ladder,
    Engine.energyThresholds, Engine.sugarsThresholds,
    Engine.satFatThresholds, Engine.sodiumThresholds.
  rewrite Hfood. reflexivity.
Qed.

Lemma food_ladders_witness :
  ToBoolean food = false /\
  ladder Sugars food = <[6%nat := 31%js]> (<[8%nat := 40%js]> specified_sugar_ladder).
Proof.
  split; [reflexivity|].
  exact (proj1 (proj2 (food_ladders (top_level "sugars" (RStr "31.2g")) food eq_refl))).
Defined.

(** C4, as stated, fails on the micro sign: the unit is a run of ASCII
    letters and [%], so ["1µg"] has no unit and is read as one gram. *)
Lemma micro_sign_is_no_unit :
  match_number_unit (trim "1µg") = Some ("1", "") /\
  Engine.parseNutritionValue (RStr "1µg") "mass" = Ok 1%js /\
  1%js <> 0.000001%js.
Proof. repeat split; try (vm_compute; reflexivity). discriminate. Qed.

(** C4, amended.  On a mass-family input the parsed magnitude is divided by
    1000 when the unit is [mg] and by 1,000,000 when it is [mcg], and
    returned as it is under any other unit; the micro sign is no unit
    character.  So 1000 mg and 1 g both give 1, 1 mcg gives 0.000001,
    ["1µg"] gives 1, 4.184 kJ of energy give 1 and 1 g of sodium gives
    1000. *)
Theorem mass_unit_conversion :
  (forall s num unit : string,
      s <> "" ->
      match_number_unit (trim s) = Some (num, unit) ->
      Engine.parseNutritionValue (RStr s) "mass" =
        Ok (if String.eqb (toLowerCase unit) "mg" then div (parseFloat num) 1000%js
            else if String.eqb (toLowerCase unit) "mcg"
                 then div (parseFloat num) 1_000_000%js
                 else parseFloat num)) /\
  (forall pre num unit rest : string,
      all_chars (fun c => negb (isNumberChar c)) pre = true ->
      num <> "" ->
      all_chars isNumberChar num = true ->
      all_chars isUnitChar unit = true ->
      head_fails (fun c => isNumberChar c || isUnitChar c) rest = true ->
      Engine.parseNutritionValue (RStr (pre ++ num ++ unit ++ rest)) "mass" =
        Ok (if String.eqb (toLowerCase unit) "mg" then div (parseFloat num) 1000%js
            else if String.eqb (toLowerCase unit) "mcg"
                 then div (parseFloat num) 1_000_000%js
                 else parseFloat num)) /\
  Engine.parseNutritionValue (RStr "1000mg") "mass" = Ok 1%js /\
  Engine.parseNutritionValue (RStr "1g") "mass" = Ok 1%js /\
  Engine.parseNutritionValue (RStr "1mcg") "mass" = Ok 0.000001%js /\
  Engine.parseNutritionValue (RStr "1µg") "mass" = Ok 1%js /\
  Engine.parseNutritionValue (RStr "4.184kj") "energy" = Ok 1%js /\
  Engine.parseNutritionValue (RStr "1g") "sodium" = Ok 1000%js.
Proof.
  assert (Hgen : forall s num unit : string,
      s <> "" ->
      match_number_unit (trim s) = Some (num, unit) ->
      Engine.parseNutritionValue (RStr s) "mass" =
        Ok (if String.eqb (toLowerCase unit) "mg" then div (parseFloat num) 1000%js
            else if String.eqb (toLowerCase unit) "mcg"
                 then div (parseFloat num) 1_000_000%js
                 else parseFloat num)).
  { intros s num unit Hs Hm. unfold Engine.parseNutritionValue.
    assert (Ht : ToBoolean (RStr s) = true).
    { destruct s; [congruence | reflexivity]. }
    rewrite Ht. simpl. rewrite Hm.
    destruct (String.eqb (toLowerCase unit) "mg"); [reflexivity|].
    destruct (String.eqb (toLowerCase unit) "mcg"); reflexivity. }
  split; [exact Hgen|]. split.
  - intros pre num unit rest Hpre Hne Hnum Hunit Hrest.
    destruct (parse_by_shape pre num unit rest Hpre Hne Hnum Hunit Hrest) as [Hs Hm].
    exact (Hgen _ _ _ Hs Hm).
  - repeat split; vm_compute; reflexivity.
Qed.

Lemma mass_unit_conversion_witness :
  Engine.parseNutritionValue (RStr "250 MG") "mass" = Ok 250%js /\
  Engine.parseNutritionValue (RStr "2.5mg per 100g") "mass" = Ok 0.0025%js.
Proof.
  split.
  - exact (proj1 mass_unit_conversion "250 MG" "250" "" ltac:(discriminate) eq_refl).
  - exact (proj1 (proj2 mass_unit_conversion) "" "2.5" "mg" " per 100g"
             eq_refl ltac:(discriminate) eq_refl eq_refl eq_refl).
Defined.

Lemma toLowerCase_percent (u : string) :
  String.eqb (toLowerCase u) "%" = String.eqb u "%".
Proof.
  destruct u as [|c u]; [reflexivity|].
  assert (Hc : Ascii.eqb (toLowerCase_char c) "%" = Ascii.eqb c "%").
  { destruct c as [[] [] [] [] [] [] [] []]; reflexivity. }
  simpl. rewrite Hc. destruct (Ascii.eqb c "%"); [|reflexivity].
  destruct u; reflexivity.
Qed.

(** C5.  For the percentage dimension the parsed number is returned only
    when the unit found after it is exactly [%]; under any other unit, no
    unit, no number or a falsy value the result is 0.  So ["80"] gives 0 and
    ["80%"] gives 80. *)
Theorem percentage_needs_percent_sign :
  (forall (v : raw) (str : string),
      ToBoolean v = true ->
      toString v = Ok str ->
      Engine.parseNutritionValue v "percentage" =
        Ok (match match_number_unit (trim str) with
            | Some (num, unit) =>
                if String.eqb unit "%" then parseFloat num else 0%js
            | None => 0%js
            end)) /\
  (forall v : raw,
      ToBoolean v = false ->
      Engine.parseNutritionValue v "percentage" = Ok 0%js) /\
  (forall pre num unit rest : string,
      all_chars (fun c => negb (isNumberChar c)) pre = true ->
      num <> "" ->
      all_chars isNumberChar num = true ->
      all_chars isUnitChar unit = true ->
      head_fails (fun c => isNumberChar c || isUnitChar c) rest = true ->
      Engine.parseNutritionValue (RStr (pre ++ num ++ unit ++ rest)) "percentage" =
        Ok (if String.eqb unit "%" then parseFloat num else 0%js)) /\
  Engine.parseNutritionValue (RStr "80") "percentage" = Ok 0%js /\
  Engine.parseNutritionValue (RStr "80%") "percentage" = Ok 80%js.
Proof.
  assert (Hgen : forall (v : raw) (str : string),
      ToBoolean v = true ->
      toString v = Ok str ->
      Engine.parseNutritionValue v "percentage" =
        Ok (match match_number_unit (trim str) with
            | Some (num, unit) =>
                if String.eqb unit "%" then parseFloat num else 0%js
            | None => 0%js
            end)).
  { intros v str Hv Hs. unfold Engine.parseNutritionValue.
    rewrite Hv, Hs. simpl.
    destruct (match_number_unit (trim str)) as [[num unit]|]; [|reflexivity].
    rewrite toLowerCase_percent. reflexivity. }
  split; [exact Hgen|]. split; [|split].
  - intros v Hv. unfold Engine.parseNutritionValue. rewrite Hv. reflexivity.
  - intros pre num unit rest Hpre Hne Hnum Hunit Hrest.
    destruct (parse_by_shape pre num unit rest Hpre Hne Hnum Hunit Hrest) as [Hs Hm].
    assert (Ht : ToBoolean (RStr (pre ++ num ++ unit ++ rest)) = true).
    { destruct (pre ++ num ++ unit ++ rest); [congruence | reflexivity]. }
    rewrite (Hgen _ _ Ht eq_refl), Hm. reflexivity.
  - split; vm_compute; reflexivity.
Qed.

Lemma percentage_needs_percent_sign_witness :
  Engine.parseNutritionValue (RStr "80 %") "percentage" = Ok 0%js /\
  Engine.parseNutritionValue (RNum 80%js) "percentage" = Ok 0%js /\
  Engine.parseNutritionValue (RStr "") "percentage" = Ok 0%js.
Proof.
  split; [|split].
  - exact (proj1 percentage_needs_percent_sign (RStr "80 %") "80 %" eq_refl eq_refl).
  - exact (proj1 percentage_needs_percent_sign (RNum 80%js) "80" eq_refl eq_refl).
  - exact (proj1 (proj2 percentage_needs_percent_sign) (RStr "") eq_refl).
Defined.

(** C6 at its failing input.  A lone dot is matched by the pattern as a
    number, [parseFloat] reads no number in it, and the parser returns [NaN]
    for energy, sodium and mass, in both variants that share the parser.
    The first variant turns the same [NaN] into 0. *)
Lemma lone_dot_parses_to_NaN :
  match_number_unit (trim ".") = Some (".", "") /\
  parseFloat "." = NaN /\
  Engine.parseNutritionValue (RStr ".") "energy" = Ok NaN /\
  Engine.parseNutritionValue (RStr ".") "sodium" = Ok NaN /\
  Engine.parseNutritionValue (RStr ".") "mass" = Ok NaN /\
  Engine.parseNutritionValue (RStr "..5 g") "mass" = Ok NaN /\
  StoredProduct.parseNutritionValue (RStr ".") "mass" = Ok NaN /\
  Legacy.parseNutritionValue (RStr ".") = Ok 0%js.
Proof. repeat split; vm_compute; reflexivity. Qed.

(** C7, as stated, fails in both variants that score saturated fat by a
    ladder: 5 g of saturated fat carried only in the nested mapping earn
    nothing in the category-aware variant (4 points at top level), and
    carried only at top level they earn nothing in the stored-product
    variant (1 point when nested). *)
Lemma saturated_fat_has_one_source :
  Engine.calculateNegativePoints (nested "saturatedFat" (RStr "5g")) food = Ok 0 /\
  Engine.calculateNegativePoints (top_level "saturatedFat" (RStr "5g")) food = Ok 4 /\
  StoredProduct.calculateNegativePoints (top_level "saturatedFat" (RStr "5g")) = Ok 0 /\
  StoredProduct.calculateNegativePoints (nested "saturatedFat" (RStr "5g")) = Ok 1.
Proof. repeat split; vm_compute; reflexivity. Qed.

Lemma get_insert_ne (o : gmap string raw) (k k' : string) (v : raw) :
  k <> k' -> get (<[k := v]> o) k' = get o k'.
Proof. intros H. unfold get. rewrite lookup_insert_ne by exact H. reflexivity. Qed.

(** C7, amended.  The category-aware variant resolves saturated fat from
    the top-level field [saturatedFat] alone: its saturated-fat points are
    those of that field, read as a mass, and the nested mapping of custom
    fields has no part in its negative points.  The stored-product variant
    resolves it from the nested entry alone: its saturated-fat points are
    those of the entry [saturatedFat] of the nested mapping, read as a mass,
    and a top-level [saturatedFat] has no part in its negative points.
    Neither falls back from one place to the other. *)
Theorem saturated_fat_resolution
    (top : gmap string raw) (custom custom' : option (gmap string raw))
    (v : raw) (isBeverage : raw) :
  let n := {| fields := top; customNutritionFields := custom |} in
  Engine.calculateNegativePoints n isBeverage =
    Ok (points Energy n isBeverage + points Sugars n isBeverage
        + count_exceeded (parsed (or_else (get top "saturatedFat") (RStr "0")) "mass")
                         (Engine.satFatThresholds isBeverage)
        + points Sodium n isBeverage) /\
  Engine.calculateNegativePoints n isBeverage =
    Engine.calculateNegativePoints
      {| fields := top; customNutritionFields := custom' |} isBeverage /\
  StoredProduct.calculateNegativePoints n =
    Ok (count_exceeded (stored_parsed (or_else (get top "energy") (RStr "0")) "energy")
                       StoredProduct.energyThresholds
        + count_exceeded
            (stored_parsed
               (or_else (or_else (get top "TotalSugars") (get top "sugars")) (RStr "0"))
               "mass")
            StoredProduct.sugarsThresholds
        + count_exceeded
            (stored_parsed (or_else (get_opt custom "saturatedFat") (RStr "0")) "mass")
            StoredProduct.satFatThresholds
        + count_exceeded (stored_parsed (or_else (get top "sodium") (RStr "0")) "sodium")
                         StoredProduct.sodiumThresholds) /\
  StoredProduct.calculateNegativePoints
      {| fields := <["saturatedFat" := v]> top; customNutritionFields := custom |} =
    StoredProduct.calculateNegativePoints n.
Proof.
  cbv zeta. split; [apply negative_points_sum|]. split; [reflexivity|]. split.
  - unfold StoredProduct.calculateNegativePoints. cbv zeta.
    rewrite !stored_parse_closed. reflexivity.
  - unfold StoredProduct.calculateNegativePoints. simpl.
    rewrite !get_insert_ne by discriminate. reflexivity.
Qed.

(** Every step of the heap version hands the heap on as it found it, and
    computes what the record version computes. *)
Lemma on_heap_negative (h : OnHeap.heap) (o : OnHeap.loc) (n : NutritionRecord) (b : raw) :
  h !! o = Some n ->
  OnHeap.calculateNegativePoints o b h = (Engine.calculateNegativePoints n b, h).
Proof.
  intros Ho.
  unfold OnHeap.calculateNegativePoints, Engine.calculateNegativePoints,
    OnHeap.read, OnHeap.call, mbind, OnHeap.St_bind, mret, OnHeap.St_ret.
  cbv zeta. rewrite !parse_returns. rewrite !Ho. cbn.
  destruct (ToBoolean (get (fields n) "TotalSugars")) eqn:Hts;
    rewrite ?Ho; cbn; unfold or_else; rewrite ?Hts, ?parse_returns; reflexivity.
Qed.

Lemma on_heap_positive (h : OnHeap.heap) (o : OnHeap.loc) (n : NutritionRecord) (b : raw) :
  h !! o = Some n ->
  OnHeap.calculatePositivePoints o b h = (Engine.calculatePositivePoints n b, h).
Proof.
  intros Ho.
  unfold OnHeap.calculatePositivePoints, Engine.calculatePositivePoints,
    OnHeap.read, OnHeap.call, mbind, OnHeap.St_bind, mret, OnHeap.St_ret.
  cbv zeta. rewrite !parse_returns. rewrite !Ho. cbn.
  destruct (ToBoolean (get (fields n) "dietaryfiber")) eqn:Hdf;
    rewrite ?Ho; cbn; unfold or_else; rewrite ?Hdf, ?parse_returns; reflexivity.
Qed.

Lemma on_heap_health_score (h : OnHeap.heap) (o : OnHeap.loc) (b : raw) :
  OnHeap.calculateHealthScore o b h =
  (match h !! o with
   | Some n => Engine.calculateHealthScore n b
   | None => Throw (TypeError "Cannot read properties of undefined")
   end, h).
Proof.
  destruct (h !! o) as [n|] eqn:Ho.
  - unfold OnHeap.calculateHealthScore, Engine.calculateHealthScore.
    cbv zeta. unfold mbind at 1. unfold OnHeap.St_bind at 1.
    rewrite (on_heap_negative h o n _ Ho).
    destruct (negative_points_range n (default_arg b (RNum 0%js))) as (N & -> & _).
    unfold mbind at 1. unfold OnHeap.St_bind at 1.
    rewrite (on_heap_positive h o n _ Ho).
    destruct (positive_points_range n (default_arg b (RNum 0%js))) as (P & -> & _).
    reflexivity.
  - unfold OnHeap.calculateHealthScore, OnHeap.calculateNegativePoints,
      OnHeap.read, mbind, OnHeap.St_bind.
    cbv zeta. rewrite Ho. reflexivity.
Qed.

(** The heap model can tell a function that writes: an assignment to the
    object changes the heap, and the score of the next call. *)
Example a_write_is_observed :
  let h : OnHeap.heap := {[ 1%positive := top_level "energy" (RStr "900") ]} in
  let written := (OnHeap.write 1%positive "energy" (RStr "0") h).2 in
  (written <> h) /\
  (OnHeap.calculateHealthScore 1%positive food written).1
  <> (OnHeap.calculateHealthScore 1%positive food h).1.
Proof.
  cbv zeta. split.
  - intros H.
    assert (H1 : (OnHeap.write 1%positive "energy" (RStr "0")
                    {[ 1%positive := top_level "energy" (RStr "900") ]}).2 !! 1%positive
                 = ({[ 1%positive := top_level "energy" (RStr "900") ]} : OnHeap.heap)
                     !! 1%positive)
      by (rewrite H; reflexivity).
    vm_compute in H1. discriminate H1.
  - rewrite !on_heap_health_score. vm_compute. discriminate.
Qed.

(** C8.  A call of [calculateHealthScore] leaves the heap, and with it the
    nutrition object, as it found it, and its outcome is a function of the
    object referred to and of the flag alone: two calls on the same inputs,
    one after the other or from heaps that differ elsewhere, have the same
    outcome.  That outcome is the one the function computes from the record
    the reference holds: on every record a result, with the health score
    and the details of [Engine.calculateHealthScore]. *)
Theorem health_score_is_pure
    (h h' : OnHeap.heap) (nutrition : OnHeap.loc) (isBeverage : raw) :
  h !! nutrition = h' !! nutrition ->
  let first := OnHeap.calculateHealthScore nutrition isBeverage h in
  let second := OnHeap.calculateHealthScore nutrition isBeverage (snd first) in
  let other := OnHeap.calculateHealthScore nutrition isBeverage h' in
  snd first = h /\
  snd second = h /\
  fst second = fst first /\
  snd other = h' /\
  fst other = fst first /\
  forall n : NutritionRecord,
    h !! nutrition = Some n ->
    fst first = Engine.calculateHealthScore n isBeverage /\
    exists r : Engine.Result,
      fst first = Ok r /\ fst second = Ok r /\ fst other = Ok r /\
      Engine.healthScore r
      = Engine.rescale (Engine.fsaScore (Engine.calculationDetails r)).
Proof.
  intros Hsame. cbv zeta.
  repeat (rewrite on_heap_health_score; simpl).
  rewrite <- Hsame. do 5 (split; [reflexivity|]).
  intros n Hn. rewrite Hn. split; [reflexivity|].
  destruct (health_score_eq n isBeverage) as (N & P & _ & _ & _ & _ & _ & _ & _ & ->).
  cbv zeta. eexists. repeat split.
Qed.

Lemma health_score_is_pure_witness :
  let h : OnHeap.heap := {[ 1%positive := top_level "energy" (RStr "900") ]} in
  let h' : OnHeap.heap := <[ 2%positive := top_level "energy" (RStr "1") ]> h in
  h !! 1%positive = h' !! 1%positive /\
  snd (OnHeap.calculateHealthScore 1%positive food h) = h /\
  fst (OnHeap.calculateHealthScore 1%positive food h')
  = fst (OnHeap.calculateHealthScore 1%positive food h).
Proof.
  cbv zeta.
  pose proof (health_score_is_pure
                {[ 1%positive := top_level "energy" (RStr "900") ]}
                (<[ 2%positive := top_level "energy" (RStr "1") ]>
                   {[ 1%positive := top_level "energy" (RStr "900") ]})
                1%positive food eq_refl) as H.
  cbv zeta in H. destruct H as (H1 & _ & _ & _ & H5 & _).
  split; [reflexivity|]. split; [exact H1 | exact H5].
Defined.

Lemma get_agree (n1 n2 : gmap string raw) (k : string) :
  n1 !! k = n2 !! k -> get n1 k = get n2 k.
Proof. intros H. unfold get. rewrite H. reflexivity. Qed.

(** C9.  If two records agree on every field but those one of energy,
    sugars, saturated fat and sodium is resolved from, and the normalized
    quantity of that nutrient is no greater in the first than in the second,
    then the first gets no more negative points than the second, in either
    category. *)
Theorem negative_points_monotone
    (d : nutrient) (n1 n2 : NutritionRecord) (isBeverage : raw) :
  (forall k : string, k ∉ field_names d -> fields n1 !! k = fields n2 !! k) ->
  le (quantity d n1) (quantity d n2) = true ->
  exists N1 N2 : Z,
    Engine.calculateNegativePoints n1 isBeverage = Ok N1 /\
    Engine.calculateNegativePoints n2 isBeverage = Ok N2 /\
    N1 <= N2.
Proof.
  intros Hagree Hle.
  rewrite !negative_points_sum. do 2 eexists. do 2 (split; [reflexivity|]).
  pose proof (count_exceeded_mono _ _ (ladder d isBeverage) Hle) as Hd.
  assert (Hother : forall d', d' <> d -> points d' n1 isBeverage = points d' n2 isBeverage).
  { intros d' Hne. unfold points, quantity. f_equal. f_equal.
    destruct d, d'; try congruence; unfold resolved;
      rewrite ?(get_agree (fields n1) (fields n2) "energy"),
              ?(get_agree (fields n1) (fields n2) "TotalSugars"),
              ?(get_agree (fields n1) (fields n2) "sugars"),
              ?(get_agree (fields n1) (fields n2) "saturatedFat"),
              ?(get_agree (fields n1) (fields n2) "sodium");
      try reflexivity; apply Hagree;
      rewrite list_elem_of_In; simpl; intuition discriminate. }
  fold (points d n1 isBeverage) in Hd. fold (points d n2 isBeverage) in Hd.
  destruct d;
    repeat match goal with
    | |- context [ points ?d' n1 isBeverage ] =>
        lazymatch goal with
        | H : points d' n1 isBeverage <= _ |- _ => fail
        | _ => rewrite (Hother d') by discriminate
        end
    end; lia.
Qed.

Lemma negative_points_monotone_witness :
  exists N1 N2 : Z,
    Engine.calculateNegativePoints (top_level "energy" (RStr "100kj")) beverage = Ok N1 /\
    Engine.calculateNegativePoints (top_level "energy" (RStr "100kcal")) beverage = Ok N2 /\
    N1 <= N2.
Proof.
  apply (negative_points_monotone Energy
           (top_level "energy" (RStr "100kj")) (top_level "energy" (RStr "100kcal"))
           beverage).
  - intros k Hk. simpl.
    assert (Hne : "energy" <> k) by (intros <-; apply Hk; left).
    rewrite !lookup_singleton_ne by exact Hne. reflexivity.
  - vm_compute. reflexivity.
Defined.

(** * Further properties of the code *)

(** X1.  Trimming is redundant for the pattern: it finds the same number
    and the same unit in a text and in the trimmed text. *)
Theorem trim_is_redundant (s : string) :
  match_number_unit (trim s) = match_number_unit s.
Proof.
  destruct (trim_decompose s) as (pre & post & Hs & Hpre & Hpost).
  rewrite Hs at 2.
  rewrite (match_skips_inert_prefix _ _ Hpre).
  apply eq_sym, match_ignores_inert_suffix, Hpost.
Qed.

(** X2.  The pattern finds the first number and its unit: in a text made of
    a prefix without digits and dots, a nonempty run of digits and dots, a
    run of letters and percent signs, and a rest that starts with neither,
    the groups are that run of digits and dots and that run of letters. *)
Theorem pattern_finds_first_number_and_unit (pre num unit rest : string) :
  all_chars (fun c => negb (isNumberChar c)) pre = true ->
  num <> "" ->
  all_chars isNumberChar num = true ->
  all_chars isUnitChar unit = true ->
  head_fails (fun c => isNumberChar c || isUnitChar c) rest = true ->
  match_number_unit (pre ++ num ++ unit ++ rest) = Some (num, unit).
Proof.
  intros Hpre Hne Hnum Hunit Hrest.
  destruct (parse_by_shape pre num unit rest Hpre Hne Hnum Hunit Hrest) as [_ Hm].
  rewrite match_after_trim in Hm. exact Hm.
Qed.

Lemma pattern_finds_first_number_and_unit_witness :
  match_number_unit ("about " ++ "12.5" ++ "mg" ++ "/100g") = Some ("12.5", "mg").
Proof.
  apply (pattern_finds_first_number_and_unit "about " "12.5" "mg" "/100g");
    [reflexivity | discriminate | reflexivity | reflexivity | reflexivity].
Defined.

(** X3.  The parser raises no exception: on every scalar value and every
    nutrient type it returns a number, in the category-aware and in the
    stored-product variant. *)
Theorem parser_never_throws (v : raw) (t : string) :
  (exists x, Engine.parseNutritionValue v t = Ok x) /\
  (exists x, StoredProduct.parseNutritionValue v t = Ok x).
Proof.
  split.
  - exists (parsed v t). apply parse_returns.
  - apply stored_parse_returns.
Qed.

(** Zero default: the empty record earns no negative and no positive
    points in either category, and scores 73. *)
Theorem empty_record_scores (isBeverage : raw) :
  Engine.calculateHealthScore {| fields := ∅; customNutritionFields := None |} isBeverage
  = Ok {| Engine.healthScore := of_Z 73;
          Engine.calculationDetails :=
            {| Engine.negativePoints := 0;
               Engine.positivePoints := 0;
               Engine.fsaScore := 0 |} |}.
Proof.
  unfold Engine.calculateHealthScore. cbv zeta.
  rewrite negative_points_default_arg, negative_points_sum.
  unfold points, ladder, Engine.energyThresholds, Engine.sugarsThresholds,
    Engine.satFatThresholds, Engine.sodiumThresholds.
  destruct (ToBoolean isBeverage); vm_compute; reflexivity.
Qed.

(** X4.  On every FSA score from -15 to 40 the binary64 rescaling returns
    the integer that exact arithmetic gives: 100 - 100 * (fsa + 15) / 55
    rounded to the nearest integer. *)
Theorem rescaling_is_exact (fsa : Z) :
  -15 <= fsa <= 40 ->
  Engine.rescale fsa = of_Z ((200 * (40 - fsa) + 55) / 110).
Proof. intros H. rewrite (rescale_exact fsa H). reflexivity. Qed.

Lemma rescaling_is_exact_witness : Engine.rescale (-1) = of_Z 75.
Proof. apply (rescaling_is_exact (-1)). lia. Defined.

(** X5.  A quantity that is [NaN] exceeds no threshold, so a field the
    parser reads as [NaN] earns what an absent field earns: nothing. *)
Theorem NaN_earns_no_points (thresholds : list number) (isBeverage : raw) :
  count_exceeded NaN thresholds = 0 /\
  Engine.calculateHealthScore (top_level "energy" (RStr ".")) isBeverage =
  Engine.calculateHealthScore {| fields := ∅; customNutritionFields := None |} isBeverage.
Proof.
  split.
  - unfold count_exceeded.
    induction thresholds as [|t l IH]; [reflexivity|].
    simpl. destruct t; simpl; exact IH.
  - unfold Engine.calculateHealthScore. cbv zeta.
    rewrite !negative_points_default_arg, !negative_points_sum.
    unfold points, ladder, Engine.energyThresholds, Engine.sugarsThresholds,
      Engine.satFatThresholds, Engine.sodiumThresholds.
    destruct (ToBoolean isBeverage); vm_compute; reflexivity.
Qed.

(** X6.  In the stored-product variant an id the library rejects makes the
    call fail with the library's error, and an id without a document makes
    it fail with "Product not found"; both leave the store alone.  Otherwise
    the call returns a score, stores it with the timestamp in the product's
    document, keeps the nutrition record, and touches no other document. *)
Theorem stored_score_is_written
    (doc : StoredProduct.DocumentOf) (productId : string) (now : Z)
    (db : StoredProduct.Db) :
  match doc productId with
  | Throw e => StoredProduct.calculateHealthScore doc productId now db = (Throw e, db)
  | Ok productRef =>
      match db !! productRef with
      | None =>
          StoredProduct.calculateHealthScore doc productId now db
          = (Throw (Error "Product not found"), db)
      | Some productDoc =>
          exists (score : number) (db' : StoredProduct.Db) (doc' : StoredProduct.Product),
            StoredProduct.calculateHealthScore doc productId now db = (Ok score, db') /\
            db' !! productRef = Some doc' /\
            StoredProduct.storedHealthScore doc' = Some score /\
            StoredProduct.updatedAt doc' = Some now /\
            StoredProduct.nutritionInfo doc' = StoredProduct.nutritionInfo productDoc /\
            forall other : string, other <> productRef -> db' !! other = db !! other
      end
  end.
Proof.
  unfold StoredProduct.calculateHealthScore.
  destruct (doc productId) as [productRef|e]; [|reflexivity].
  destruct (db !! productRef) as [productDoc|]; [|reflexivity].
  set (n := default StoredProduct.emptyRecord (StoredProduct.nutritionInfo productDoc)).
  assert (HN : exists N, StoredProduct.calculateNegativePoints n = Ok N).
  { unfold StoredProduct.calculateNegativePoints. cbv zeta.
    rewrite !stored_parse_closed. simpl. eauto. }
  assert (HP : exists P, StoredProduct.calculatePositivePoints n = Ok P).
  { unfold StoredProduct.calculatePositivePoints. cbv zeta.
    rewrite !stored_parse_closed. simpl. eauto. }
  destruct HN as [N ->], HP as [P ->].
  do 3 eexists. split; [reflexivity|].
  split; [apply lookup_insert_eq|]. simpl.
  do 3 (split; [reflexivity|]).
  intros other Hne. apply lookup_insert_ne. congruence.
Qed.

(** X7.  A lower FSA score gives a health score at least as high. *)
Theorem health_score_decreases_with_fsa (f1 f2 : Z) :
  -15 <= f1 -> f1 <= f2 -> f2 <= 40 ->
  exists z1 z2 : Z,
    Engine.rescale f1 = of_Z z1 /\ Engine.rescale f2 = of_Z z2 /\ z2 <= z1.
Proof.
  intros H1 H12 H2.
  exists (exact_score f1), (exact_score f2).
  split; [apply rescale_exact; lia|]. split; [apply rescale_exact; lia|].
  unfold exact_score. apply Z.div_le_mono; lia.
Qed.

Lemma health_score_decreases_with_fsa_witness :
  exists z1 z2 : Z,
    Engine.rescale (-15) = of_Z z1 /\ Engine.rescale 40 = of_Z z2 /\ z2 <= z1.
Proof. apply (health_score_decreases_with_fsa (-15) 40); lia. Defined.

(** X8.  On a text, the parser returns [NaN] exactly when the first run of
    digits and dots starts with a dot that no digit follows: only then can
    any nutrient type give [NaN], and then energy, sodium and mass do. *)
Theorem NaN_exactly_on_a_leading_dot (s : string) :
  (forall t : string,
      Engine.parseNutritionValue (RStr s) t = Ok NaN ->
      exists num unit : string,
        match_number_unit s = Some (num, unit) /\ starts_with_number num = false) /\
  (forall num unit : string,
      match_number_unit s = Some (num, unit) ->
      starts_with_number num = false ->
      Engine.parseNutritionValue (RStr s) "energy" = Ok NaN /\
      Engine.parseNutritionValue (RStr s) "sodium" = Ok NaN /\
      Engine.parseNutritionValue (RStr s) "mass" = Ok NaN).
Proof.
  split.
  - intros t. unfold Engine.parseNutritionValue.
    destruct (ToBoolean (RStr s)); simpl; [|discriminate].
    rewrite match_after_trim.
    destruct (match_number_unit s) as [[num unit]|] eqn:Hm; [|discriminate].
    destruct (match_groups s num unit Hm) as [Hne Hall].
    destruct (parseFloat_of_number_chars num Hne Hall) as [Hyes _].
    destruct (starts_with_number num) eqn:Hsw;
      [|intros _; exists num, unit; split; [reflexivity | exact Hsw]].
    specialize (Hyes eq_refl). intros H. exfalso.
    repeat match type of H with
    | (if ?b then _ else _) = _ => destruct b
    end;
      apply Ok_inj in H;
      repeat match type of H with
      | (if ?b then _ else _) = _ => destruct b
      end;
      try (exact (Hyes H)); try discriminate H;
      try (exact (div_not_NaN _ _ _ _ Hyes H));
      try (exact (mul_not_NaN _ _ _ _ Hyes H)).
  - intros num unit Hm Hno.
    destruct (match_groups s num unit Hm) as [Hne Hall].
    destruct (parseFloat_of_number_chars num Hne Hall) as [_ Hnan].
    specialize (Hnan Hno).
    assert (Ht : ToBoolean (RStr s) = true).
    { destruct s; [discriminate Hm | reflexivity]. }
    unfold Engine.parseNutritionValue. rewrite Ht. simpl.
    rewrite match_after_trim, Hm, Hnan.
    repeat split; repeat case_match; reflexivity.
Qed.

Lemma NaN_exactly_on_a_leading_dot_witness :
  Engine.parseNutritionValue (RStr "n.a.") "energy" = Ok NaN /\
  Engine.parseNutritionValue (RStr "n.a.") "sodium" = Ok NaN /\
  Engine.parseNutritionValue (RStr "n.a.") "mass" = Ok NaN.
Proof.
  exact (proj2 (NaN_exactly_on_a_leading_dot "n.a.") "." "a" eq_refl eq_refl).
Defined.

(** * Sign and monotonicity *)

Lemma le_lt_trans (a b x : number) :
  le a b = true -> lt b x = true -> lt a x = true.
Proof.
  unfold lt, le, SFltb, SFleb, SFcompare.
  destruct a as [sa|sa| |sa ma ea], b as [sb|sb| |sb mb eb], x as [sx|sx| |sx mx ex];
    try discriminate; try reflexivity;
    repeat match goal with s : bool |- _ => destruct s end;
    try discriminate; try reflexivity;
    intros; cmp_cases; simpl in *;
    try discriminate; try reflexivity; try lia.
Qed.

Lemma le_le_trans (a b x : number) :
  le a b = true -> le b x = true -> le a x = true.
Proof.
  unfold le, SFleb, SFcompare.
  destruct a as [sa|sa| |sa ma ea], b as [sb|sb| |sb mb eb], x as [sx|sx| |sx mx ex];
    try discriminate; try reflexivity;
    repeat match goal with s : bool |- _ => destruct s end;
    try discriminate; try reflexivity;
    intros; cmp_cases; simpl in *;
    try discriminate; try reflexivity; try lia.
Qed.

Lemma binary_round_aux_sign_clear (m e : Z) (l : location) :
  0 <= m -> sign_clear (binary_round_aux prec emax false m e l) = true.
Proof.
  intros H. unfold binary_round_aux.
  pose proof (shr_fexp_nonneg m e l H) as H1.
  destruct (shr_fexp prec emax m e l) as [mrs' e']. simpl in H1.
  pose proof (shr_fexp_nonneg _ e' loc_Exact
                (round_nearest_even_nonneg _ (loc_of_shr_record mrs') H1)) as H2.
  destruct (shr_fexp prec emax (round_nearest_even _ _) e' loc_Exact) as [mrs'' e''].
  simpl in H2. destruct (shr_m mrs''); [reflexivity| |lia].
  destruct (e'' <=? emax - prec); reflexivity.
Qed.

Lemma div_sign_clear (x : number) (m : positive) (e : Z) :
  sign_clear x = true -> sign_clear (div x (S754_finite false m e)) = true.
Proof.
  intros Hx. destruct x as [sx|sx| |sx mx ex]; simpl in Hx;
    try discriminate Hx; apply negb_true_iff in Hx; subst sx; try reflexivity.
  unfold div, SFdiv.
  destruct (SFdiv_core_binary prec emax (Z.pos mx) ex (Z.pos m) e) as [[q e'] l] eqn:Hq.
  apply binary_round_aux_sign_clear.
  unfold SFdiv_core_binary in Hq.
  set (m' := match _ - _ - _ with Z.pos _ => _ | _ => _ end) in Hq.
  assert (Hm' : 0 <= m').
  { unfold m'. destruct (_ - _ - _); try lia. apply Z.shiftl_nonneg. lia. }
  pose proof (Z.div_pos m' (Z.pos m) Hm' ltac:(lia)) as Hd.
  unfold Z.div in Hd. destruct (Z.div_eucl m' (Z.pos m)) as [q0 r0].
  injection Hq as <- _ _. exact Hd.
Qed.

Lemma mul_sign_clear (x : number) (m : positive) (e : Z) :
  sign_clear x = true -> sign_clear (mul x (S754_finite false m e)) = true.
Proof.
  intros Hx. destruct x as [sx|sx| |sx mx ex]; simpl in Hx;
    try discriminate Hx; apply negb_true_iff in Hx; subst sx; try reflexivity.
  unfold mul, SFmul. apply binary_round_aux_sign_clear. lia.
Qed.

Lemma decimal_sign_clear (m k : Z) : 0 <= m -> sign_clear (decimal m k) = true.
Proof.
  intros Hm. unfold decimal. destruct m as [|p|p]; [reflexivity| |lia].
  destruct (0 <=? k) eqn:Hk.
  - unfold binary_normalize.
    assert (0 <= Z.pos p * 10 ^ k) by (apply Z.mul_nonneg_nonneg; [lia | apply Z.pow_nonneg; lia]).
    destruct (Z.pos p * 10 ^ k) as [|q|q]; [reflexivity| |lia].
    unfold binary_round. destruct (shl_align _ _ _) as [mz ez].
    apply binary_round_aux_sign_clear. lia.
  - apply div_sign_clear. reflexivity.
Qed.

Lemma sign_clear_ge_zero (x : number) : sign_clear x = true -> ge x 0%js = true.
Proof. destruct x as [[]|[]| |[] m e]; simpl; intros H; try discriminate H; reflexivity. Qed.

Lemma sign_clear_not_NaN (x : number) : sign_clear x = true -> x <> NaN.
Proof. destruct x; simpl; intros H; try discriminate H; discriminate. Qed.

(** What [parseFloat] makes of a run of digits and dots: [NaN], or the number
    nearest to a non-negative decimal. *)
Lemma parseFloat_of_number_chars_form (num : string) :
  all_chars isNumberChar num = true ->
  parseFloat num = NaN \/ exists m k : Z, 0 <= m /\ parseFloat num = decimal m k.
Proof.
  intros Hall. destruct num as [|c r]; [left; reflexivity|].
  simpl in Hall. apply andb_true_iff in Hall as [Hc Hr].
  destruct (number_char_codes c Hc) as (H45 & H43 & HI & Hcase).
  unfold parseFloat. rewrite trimStart_number by (simpl; rewrite Hc; reflexivity).
  rewrite H45, H43, (no_Infinity_in_number c r Hc).
  destruct (takeWhile isDigit (String c r)) as [|c0 ip] eqn:Hip.
  - destruct (dropWhile isDigit (String c r)) as [|c1 r1] eqn:Hdrop.
    + left. reflexivity.
    + destruct (code c1 =? 46)%N.
      * destruct (takeWhile isDigit r1) as [|c2 fp] eqn:Hfp; [left; reflexivity|].
        right. eexists _, _. split; [|reflexivity].
        apply digits_value_nonneg; [lia|].
        change ("" ++ String c2 fp) with (String c2 fp).
        rewrite <- Hfp. apply takeWhile_all_chars.
      * left. reflexivity.
  - assert (Hd : all_chars isDigit (String c0 ip) = true)
      by (rewrite <- Hip; apply takeWhile_all_chars).
    right.
    destruct (dropWhile isDigit (String c r)) as [|c1 r1] eqn:Hdrop.
    + eexists _, _. split; [|reflexivity].
      apply digits_value_nonneg; [lia|].
      apply (all_chars_app isDigit _ ""); [exact Hd | reflexivity].
    + destruct (code c1 =? 46)%N.
      * eexists _, _. split; [|reflexivity].
        apply digits_value_nonneg; [lia|].
        apply all_chars_app; [exact Hd | apply takeWhile_all_chars].
      * eexists _, _. split; [|reflexivity].
        apply digits_value_nonneg; [lia|].
        apply (all_chars_app isDigit _ ""); [exact Hd | reflexivity].
Qed.

Lemma parseFloat_never_negative (num : string) :
  all_chars isNumberChar num = true ->
  parseFloat num = NaN \/ sign_clear (parseFloat num) = true.
Proof.
  intros Hall. destruct (parseFloat_of_number_chars_form num Hall) as [H|(m & k & Hm & H)].
  - left. exact H.
  - right. rewrite H. apply decimal_sign_clear. exact Hm.
Qed.

Lemma positive_points_closed (n : NutritionRecord) (b : raw) :
  Engine.calculatePositivePoints n b = Ok (positive_breakdown n).
Proof.
  unfold Engine.calculatePositivePoints. cbv zeta. rewrite !parse_returns. reflexivity.
Qed.

Lemma health_score_closed (n : NutritionRecord) (b : raw) :
  Engine.calculateHealthScore n b = Ok (result_of (negative_total n b) (positive_breakdown n)).
Proof.
  unfold Engine.calculateHealthScore. cbv zeta.
  rewrite negative_points_default_arg, negative_points_sum, positive_points_closed.
  reflexivity.
Qed.

Lemma negative_total_range (n : NutritionRecord) (b : raw) : 0 <= negative_total n b <= 40.
Proof.
  destruct (negative_points_range n b) as (N & HN & Hr).
  rewrite negative_points_sum in HN. injection HN as <-. exact Hr.
Qed.

Lemma produce_band_cases (x : number) :
  produce_band x = 0 \/ produce_band x = 1 \/ produce_band x = 2 \/ produce_band x = 5.
Proof. unfold produce_band. repeat case_match; auto. Qed.

Lemma positive_breakdown_range (n : NutritionRecord) :
  let P := positive_breakdown n in
  (Engine.fvln P = 0 \/ Engine.fvln P = 1 \/ Engine.fvln P = 2 \/ Engine.fvln P = 5) /\
  0 <= Engine.fiber P <= 5 /\ 0 <= Engine.protein P <= 5 /\
  Engine.total P = Engine.fvln P + Engine.fiber P + Engine.protein P.
Proof.
  cbv zeta. unfold positive_breakdown. simpl.
  split; [apply produce_band_cases|].
  split; [apply (count_exceeded_bounds _ Engine.fiberThresholds)|].
  split; [apply (count_exceeded_bounds _ Engine.proteinThresholds)|]. reflexivity.
Qed.

Lemma fsa_of_range (n : NutritionRecord) (b : raw) :
  -15 <= fsa_of (negative_total n b) (positive_breakdown n) <= 40.
Proof.
  pose proof (negative_total_range n b) as HN.
  destruct (positive_breakdown_range n) as (Hv & Hf & Hp & Ht).
  unfold fsa_of.
  destruct (Z.ltb_spec (negative_total n b) 11),
    (Z.eqb_spec (Engine.fvln (positive_breakdown n)) 5); lia.
Qed.

Lemma exact_score_antitone (f1 f2 : Z) : f1 <= f2 -> exact_score f2 <= exact_score f1.
Proof. intros H. unfold exact_score. apply Z.div_le_mono; lia. Qed.

Lemma ge_mono (c x y : number) :
  ge x c = true -> le x y = true -> ge y c = true.
Proof. unfold ge. exact (le_le_trans c x y). Qed.

Lemma produce_band_mono (x y : number) :
  le x y = true -> produce_band x <= produce_band y.
Proof.
  intros H. unfold produce_band.
  destruct (ge x 80%js) eqn:H80.
  { rewrite (ge_mono _ _ _ H80 H). lia. }
  destruct (ge x 60%js) eqn:H60.
  { rewrite (ge_mono _ _ _ H60 H). destruct (ge y 80%js); lia. }
  destruct (ge x 40%js) eqn:H40.
  { rewrite (ge_mono _ _ _ H40 H). destruct (ge y 80%js), (ge y 60%js); lia. }
  destruct (ge y 80%js), (ge y 60%js), (ge y 40%js); lia.
Qed.

Lemma agree_get (n1 n2 : NutritionRecord) (keys : list string) (k : string) :
  (forall k', k' ∉ keys -> fields n1 !! k' = fields n2 !! k') ->
  k ∉ keys -> get (fields n1) k = get (fields n2) k.
Proof. intros H Hk. unfold get. rewrite (H k Hk). reflexivity. Qed.

Lemma positive_breakdown_agree (n1 n2 : NutritionRecord) (d : nutrient) :
  (forall k, k ∉ field_names d -> fields n1 !! k = fields n2 !! k) ->
  positive_breakdown n1 = positive_breakdown n2.
Proof.
  intros H. unfold positive_breakdown, bonus_quantity, bonus_resolved.
  rewrite (agree_get n1 n2 _ "fruitsVegetablesNuts" H) by (destruct d; not_listed).
  rewrite (agree_get n1 n2 _ "dietaryfiber" H) by (destruct d; not_listed).
  rewrite (agree_get n1 n2 _ "fiber" H) by (destruct d; not_listed).
  rewrite (agree_get n1 n2 _ "protein" H) by (destruct d; not_listed).
  reflexivity.
Qed.

Lemma points_agree (n1 n2 : NutritionRecord) (keys : list string) (d : nutrient) (b : raw) :
  (forall k, k ∉ keys -> fields n1 !! k = fields n2 !! k) ->
  (forall k, k ∈ field_names d -> k ∉ keys) ->
  points d n1 b = points d n2 b.
Proof.
  intros H Hd. unfold points, quantity. f_equal. f_equal.
  destruct d; unfold resolved;
    repeat match goal with
    | |- context [ get (fields n1) ?k ] =>
        rewrite (agree_get n1 n2 keys k H) by (apply Hd; simpl; rewrite list_elem_of_In; simpl; auto)
    end; reflexivity.
Qed.

Lemma negative_total_le (d : nutrient) (n1 n2 : NutritionRecord) (b : raw) :
  (forall k, k ∉ field_names d -> fields n1 !! k = fields n2 !! k) ->
  le (quantity d n1) (quantity d n2) = true ->
  negative_total n1 b <= negative_total n2 b.
Proof.
  intros H Hle. unfold negative_total.
  pose proof (count_exceeded_mono _ _ (ladder d b) Hle) as Hd.
  fold (points d n1 b) in Hd. fold (points d n2 b) in Hd.
  assert (Ho : forall d', d' <> d -> points d' n1 b = points d' n2 b).
  { intros d' Hne. apply (points_agree n1 n2 (field_names d) d' b H).
    intros k Hk. destruct d, d'; try congruence;
      revert Hk; rewrite !list_elem_of_In; simpl; intuition (subst; discriminate). }
  destruct d.
  - rewrite (Ho Sugars), (Ho SaturatedFat), (Ho Sodium) by discriminate. lia.
  - rewrite (Ho Energy), (Ho SaturatedFat), (Ho Sodium) by discriminate. lia.
  - rewrite (Ho Energy), (Ho Sugars), (Ho Sodium) by discriminate. lia.
  - rewrite (Ho Energy), (Ho Sugars), (Ho SaturatedFat) by discriminate. lia.
Qed.

Lemma fsa_of_mono_negative (N1 N2 : Z) (P : Engine.PositivePoints) :
  0 <= Engine.protein P ->
  Engine.total P = Engine.fvln P + Engine.fiber P + Engine.protein P ->
  N1 <= N2 -> fsa_of N1 P <= fsa_of N2 P.
Proof.
  intros Hp Ht H. unfold fsa_of.
  destruct (Z.ltb_spec N1 11), (Z.ltb_spec N2 11), (Z.eqb_spec (Engine.fvln P) 5); lia.
Qed.

(** X9.  More of a penalized nutrient never raises the score: if two
    records agree on every field but those one of energy, sugars, saturated
    fat and sodium is resolved from, and the first holds no more of that
    nutrient than the second, then both are scored, with integers, and the
    health score of the second is no greater than that of the first. *)
Theorem more_of_a_penalized_nutrient_never_raises_the_score
    (d : nutrient) (n1 n2 : NutritionRecord) (isBeverage : raw) :
  (forall k : string, k ∉ field_names d -> fields n1 !! k = fields n2 !! k) ->
  le (quantity d n1) (quantity d n2) = true ->
  exists (r1 r2 : Engine.Result) (z1 z2 : Z),
    Engine.calculateHealthScore n1 isBeverage = Ok r1 /\
    Engine.calculateHealthScore n2 isBeverage = Ok r2 /\
    Engine.healthScore r1 = of_Z z1 /\
    Engine.healthScore r2 = of_Z z2 /\
    z2 <= z1.
Proof.
  intros Hagree Hle.
  rewrite !health_score_closed. do 2 eexists.
  exists (exact_score (fsa_of (negative_total n1 isBeverage) (positive_breakdown n1))),
         (exact_score (fsa_of (negative_total n2 isBeverage) (positive_breakdown n2))).
  do 2 (split; [reflexivity|]). simpl.
  split; [apply rescale_exact, fsa_of_range|].
  split; [apply rescale_exact, fsa_of_range|].
  apply exact_score_antitone.
  rewrite <- (positive_breakdown_agree n1 n2 d Hagree).
  destruct (positive_breakdown_range n1) as (_ & _ & Hp & Ht).
  apply fsa_of_mono_negative; [lia | exact Ht |].
  apply (negative_total_le d); assumption.
Qed.

Lemma more_of_a_penalized_nutrient_never_raises_the_score_witness :
  exists (r1 r2 : Engine.Result) (z1 z2 : Z),
    Engine.calculateHealthScore (top_level "sodium" (RStr "0.2g")) food = Ok r1 /\
    Engine.calculateHealthScore (top_level "sodium" (RStr "950 mg")) food = Ok r2 /\
    Engine.healthScore r1 = of_Z z1 /\
    Engine.healthScore r2 = of_Z z2 /\
    z2 <= z1.
Proof.
  apply (more_of_a_penalized_nutrient_never_raises_the_score Sodium
           (top_level "sodium" (RStr "0.2g")) (top_level "sodium" (RStr "950 mg")) food).
  - intros k Hk. simpl.
    assert (Hne : "sodium" <> k) by (intros <-; apply Hk; left).
    rewrite !lookup_singleton_ne by exact Hne. reflexivity.
  - vm_compute. reflexivity.
Defined.

Lemma bonus_quantity_agree (n1 n2 : NutritionRecord) (keys : list string) (p : bonus) :
  (forall k, k ∉ keys -> fields n1 !! k = fields n2 !! k) ->
  (forall k, k ∈ bonus_fields p -> k ∉ keys) ->
  bonus_quantity p n1 = bonus_quantity p n2.
Proof.
  intros H Hp. unfold bonus_quantity. f_equal.
  destruct p; unfold bonus_resolved;
    repeat match goal with
    | |- context [ get (fields n1) ?k ] =>
        rewrite (agree_get n1 n2 keys k H) by (apply Hp; simpl; rewrite list_elem_of_In; simpl; auto)
    end; reflexivity.
Qed.

Lemma positive_breakdown_le (p : bonus) (n1 n2 : NutritionRecord) :
  (forall k, k ∉ bonus_fields p -> fields n1 !! k = fields n2 !! k) ->
  le (bonus_quantity p n1) (bonus_quantity p n2) = true ->
  Engine.fvln (positive_breakdown n1) <= Engine.fvln (positive_breakdown n2) /\
  Engine.fiber (positive_breakdown n1) <= Engine.fiber (positive_breakdown n2) /\
  Engine.protein (positive_breakdown n1) <= Engine.protein (positive_breakdown n2).
Proof.
  intros H Hle.
  assert (Ho : forall p', p' <> p -> bonus_quantity p' n1 = bonus_quantity p' n2).
  { intros p' Hne. apply (bonus_quantity_agree n1 n2 (bonus_fields p) p' H).
    intros k Hk. destruct p, p'; try congruence;
      revert Hk; rewrite !list_elem_of_In; simpl; intuition (subst; discriminate). }
  unfold positive_breakdown. simpl.
  destruct p.
  - rewrite (Ho Fiber), (Ho Protein) by discriminate.
    split; [apply produce_band_mono, Hle | lia].
  - rewrite (Ho Produce), (Ho Protein) by discriminate.
    split; [lia|]. split; [apply count_exceeded_mono, Hle | lia].
  - rewrite (Ho Produce), (Ho Fiber) by discriminate.
    split; [lia|]. split; [lia | apply count_exceeded_mono, Hle].
Qed.

Lemma negative_total_agree (n1 n2 : NutritionRecord) (p : bonus) (b : raw) :
  (forall k, k ∉ bonus_fields p -> fields n1 !! k = fields n2 !! k) ->
  negative_total n1 b = negative_total n2 b.
Proof.
  intros H. unfold negative_total.
  assert (Hd : forall d, points d n1 b = points d n2 b).
  { intros d. apply (points_agree n1 n2 (bonus_fields p) d b H).
    intros k Hk. destruct p, d;
      revert Hk; rewrite !list_elem_of_In; simpl; intuition (subst; discriminate). }
  rewrite !Hd. reflexivity.
Qed.

Lemma fsa_of_antitone_positive (N : Z) (P1 P2 : Engine.PositivePoints) :
  (Engine.fvln P2 = 0 \/ Engine.fvln P2 = 1 \/ Engine.fvln P2 = 2 \/ Engine.fvln P2 = 5) ->
  0 <= Engine.protein P2 ->
  Engine.total P1 = Engine.fvln P1 + Engine.fiber P1 + Engine.protein P1 ->
  Engine.total P2 = Engine.fvln P2 + Engine.fiber P2 + Engine.protein P2 ->
  Engine.fvln P1 <= Engine.fvln P2 ->
  Engine.fiber P1 <= Engine.fiber P2 ->
  Engine.protein P1 <= Engine.protein P2 ->
  fsa_of N P2 <= fsa_of N P1.
Proof.
  intros Hv Hp Ht1 Ht2 H1 H2 H3. unfold fsa_of.
  destruct (Z.ltb_spec N 11), (Z.eqb_spec (Engine.fvln P1) 5),
    (Z.eqb_spec (Engine.fvln P2) 5); lia.
Qed.

(** X10.  More of a rewarded nutrient never lowers the score: if two
    records agree on every field but those one of produce, fiber and protein
    is resolved from, and the first holds no more of it than the second, then
    the health score of the first is no greater than that of the second.
    This holds across the threshold of 11 negative points, where protein
    stops counting unless produce earns its 5 points. *)
Theorem more_of_a_rewarded_nutrient_never_lowers_the_score
    (p : bonus) (n1 n2 : NutritionRecord) (isBeverage : raw) :
  (forall k : string, k ∉ bonus_fields p -> fields n1 !! k = fields n2 !! k) ->
  le (bonus_quantity p n1) (bonus_quantity p n2) = true ->
  exists (r1 r2 : Engine.Result) (z1 z2 : Z),
    Engine.calculateHealthScore n1 isBeverage = Ok r1 /\
    Engine.calculateHealthScore n2 isBeverage = Ok r2 /\
    Engine.healthScore r1 = of_Z z1 /\
    Engine.healthScore r2 = of_Z z2 /\
    z1 <= z2.
Proof.
  intros Hagree Hle.
  rewrite !health_score_closed. do 2 eexists.
  exists (exact_score (fsa_of (negative_total n1 isBeverage) (positive_breakdown n1))),
         (exact_score (fsa_of (negative_total n2 isBeverage) (positive_breakdown n2))).
  do 2 (split; [reflexivity|]). simpl.
  split; [apply rescale_exact, fsa_of_range|].
  split; [apply rescale_exact, fsa_of_range|].
  apply exact_score_antitone.
  rewrite <- (negative_total_agree n1 n2 p isBeverage Hagree).
  destruct (positive_breakdown_range n1) as (_ & _ & _ & Ht1).
  destruct (positive_breakdown_range n2) as (Hv2 & _ & Hp2 & Ht2).
  destruct (positive_breakdown_le p n1 n2 Hagree Hle) as (H1 & H2 & H3).
  apply fsa_of_antitone_positive; try assumption. lia.
Qed.

Lemma more_of_a_rewarded_nutrient_never_lowers_the_score_witness :
  exists (r1 r2 : Engine.Result) (z1 z2 : Z),
    Engine.calculateHealthScore (top_level "fiber" (RStr "900mg")) beverage = Ok r1 /\
    Engine.calculateHealthScore (top_level "dietaryfiber" (RStr "3g")) beverage = Ok r2 /\
    Engine.healthScore r1 = of_Z z1 /\
    Engine.healthScore r2 = of_Z z2 /\
    z1 <= z2.
Proof.
  apply (more_of_a_rewarded_nutrient_never_lowers_the_score Fiber
           (top_level "fiber" (RStr "900mg")) (top_level "dietaryfiber" (RStr "3g")) beverage).
  - intros k Hk. simpl.
    assert (Hne1 : "fiber" <> k) by (intros <-; apply Hk; right; left).
    assert (Hne2 : "dietaryfiber" <> k) by (intros <-; apply Hk; left).
    rewrite lookup_singleton_ne by exact Hne1.
    rewrite lookup_singleton_ne by exact Hne2. reflexivity.
  - vm_compute. reflexivity.
Defined.

Lemma count_exceeded_app (x : number) (l1 l2 : list number) :
  count_exceeded x (l1 ++ l2)%list = count_exceeded x l1 + count_exceeded x l2.
Proof.
  unfold count_exceeded. rewrite List.filter_app, List.length_app. lia.
Qed.

Lemma count_exceeded_dominated (x : number) (lo hi : list number) :
  Forall2 (fun a b => le a b = true) lo hi ->
  count_exceeded x hi <= count_exceeded x lo.
Proof.
  unfold count_exceeded. induction 1 as [|a b lo hi Hab _ IH]; simpl; [lia|].
  destruct (gt x b) eqn:Hb.
  - assert (Ha : gt x a = true) by exact (le_lt_trans a b x Hab Hb).
    rewrite Ha. simpl length. lia.
  - destruct (gt x a); simpl length; lia.
Qed.

(** X11.  On the same record a food earns at most one negative point more
    than a beverage, and none more unless its energy exceeds 800: the
    beverage ladders are the stricter ones, but the one for energy has nine
    breakpoints where the food ladder has ten. *)
Theorem beverage_ladders_are_stricter_up_to_800_kcal
    (nutrition : NutritionRecord) (asFood asBeverage : raw) :
  ToBoolean asFood = false ->
  ToBoolean asBeverage = true ->
  exists Nf Nb : Z,
    Engine.calculateNegativePoints nutrition asFood = Ok Nf /\
    Engine.calculateNegativePoints nutrition asBeverage = Ok Nb /\
    Nf <= Nb + 1 /\
    (gt (quantity Energy nutrition) 800%js = false -> Nf <= Nb).
Proof.
  intros Hf Hb. rewrite !negative_points_sum. do 2 eexists.
  do 2 (split; [reflexivity|]).
  unfold points, ladder, Engine.energyThresholds, Engine.sugarsThresholds,
    Engine.satFatThresholds, Engine.sodiumThresholds.
  rewrite Hf, Hb.
  set (e := quantity Energy nutrition). set (s := quantity Sugars nutrition).
  set (f := quantity SaturatedFat nutrition). set (o := quantity Sodium nutrition).
  assert (He :
    count_exceeded e [80; 160; 240; 320; 400; 480; 560; 640; 720; 800]%js
    <= count_exceeded e [7.2; 14.3; 21.5; 28.5; 35.9; 43.0; 50.2; 57.4; 64.5]%js
       + (if gt e 800%js then 1 else 0)).
  { change [80; 160; 240; 320; 400; 480; 560; 640; 720; 800]%js
      with ([80; 160; 240; 320; 400; 480; 560; 640; 720]%js ++ [800%js])%list.
    rewrite count_exceeded_app.
    assert (H9 : count_exceeded e [80; 160; 240; 320; 400; 480; 560; 640; 720]%js
                 <= count_exceeded e [7.2; 14.3; 21.5; 28.5; 35.9; 43.0; 50.2; 57.4; 64.5]%js)
      by (apply count_exceeded_dominated; rungs_below).
    unfold count_exceeded at 2. simpl List.filter.
    destruct (gt e 800%js); simpl length; lia. }
  assert (Hs :
    count_exceeded s [4.5; 9.0; 13.5; 18.0; 22.5; 27.0; 31.0; 36.0; 40.0; 45.0]%js
    <= count_exceeded s [0; 1.5; 3.0; 4.5; 6.0; 7.5; 9.0; 10.5; 12.0; 13.5]%js)
    by (apply count_exceeded_dominated; rungs_below).
  assert (Hfat :
    count_exceeded f [1; 2; 3; 4; 5; 6; 7; 8; 9; 10]%js
    <= count_exceeded f [0; 0.1; 0.2; 0.3; 0.4; 0.5; 0.6; 0.7; 0.8; 0.9; 1.0]%js).
  { change [0; 0.1; 0.2; 0.3; 0.4; 0.5; 0.6; 0.7; 0.8; 0.9; 1.0]%js
      with ([0; 0.1; 0.2; 0.3; 0.4; 0.5; 0.6; 0.7; 0.8; 0.9]%js ++ [1.0%js])%list.
    rewrite count_exceeded_app.
    assert (H10 : count_exceeded f [1; 2; 3; 4; 5; 6; 7; 8; 9; 10]%js
                  <= count_exceeded f [0; 0.1; 0.2; 0.3; 0.4; 0.5; 0.6; 0.7; 0.8; 0.9]%js)
      by (apply count_exceeded_dominated; rungs_below).
    pose proof (count_exceeded_bounds f [1.0%js]). lia. }
  assert (Ho :
    count_exceeded o [90; 180; 270; 360; 450; 540; 630; 720; 810; 900]%js
    <= count_exceeded o [0; 45; 90; 135; 180; 225; 270; 315; 360; 405]%js)
    by (apply count_exceeded_dominated; rungs_below).
  split.
  - destruct (gt e 800%js); lia.
  - intros H800. rewrite H800 in He. lia.
Qed.

Lemma beverage_ladders_are_stricter_up_to_800_kcal_witness :
  exists Nf Nb : Z,
    Engine.calculateNegativePoints (top_level "energy" (RStr "900")) food = Ok Nf /\
    Engine.calculateNegativePoints (top_level "energy" (RStr "900")) (RStr "false") = Ok Nb /\
    Nf <= Nb + 1 /\
    (gt (quantity Energy (top_level "energy" (RStr "900"))) 800%js = false -> Nf <= Nb).
Proof.
  apply (beverage_ladders_are_stricter_up_to_800_kcal
           (top_level "energy" (RStr "900")) food (RStr "false")); reflexivity.
Defined.

Lemma keep_number_chars_all (s : string) :
  all_chars isNumberChar (keep_number_chars s) = true.
Proof.
  induction s as [|c s IH]; simpl; [reflexivity|].
  destruct (isNumberChar c) eqn:Hc; [simpl; rewrite Hc|]; exact IH.
Qed.

Lemma div_keeps_sign (x : number) (m : positive) (e : Z) :
  x = NaN \/ sign_clear x = true ->
  div x (S754_finite false m e) = NaN \/ sign_clear (div x (S754_finite false m e)) = true.
Proof. intros [->|H]; [left; reflexivity | right; apply div_sign_clear, H]. Qed.

Lemma mul_keeps_sign (x : number) (m : positive) (e : Z) :
  x = NaN \/ sign_clear x = true ->
  mul x (S754_finite false m e) = NaN \/ sign_clear (mul x (S754_finite false m e)) = true.
Proof. intros [->|H]; [left; reflexivity | right; apply mul_sign_clear, H]. Qed.

Lemma engine_parse_sign (v : raw) (t : string) :
  parsed v t = NaN \/ sign_clear (parsed v t) = true.
Proof.
  unfold parsed, Engine.parseNutritionValue.
  destruct (ToBoolean v) eqn:Hv; simpl; [|right; reflexivity].
  destruct (toString v) as [s|e]; simpl; [|left; reflexivity].
  destruct (match_number_unit (trim s)) as [[g1 g2]|] eqn:Hm; [|right; reflexivity].
  destruct (match_groups _ _ _ Hm) as [_ Hall].
  pose proof (parseFloat_never_negative g1 Hall) as Hs.
  destruct (String.eqb t "energy");
    [destruct (String.eqb _ "kj"); simpl; auto using div_keeps_sign|].
  destruct (String.eqb t "sodium");
    [destruct (String.eqb _ "g"); simpl; auto using mul_keeps_sign|].
  destruct (String.eqb t "mass");
    [destruct (String.eqb _ "mg"); [|destruct (String.eqb _ "mcg")];
     simpl; auto using div_keeps_sign|].
  destruct (String.eqb t "percentage"); [|exact Hs].
  destruct (String.eqb _ "%"); simpl; auto.
Qed.

Lemma stored_parse_sign (v : raw) (t : string) :
  exists x, StoredProduct.parseNutritionValue v t = Ok x /\ (x = NaN \/ sign_clear x = true).
Proof.
  unfold StoredProduct.parseNutritionValue.
  destruct (ToBoolean v) eqn:Hv; simpl; [|eexists; split; [reflexivity|right; reflexivity]].
  destruct v as [| |b|x|s]; try discriminate Hv; simpl;
  (destruct (match_number_unit (trim _)) as [[g1 g2]|] eqn:Hm;
    [|eexists; split; [reflexivity|right; reflexivity]];
  destruct (match_groups _ _ _ Hm) as [_ Hall];
  pose proof (parseFloat_never_negative g1 Hall) as Hs;
  (destruct (String.eqb t "energy");
    [destruct (String.eqb _ "kj"); eexists; (split; [reflexivity|]);
       auto using div_keeps_sign|]);
  (destruct (String.eqb t "sodium");
    [destruct (String.eqb _ "g"); eexists; (split; [reflexivity|]);
       auto using mul_keeps_sign|]);
  (destruct (String.eqb t "mass");
    [destruct (String.eqb _ "mg"); eexists; (split; [reflexivity|]);
       auto using div_keeps_sign|]);
  (destruct (String.eqb t "percentage"); [|eexists; split; [reflexivity|exact Hs]]);
  destruct (String.eqb _ "%"); eexists; (split; [reflexivity|]); auto).
Qed.

(** X12.  No parser returns a negative number.  The unit-aware parsers
    return [NaN] or a number that is at least 0; the parser of the first
    variant returns a number that is at least 0 and never [NaN], and throws
    on [undefined] and [null] only.  A minus sign in the input is dropped. *)
Theorem parsed_numbers_are_never_negative (v : raw) (t : string) :
  (exists x : number,
      Engine.parseNutritionValue v t = Ok x /\ (x = NaN \/ ge x 0%js = true)) /\
  (exists x : number,
      StoredProduct.parseNutritionValue v t = Ok x /\ (x = NaN \/ ge x 0%js = true)) /\
  match Legacy.parseNutritionValue v with
  | Ok x => x <> NaN /\ ge x 0%js = true
  | Throw _ => v = RUndefined \/ v = RNull
  end.
Proof.
  split; [|split].
  - exists (parsed v t). split; [apply parse_returns|].
    destruct (engine_parse_sign v t) as [H|H]; [left; exact H|].
    right. apply sign_clear_ge_zero, H.
  - destruct (stored_parse_sign v t) as (x & Hx & [H|H]); exists x; (split; [exact Hx|]).
    + left; exact H.
    + right. apply sign_clear_ge_zero, H.
  - unfold Legacy.parseNutritionValue.
    destruct (toString v) as [s|e] eqn:Hts; simpl.
    + destruct (parseFloat_never_negative (keep_number_chars s) (keep_number_chars_all s))
        as [Hn|Hs].
      * rewrite Hn. simpl. split; [discriminate | reflexivity].
      * destruct (parseFloat (keep_number_chars s)) as [[]|[]| |[] m e];
          simpl in *; try discriminate Hs; split; try discriminate; reflexivity.
    + destruct v; simpl in Hts; try discriminate Hts; auto.
Qed.

(** X13.  The parsers of the stored-product variant and of the
    category-aware variant return the same on every value and nutrient type
    but one case: a mass whose unit is mcg, in any letter case.  There the
    category-aware parser returns the number divided by 1000000 and the
    stored-product parser returns the number as it stands: it reads
    micrograms as grams. *)
Theorem stored_parser_reads_micrograms_as_grams (v : raw) (t : string) :
  (StoredProduct.parseNutritionValue v t = Engine.parseNutritionValue v t \/
   (t = "mass" /\
    exists s num unit : string,
      toString v = Ok s /\
      match_number_unit s = Some (num, unit) /\
      toLowerCase unit = "mcg" /\
      StoredProduct.parseNutritionValue v t = Ok (parseFloat num) /\
      Engine.parseNutritionValue v t = Ok (div (parseFloat num) 1_000_000%js))) /\
  (forall s num unit : string,
     ToBoolean v = true ->
     toString v = Ok s ->
     match_number_unit s = Some (num, unit) ->
     toLowerCase unit = "mcg" ->
     StoredProduct.parseNutritionValue v "mass" = Ok (parseFloat num) /\
     Engine.parseNutritionValue v "mass" = Ok (div (parseFloat num) 1_000_000%js)).
Proof.
  split.
  - unfold StoredProduct.parseNutritionValue, Engine.parseNutritionValue.
    destruct (ToBoolean v) eqn:Hv; simpl; [|left; reflexivity].
    destruct (toString v) as [s|e] eqn:Hs; simpl; [|left; reflexivity].
    rewrite match_after_trim.
    destruct (match_number_unit s) as [[num unit]|] eqn:Hm; [|left; reflexivity].
    destruct (String.eqb t "energy"); [left; reflexivity|].
    destruct (String.eqb t "sodium"); [left; reflexivity|].
    destruct (String.eqb_spec t "mass") as [->|]; [|left; reflexivity].
    destruct (String.eqb_spec (toLowerCase unit) "mg") as [Hmg|Hmg].
    + left. reflexivity.
    + destruct (String.eqb_spec (toLowerCase unit) "mcg") as [Hmcg|Hmcg].
      * right. split; [reflexivity|]. exists s, num, unit. auto.
      * left. reflexivity.
  - intros s num unit Hv Hs Hm Hu.
    unfold StoredProduct.parseNutritionValue, Engine.parseNutritionValue.
    rewrite Hv, Hs. simpl. rewrite match_after_trim, Hm, Hu. split; reflexivity.
Qed.

Lemma stored_parser_reads_micrograms_as_grams_witness :
  StoredProduct.parseNutritionValue (RStr "500Mcg") "mass" = Ok (parseFloat "500") /\
  Engine.parseNutritionValue (RStr "500Mcg") "mass"
  = Ok (div (parseFloat "500") 1_000_000%js).
Proof.
  apply (proj2 (stored_parser_reads_micrograms_as_grams (RStr "500Mcg") "mass")
               "500Mcg" "500" "Mcg"); reflexivity.
Defined.

Lemma ToBoolean_flag (b : raw) :
  ladder Energy b = ladder Energy (if ToBoolean b then RNum 1%js else RNum 0%js) /\
  ladder Sugars b = ladder Sugars (if ToBoolean b then RNum 1%js else RNum 0%js) /\
  ladder SaturatedFat b = ladder SaturatedFat (if ToBoolean b then RNum 1%js else RNum 0%js) /\
  ladder Sodium b = ladder Sodium (if ToBoolean b then RNum 1%js else RNum 0%js).
Proof.
  unfold ladder, Engine.energyThresholds, Engine.sugarsThresholds,
    Engine.satFatThresholds, Engine.sodiumThresholds.
  destruct (ToBoolean b); repeat split; reflexivity.
Qed.

(** X14.  The category is read by truthiness alone: two flags that are
    both truthy, or both falsy, give the same result on every record.  The
    text false is a truthy flag and selects the beverage ladders. *)
Theorem category_is_read_by_truthiness (nutrition : NutritionRecord) (b1 b2 : raw) :
  ToBoolean b1 = ToBoolean b2 ->
  Engine.calculateHealthScore nutrition b1 = Engine.calculateHealthScore nutrition b2.
Proof.
  intros H. rewrite !health_score_closed. f_equal. f_equal.
  unfold negative_total, points.
  destruct (ToBoolean_flag b1) as (-> & -> & -> & ->).
  destruct (ToBoolean_flag b2) as (-> & -> & -> & ->).
  rewrite H. reflexivity.
Qed.

Lemma category_is_read_by_truthiness_witness :
  Engine.calculateHealthScore (penalized "70%") (RStr "false")
  = Engine.calculateHealthScore (penalized "70%") beverage.
Proof.
  apply (category_is_read_by_truthiness (penalized "70%") (RStr "false") beverage).
  reflexivity.
Defined.

(** * The HTTP functions and the store *)

Lemma closed_score_range (n : NutritionRecord) (b : raw) :
  Engine.healthScore (result_of (negative_total n b) (positive_breakdown n))
  = of_Z (exact_score (fsa_of (negative_total n b) (positive_breakdown n))) /\
  0 <= exact_score (fsa_of (negative_total n b) (positive_breakdown n)) <= 100.
Proof.
  pose proof (fsa_of_range n b) as Hr. split.
  - simpl. apply rescale_exact, Hr.
  - apply exact_score_range, Hr.
Qed.

(** X15.  The HTTP function of the category-aware variant answers every
    request, always with the header that allows every origin.  The status is
    500 exactly on a POST without a body; it is 200 exactly on a POST whose
    body has a truthy [nutrition], and then the answer is what
    [calculateHealthScore] returns on that [nutrition] with the flag 1 for a
    truthy [isBeverage] and 0 otherwise, with an integer health score from 0
    to 100. *)
Theorem engine_function_answers (req : Http.request (gmap string Http.value)) :
  Http.headers (EngineExports.calculateHealthScore req) !! "Access-Control-Allow-Origin"
  = Some "*" /\
  Http.sent (EngineExports.calculateHealthScore req) <> None /\
  (Http.statusCode (EngineExports.calculateHealthScore req) = 500 <->
   Http.method req = "POST" /\ Http.body req = None) /\
  (Http.statusCode (EngineExports.calculateHealthScore req) = 200 <->
   Http.method req = "POST" /\
   exists b, Http.body req = Some b /\ Http.truthy (Http.prop b "nutrition") = true) /\
  (Http.statusCode (EngineExports.calculateHealthScore req) = 200 ->
   exists (b : gmap string Http.value) (r : Engine.Result) (z : Z),
     Http.body req = Some b /\
     Engine.calculateHealthScore
       (Http.as_record (Http.prop b "nutrition"))
       (if Http.truthy (Http.prop b "isBeverage") then RNum 1%js else RNum 0%js)
     = Ok r /\
     Http.sent (EngineExports.calculateHealthScore req) = Some (Http.JsonResult r) /\
     Engine.healthScore r = of_Z z /\ 0 <= z <= 100).
Proof.
  unfold EngineExports.calculateHealthScore.
  destruct (String.eqb_spec (Http.method req) "OPTIONS") as [Ho|Ho].
  { rewrite Ho. simpl. repeat split; try discriminate; try reflexivity;
      intros H; destruct H; discriminate. }
  destruct (String.eqb_spec (Http.method req) "POST") as [Hp|Hp]; simpl.
  2: { repeat split; try discriminate; try reflexivity;
         intros [H _]; contradiction. }
  unfold Http.destructure.
  destruct (Http.body req) as [b|] eqn:Hb; simpl.
  2: { repeat split; try discriminate; try reflexivity; auto.
       intros (_ & b & H & _). discriminate. }
  destruct (Http.truthy (Http.prop b "nutrition")) eqn:Ht; simpl.
  2: { repeat split; try discriminate; try reflexivity.
       - intros [_ H]. discriminate.
       - intros (_ & b' & H & Ht'). injection H as <-. congruence. }
  rewrite health_score_closed. simpl.
  repeat split; try discriminate; try reflexivity.
  - intros [_ H]. discriminate.
  - exact Hp.
  - exists b. auto.
  - intros _. exists b. eexists; eexists. split; [reflexivity|].
    rewrite health_score_closed.
    split; [reflexivity|]. split; [reflexivity|].
    apply closed_score_range.
Qed.

Lemma stored_negative_range (n : NutritionRecord) :
  exists N, StoredProduct.calculateNegativePoints n = Ok N /\ 0 <= N <= 39.
Proof.
  unfold StoredProduct.calculateNegativePoints. cbv zeta.
  repeat match goal with
  | |- context [ StoredProduct.parseNutritionValue ?v ?t ] =>
      destruct (stored_parse_returns v t) as [? ->]
  end. simpl.
  eexists; split; [reflexivity|].
  repeat match goal with
  | |- context [ count_exceeded ?x ?l ] =>
      lazymatch goal with
      | _ : 0 <= count_exceeded x l <= _ |- _ => fail
      | _ => pose proof (count_exceeded_bounds x l)
      end
  end.
  unfold StoredProduct.energyThresholds, StoredProduct.sugarsThresholds,
    StoredProduct.satFatThresholds, StoredProduct.sodiumThresholds in *.
  simpl length in *. lia.
Qed.

Lemma stored_positive_range (n : NutritionRecord) :
  exists P, StoredProduct.calculatePositivePoints n = Ok P /\
    (Engine.fvln P = 0 \/ Engine.fvln P = 1 \/ Engine.fvln P = 2 \/ Engine.fvln P = 5) /\
    0 <= Engine.fiber P <= 5 /\
    0 <= Engine.protein P <= 5 /\
    Engine.total P = Engine.fvln P + Engine.fiber P + Engine.protein P.
Proof.
  unfold StoredProduct.calculatePositivePoints. cbv zeta.
  repeat match goal with
  | |- context [ StoredProduct.parseNutritionValue ?v ?t ] =>
      destruct (stored_parse_returns v t) as [? ->]
  end. simpl.
  eexists; split; [reflexivity|]. simpl.
  split; [apply produce_band_cases|].
  split; [apply (count_exceeded_bounds _ Engine.fiberThresholds)|].
  split; [apply (count_exceeded_bounds _ Engine.proteinThresholds)|].
  reflexivity.
Qed.

(** What a call on a stored product returns and writes. *)
Lemma stored_call (doc : StoredProduct.DocumentOf) (productId productRef : string)
    (now : Z) (db : StoredProduct.Db) (d : StoredProduct.Product) :
  doc productId = Ok productRef ->
  db !! productRef = Some d ->
  exists (N : Z) (P : Engine.PositivePoints),
    0 <= N <= 39 /\
    (Engine.fvln P = 0 \/ Engine.fvln P = 1 \/ Engine.fvln P = 2 \/ Engine.fvln P = 5) /\
    0 <= Engine.fiber P <= 5 /\
    0 <= Engine.protein P <= 5 /\
    Engine.total P = Engine.fvln P + Engine.fiber P + Engine.protein P /\
    StoredProduct.calculateNegativePoints
      (default StoredProduct.emptyRecord (StoredProduct.nutritionInfo d)) = Ok N /\
    StoredProduct.calculatePositivePoints
      (default StoredProduct.emptyRecord (StoredProduct.nutritionInfo d)) = Ok P /\
    StoredProduct.calculateHealthScore doc productId now db
    = (Ok (Engine.rescale (fsa_of N P)),
       <[ productRef :=
            {| StoredProduct.nutritionInfo := StoredProduct.nutritionInfo d;
               StoredProduct.storedHealthScore := Some (Engine.rescale (fsa_of N P));
               StoredProduct.updatedAt := Some now;
               StoredProduct.storedDetails :=
                 Some {| Engine.negativePoints := N;
                         Engine.positivePoints := Engine.total P;
                         Engine.fsaScore := fsa_of N P |} |} ]> db).
Proof.
  intros Href Hdoc. unfold StoredProduct.calculateHealthScore. rewrite Href, Hdoc.
  destruct (stored_negative_range
              (default StoredProduct.emptyRecord (StoredProduct.nutritionInfo d)))
    as (N & HN & HrN).
  destruct (stored_positive_range
              (default StoredProduct.emptyRecord (StoredProduct.nutritionInfo d)))
    as (P & HP & Hv & Hf & Hp & Ht).
  exists N, P. rewrite HN, HP. repeat (split; [assumption || reflexivity|]).
  reflexivity.
Qed.

(** A call that finds no document, or whose id the library rejects. *)
Lemma stored_call_fails (doc : StoredProduct.DocumentOf) (productId : string)
    (now : Z) (db : StoredProduct.Db) :
  (forall e, doc productId = Throw e ->
     StoredProduct.calculateHealthScore doc productId now db = (Throw e, db)) /\
  (forall productRef, doc productId = Ok productRef -> db !! productRef = None ->
     StoredProduct.calculateHealthScore doc productId now db
     = (Throw (Error "Product not found"), db)).
Proof.
  unfold StoredProduct.calculateHealthScore. split.
  - intros e ->. reflexivity.
  - intros productRef -> ->. reflexivity.
Qed.

Lemma fsa_of_stored_range (N : Z) (P : Engine.PositivePoints) :
  0 <= N <= 39 ->
  (Engine.fvln P = 0 \/ Engine.fvln P = 1 \/ Engine.fvln P = 2 \/ Engine.fvln P = 5) ->
  0 <= Engine.fiber P <= 5 ->
  0 <= Engine.protein P <= 5 ->
  Engine.total P = Engine.fvln P + Engine.fiber P + Engine.protein P ->
  -15 <= fsa_of N P <= 39.
Proof.
  intros HN Hv Hf Hp Ht. unfold fsa_of.
  destruct (Z.ltb_spec N 11), (Z.eqb_spec (Engine.fvln P) 5); lia.
Qed.

Lemma exact_score_from_2 (f : Z) : -15 <= f <= 39 -> 2 <= exact_score f <= 100.
Proof.
  intros H. split; [|apply exact_score_range; lia].
  unfold exact_score. apply Z.div_le_lower_bound; lia.
Qed.

(** X16.  In the stored-product variant a product that exists gets an
    integer score from 2 to 100: the four ladders have 39 breakpoints in
    all, so the FSA score stops at 39.  The score is also what the document
    holds afterwards, together with the details it was computed from:
    negative points from 0 to 39, positive points from 0 to 15, and the FSA
    score the stored score is the rescaling of. *)
Theorem stored_score_lies_between_2_and_100
    (doc : StoredProduct.DocumentOf) (productId productRef : string) (now : Z)
    (db : StoredProduct.Db) (productDoc : StoredProduct.Product) :
  doc productId = Ok productRef ->
  db !! productRef = Some productDoc ->
  exists (z : Z) (db' : StoredProduct.Db) (doc' : StoredProduct.Product)
         (d : Engine.Details),
    StoredProduct.calculateHealthScore doc productId now db = (Ok (of_Z z), db') /\
    2 <= z <= 100 /\
    db' !! productRef = Some doc' /\
    StoredProduct.storedHealthScore doc' = Some (of_Z z) /\
    StoredProduct.storedDetails doc' = Some d /\
    0 <= Engine.negativePoints d <= 39 /\
    0 <= Engine.positivePoints d <= 15 /\
    -15 <= Engine.fsaScore d <= 39 /\
    z = exact_score (Engine.fsaScore d).
Proof.
  intros Href Hdoc.
  destruct (stored_call doc productId productRef now db productDoc Href Hdoc)
    as (N & P & HN & Hv & Hf & Hp & Ht & _ & _ & Hcall).
  pose proof (fsa_of_stored_range N P HN Hv Hf Hp Ht) as Hr.
  rewrite Hcall, (rescale_exact (fsa_of N P)) by lia.
  do 4 eexists. split; [reflexivity|].
  split; [apply exact_score_from_2, Hr|].
  split; [apply lookup_insert_eq|]. simpl.
  repeat (split; [reflexivity || (simpl; lia)|]). reflexivity.
Qed.

Lemma stored_score_lies_between_2_and_100_witness :
  exists (z : Z) (db' : StoredProduct.Db) (doc' : StoredProduct.Product)
         (d : Engine.Details),
    StoredProduct.calculateHealthScore (fun productId => Ok productId) "p1" 7
      {[ "p1" := {| StoredProduct.nutritionInfo := Some (top_level "energy" (RStr "2000kJ"));
                    StoredProduct.storedHealthScore := None;
                    StoredProduct.updatedAt := None;
                    StoredProduct.storedDetails := None |} ]}
    = (Ok (of_Z z), db') /\
    2 <= z <= 100 /\
    db' !! "p1" = Some doc' /\
    StoredProduct.storedHealthScore doc' = Some (of_Z z) /\
    StoredProduct.storedDetails doc' = Some d /\
    0 <= Engine.negativePoints d <= 39 /\
    0 <= Engine.positivePoints d <= 15 /\
    -15 <= Engine.fsaScore d <= 39 /\
    z = exact_score (Engine.fsaScore d).
Proof.
  apply (stored_score_lies_between_2_and_100 (fun productId => Ok productId) "p1" "p1" 7
           {[ "p1" := {| StoredProduct.nutritionInfo :=
                           Some (top_level "energy" (RStr "2000kJ"));
                         StoredProduct.storedHealthScore := None;
                         StoredProduct.updatedAt := None;
                         StoredProduct.storedDetails := None |} ]}
           {| StoredProduct.nutritionInfo := Some (top_level "energy" (RStr "2000kJ"));
              StoredProduct.storedHealthScore := None;
              StoredProduct.updatedAt := None;
              StoredProduct.storedDetails := None |}).
  - reflexivity.
  - apply lookup_singleton_eq.
Defined.

(** X17.  Scoring a stored product again changes nothing but the
    timestamp: a second call returns and leaves what a single call at the
    later time would. *)
Theorem rescoring_a_stored_product_is_idempotent
    (doc : StoredProduct.DocumentOf) (productId : string) (now later : Z)
    (db : StoredProduct.Db) :
  StoredProduct.calculateHealthScore doc productId later
    (StoredProduct.calculateHealthScore doc productId now db).2
  = StoredProduct.calculateHealthScore doc productId later db.
Proof.
  destruct (doc productId) as [productRef|e] eqn:Href.
  2: { rewrite (proj1 (stored_call_fails doc productId now db) e Href). reflexivity. }
  destruct (db !! productRef) as [d|] eqn:Hdoc.
  2: { rewrite (proj2 (stored_call_fails doc productId now db) productRef Href Hdoc).
       reflexivity. }
  destruct (stored_call doc productId productRef now db d Href Hdoc)
    as (N & P & _ & _ & _ & _ & _ & HN & HP & Hcall).
  destruct (stored_call doc productId productRef later db d Href Hdoc)
    as (N1 & P1 & _ & _ & _ & _ & _ & HN1 & HP1 & Hcall1).
  rewrite Hcall, Hcall1. simpl snd.
  match goal with
  | |- StoredProduct.calculateHealthScore _ _ _ (<[ _ := ?d' ]> _) = _ =>
      destruct (stored_call doc productId productRef later (<[ productRef := d' ]> db) d'
                  Href (lookup_insert_eq _ _ _))
        as (N2 & P2 & _ & _ & _ & _ & _ & HN2 & HP2 & Hcall2)
  end.
  simpl in HN2, HP2.
  assert (N1 = N2) as -> by congruence.
  assert (P1 = P2) as -> by congruence.
  etransitivity; [exact Hcall2|].
  f_equal. apply insert_insert_eq.
Qed.

(** X18.  The HTTP function of the stored-product variant.  The header that
    allows every origin is always set, and the store changes only with
    status 200.  A POST that names a product gets status 500 with the
    library's message when the library rejects the id, and status 500 with
    the error Product not found when the id has no document; the status is
    500 in these cases and on a POST without a body, and in no other.  On
    status 200 the answer carries the id of the request and the integer
    score, from 2 to 100, that [calculateHealthScore] returned for that id
    and that the document then holds. *)
Theorem stored_function_answers
    (doc : StoredProduct.DocumentOf)
    (req : Http.request (gmap string string)) (now : Z) (db : StoredProduct.Db) :
  Http.headers (StoredProductExports.calculateHealthScore doc req now db).1
    !! "Access-Control-Allow-Origin" = Some "*" /\
  (Http.statusCode (StoredProductExports.calculateHealthScore doc req now db).1 <> 200 ->
   (StoredProductExports.calculateHealthScore doc req now db).2 = db) /\
  (forall (b : gmap string string) (productId : string) (e : jsError),
     Http.method req = "POST" -> Http.body req = Some b ->
     b !! "productId" = Some productId -> productId <> "" ->
     doc productId = Throw e ->
     Http.statusCode (StoredProductExports.calculateHealthScore doc req now db).1 = 500 /\
     Http.sent (StoredProductExports.calculateHealthScore doc req now db).1
     = Some (Http.JsonError (Http.message e))) /\
  (forall (b : gmap string string) (productId productRef : string),
     Http.method req = "POST" -> Http.body req = Some b ->
     b !! "productId" = Some productId -> productId <> "" ->
     doc productId = Ok productRef -> db !! productRef = None ->
     Http.statusCode (StoredProductExports.calculateHealthScore doc req now db).1 = 500 /\
     Http.sent (StoredProductExports.calculateHealthScore doc req now db).1
     = Some (Http.JsonError "Product not found")) /\
  (Http.statusCode (StoredProductExports.calculateHealthScore doc req now db).1 = 500 <->
   Http.method req = "POST" /\
   (Http.body req = None \/
    exists (b : gmap string string) (productId : string),
      Http.body req = Some b /\ b !! "productId" = Some productId /\
      productId <> "" /\
      ((exists e, doc productId = Throw e) \/
       exists productRef, doc productId = Ok productRef /\ db !! productRef = None))) /\
  (Http.statusCode (StoredProductExports.calculateHealthScore doc req now db).1 = 200 ->
   exists (b : gmap string string) (productId productRef : string) (z : Z)
          (doc' : StoredProduct.Product),
     Http.method req = "POST" /\
     Http.body req = Some b /\ b !! "productId" = Some productId /\
     doc productId = Ok productRef /\
     StoredProduct.calculateHealthScore doc productId now db
     = (Ok (of_Z z), (StoredProductExports.calculateHealthScore doc req now db).2) /\
     Http.sent (StoredProductExports.calculateHealthScore doc req now db).1
     = Some (Http.JsonScore productId (of_Z z)) /\
     2 <= z <= 100 /\
     (StoredProductExports.calculateHealthScore doc req now db).2 !! productRef
     = Some doc' /\
     StoredProduct.storedHealthScore doc' = Some (of_Z z)).
Proof.
  unfold StoredProductExports.calculateHealthScore.
  destruct (String.eqb_spec (Http.method req) "OPTIONS") as [Ho|Ho].
  { rewrite Ho. simpl. repeat split; try discriminate; try reflexivity; solve [settle]. }
  destruct (String.eqb_spec (Http.method req) "POST") as [Hp|Hp]; simpl.
  2: { repeat split; try discriminate; try reflexivity; solve [settle]. }
  unfold Http.destructure.
  destruct (Http.body req) as [b|] eqn:Hb; simpl.
  2: { repeat split; try discriminate; try reflexivity; solve [settle]. }
  destruct (b !! "productId") as [productId|] eqn:Hid; simpl.
  2: { repeat split; try discriminate; try reflexivity; solve [settle]. }
  destruct (String.eqb_spec productId "") as [He|He]; simpl.
  { repeat split; try discriminate; try reflexivity; solve [settle]. }
  destruct (doc productId) as [productRef|e] eqn:Href.
  2: { rewrite (proj1 (stored_call_fails doc productId now db) e Href). simpl.
       repeat split; try discriminate; try reflexivity; try solve [settle].
       right. exists b, productId. eauto 6. }
  destruct (db !! productRef) as [d|] eqn:Hdoc.
  2: { rewrite (proj2 (stored_call_fails doc productId now db) productRef Href Hdoc).
       simpl.
       repeat split; try discriminate; try reflexivity; try solve [settle].
       right. exists b, productId. eauto 8. }
  destruct (stored_call doc productId productRef now db d Href Hdoc)
    as (N & P & HN & Hv & Hf & Hp' & Ht & _ & _ & Hcall).
  pose proof (fsa_of_stored_range N P HN Hv Hf Hp' Ht) as Hr.
  rewrite Hcall. simpl.
  repeat split; try discriminate; try reflexivity; try solve [settle].
  exists b, productId, productRef, (exact_score (fsa_of N P)). eexists.
  rewrite Hcall, (rescale_exact (fsa_of N P)) by lia.
  split; [exact Hp|]. split; [reflexivity|]. split; [exact Hid|]. split; [exact Href|].
  split; [reflexivity|]. split; [reflexivity|].
  split; [apply exact_score_from_2, Hr|].
  split; [apply lookup_insert_eq|]. reflexivity.
Qed.

(** * The first variant *)

Lemma or_else_truthy (a : raw) (s : string) :
  s <> "" -> ToBoolean (or_else a (RStr s)) = true.
Proof.
  intros Hs. unfold or_else. destruct (ToBoolean a) eqn:Ha; [exact Ha|].
  simpl. destruct (String.eqb_spec s ""); [contradiction | reflexivity].
Qed.

Lemma legacy_parse_returns (v : raw) :
  ToBoolean v = true -> exists x, Legacy.parseNutritionValue v = Ok x.
Proof.
  intros Hv. unfold Legacy.parseNutritionValue.
  destruct v; try discriminate Hv; simpl; eauto.
Qed.

Lemma bump_bounds (c : bool) (p : Z) : p <= Legacy.bump c p <= p + 1.
Proof. unfold Legacy.bump. destruct c; lia. Qed.

(** Rounding and then inverting, as the first variant does, gives on every
    FSA score the integer that inverting and then rounding gives. *)
Lemma inversion_exact (f : Z) :
  -15 <= f <= 40 ->
  sub 100%js (Math_round (Engine.normalized f)) = of_Z (exact_score f).
Proof.
  intros H. apply in_fsa_domain in H. revert f H. apply Forall_forall.
  apply (bool_decide_unpack _). vm_compute. exact I.
Qed.

Lemma exact_score_legacy_range (f : Z) : -13 <= f <= 20 -> 36 <= exact_score f <= 96.
Proof.
  intros H. unfold exact_score. split.
  - apply Z.div_le_lower_bound; lia.
  - assert (Hlt : (200 * (40 - f) + 55) / 110 < 97)
      by (apply Z.div_lt_upper_bound; lia).
    lia.
Qed.

(** What a call of the first variant on a stored product returns and writes. *)
Lemma legacy_call (doc : StoredProduct.DocumentOf) (productId productRef : string)
    (d : StoredProduct.Product) :
  doc productId = Ok productRef ->
  exists nutriScore : Z,
    -13 <= nutriScore <= 20 /\
    forall (later : Z) (db0 : StoredProduct.Db) (doc0 : StoredProduct.Product),
      db0 !! productRef = Some doc0 ->
      StoredProduct.nutritionInfo doc0 = StoredProduct.nutritionInfo d ->
      Legacy.calculateHealthScore doc productId later db0
      = (Ok (of_Z (exact_score nutriScore)),
         <[ productRef :=
              {| StoredProduct.nutritionInfo := StoredProduct.nutritionInfo doc0;
                 StoredProduct.storedHealthScore := Some (of_Z (exact_score nutriScore));
                 StoredProduct.updatedAt := Some later;
                 StoredProduct.storedDetails := StoredProduct.storedDetails doc0 |} ]> db0).
Proof.
  intros Href.
  set (info := default StoredProduct.emptyRecord (StoredProduct.nutritionInfo d)).
  assert (Hfield : forall a, exists x,
             Legacy.parseNutritionValue (or_else a (RStr "0")) = Ok x).
  { intros a. apply legacy_parse_returns, or_else_truthy. discriminate. }
  destruct (Hfield (get (fields info) "energy")) as [energy He].
  destruct (Hfield (get (fields info) "sugars")) as [sugars Hsu].
  destruct (Hfield (get (fields info) "sodium")) as [sodium Hso].
  destruct (Hfield (get (fields info) "fiber")) as [fiber Hfi].
  destruct (Hfield (get (fields info) "protein")) as [protein Hpr].
  destruct (Hfield (get (fields info) "fruitsVegetablesNuts")) as [fvn Hfv].
  destruct (Hfield (get_opt (customNutritionFields info) "saturatedFat")) as [satFat Hsa].
  assert (Hkcal : exists x,
             Legacy.parseNutritionValue (RStr (Number_toString energy)) = Ok x)
    by (unfold Legacy.parseNutritionValue; simpl; eauto).
  destruct Hkcal as [kcal Hk].
  eexists. split; cycle 1.
  - intros later db0 doc0 Hdoc0 Hinfo.
    unfold Legacy.calculateHealthScore. rewrite Href, Hdoc0, Hinfo. fold info.
    rewrite He. cbn [mbind exc_bind]. rewrite Hsu. cbn [mbind exc_bind].
    rewrite Hso. cbn [mbind exc_bind]. rewrite Hfi. cbn [mbind exc_bind].
    rewrite Hpr. cbn [mbind exc_bind]. rewrite Hfv. cbn [mbind exc_bind].
    rewrite Hsa. cbn [mbind exc_bind]. rewrite Hk. cbn [mbind exc_bind mret exc_ret].
    cbv zeta. rewrite inversion_exact; [reflexivity|].
    repeat match goal with
    | |- context [ Legacy.bump ?c ?p ] =>
        lazymatch goal with
        | _ : p <= Legacy.bump c p <= p + 1 |- _ => fail
        | _ => pose proof (bump_bounds c p)
        end
    end. lia.
  - cbv beta.
    repeat match goal with
    | |- context [ Legacy.bump ?c ?p ] =>
        lazymatch goal with
        | _ : p <= Legacy.bump c p <= p + 1 |- _ => fail
        | _ => pose proof (bump_bounds c p)
        end
    end. lia.
Qed.

(** A call of the first variant that finds no document, or whose id the
    library rejects. *)
Lemma legacy_call_fails (doc : StoredProduct.DocumentOf) (productId : string)
    (now : Z) (db : StoredProduct.Db) :
  (forall e, doc productId = Throw e ->
     Legacy.calculateHealthScore doc productId now db = (Throw e, db)) /\
  (forall productRef, doc productId = Ok productRef -> db !! productRef = None ->
     Legacy.calculateHealthScore doc productId now db
     = (Throw (Error "Product not found"), db)).
Proof.
  unfold Legacy.calculateHealthScore. split.
  - intros e ->. reflexivity.
  - intros productRef -> ->. reflexivity.
Qed.

(** X19.  The first variant fails with the library's error on an id the
    library rejects, and with Product not found on an id without a document,
    and leaves the store alone in both cases.  Otherwise it returns an
    integer from 36 to 96 (its ladders give from 0 to 20 negative and from 0
    to 13 positive points), and writes that number and the timestamp to the
    document, keeping the nutrition record and the stored details. *)
Theorem first_variant_scores_between_36_and_96
    (doc : StoredProduct.DocumentOf) (productId : string) (now : Z)
    (db : StoredProduct.Db) :
  match doc productId with
  | Throw e => Legacy.calculateHealthScore doc productId now db = (Throw e, db)
  | Ok productRef =>
      match db !! productRef with
      | None =>
          Legacy.calculateHealthScore doc productId now db
          = (Throw (Error "Product not found"), db)
      | Some productData =>
          exists z : Z,
            36 <= z <= 96 /\
            Legacy.calculateHealthScore doc productId now db
            = (Ok (of_Z z),
               <[ productRef :=
                    {| StoredProduct.nutritionInfo :=
                         StoredProduct.nutritionInfo productData;
                       StoredProduct.storedHealthScore := Some (of_Z z);
                       StoredProduct.updatedAt := Some now;
                       StoredProduct.storedDetails :=
                         StoredProduct.storedDetails productData |} ]> db)
      end
  end.
Proof.
  destruct (doc productId) as [productRef|e] eqn:Href.
  2: { apply (proj1 (legacy_call_fails doc productId now db) e Href). }
  destruct (db !! productRef) as [d|] eqn:Hdoc.
  2: { apply (proj2 (legacy_call_fails doc productId now db) productRef Href Hdoc). }
  destruct (legacy_call doc productId productRef d Href) as (ns & Hns & Hcall).
  exists (exact_score ns). split; [apply exact_score_legacy_range, Hns|].
  apply Hcall; [exact Hdoc | reflexivity].
Qed.

(** X20.  Scoring a product again with the first variant changes nothing
    but the timestamp. *)
Theorem rescoring_with_the_first_variant_is_idempotent
    (doc : StoredProduct.DocumentOf) (productId : string) (now later : Z)
    (db : StoredProduct.Db) :
  Legacy.calculateHealthScore doc productId later
    (Legacy.calculateHealthScore doc productId now db).2
  = Legacy.calculateHealthScore doc productId later db.
Proof.
  destruct (doc productId) as [productRef|e] eqn:Href.
  2: { rewrite (proj1 (legacy_call_fails doc productId now db) e Href). reflexivity. }
  destruct (db !! productRef) as [d|] eqn:Hdoc.
  2: { rewrite (proj2 (legacy_call_fails doc productId now db) productRef Href Hdoc).
       reflexivity. }
  destruct (legacy_call doc productId productRef d Href) as (ns & _ & Hcall).
  rewrite (Hcall now db d Hdoc eq_refl), (Hcall later db d Hdoc eq_refl).
  simpl snd.
  etransitivity; [apply Hcall; [apply lookup_insert_eq | reflexivity]|].
  simpl. f_equal. apply insert_insert_eq.
Qed.

(** X21.  The HTTP function of the first variant sets no header; answers
    every method but POST, OPTIONS included, with status 400; and changes
    the store only with status 200.  A POST that names a product gets status
    500 with the library's message, in plain text, when the library rejects
    the id, and status 500 with Product not found when the id has no
    document; the status is 500 in these cases and on a POST without a body,
    and in no other.  On status 200 the answer carries the id of the request
    and the integer score, from 36 to 96, that [calculateHealthScore]
    returned for that id and that the document then holds. *)
Theorem first_function_answers
    (doc : StoredProduct.DocumentOf)
    (req : Http.request (gmap string string)) (now : Z) (db : StoredProduct.Db) :
  Http.headers (Legacy.calculateProductHealthScore doc req now db).1 = ∅ /\
  (Http.method req <> "POST" ->
   Legacy.calculateProductHealthScore doc req now db
   = (Http.send (Http.Text "Only POST requests are accepted")
        (Http.status 400 Http.fresh), db)) /\
  (Http.statusCode (Legacy.calculateProductHealthScore doc req now db).1 <> 200 ->
   (Legacy.calculateProductHealthScore doc req now db).2 = db) /\
  (forall (b : gmap string string) (productId : string) (e : jsError),
     Http.method req = "POST" -> Http.body req = Some b ->
     b !! "productId" = Some productId -> productId <> "" ->
     doc productId = Throw e ->
     Http.statusCode (Legacy.calculateProductHealthScore doc req now db).1 = 500 /\
     Http.sent (Legacy.calculateProductHealthScore doc req now db).1
     = Some (Http.Text ("Error processing request: " ++ Http.message e))) /\
  (forall (b : gmap string string) (productId productRef : string),
     Http.method req = "POST" -> Http.body req = Some b ->
     b !! "productId" = Some productId -> productId <> "" ->
     doc productId = Ok productRef -> db !! productRef = None ->
     Http.statusCode (Legacy.calculateProductHealthScore doc req now db).1 = 500 /\
     Http.sent (Legacy.calculateProductHealthScore doc req now db).1
     = Some (Http.Text "Error processing request: Product not found")) /\
  (Http.statusCode (Legacy.calculateProductHealthScore doc req now db).1 = 500 <->
   Http.method req = "POST" /\
   (Http.body req = None \/
    exists (b : gmap string string) (productId : string),
      Http.body req = Some b /\ b !! "productId" = Some productId /\
      productId <> "" /\
      ((exists e, doc productId = Throw e) \/
       exists productRef, doc productId = Ok productRef /\ db !! productRef = None))) /\
  (Http.statusCode (Legacy.calculateProductHealthScore doc req now db).1 = 200 ->
   exists (b : gmap string string) (productId productRef : string) (z : Z)
          (doc' : StoredProduct.Product),
     Http.method req = "POST" /\
     Http.body req = Some b /\ b !! "productId" = Some productId /\
     doc productId = Ok productRef /\
     Legacy.calculateHealthScore doc productId now db
     = (Ok (of_Z z), (Legacy.calculateProductHealthScore doc req now db).2) /\
     Http.sent (Legacy.calculateProductHealthScore doc req now db).1
     = Some (Http.JsonScore productId (of_Z z)) /\
     36 <= z <= 96 /\
     (Legacy.calculateProductHealthScore doc req now db).2 !! productRef = Some doc' /\
     StoredProduct.storedHealthScore doc' = Some (of_Z z)).
Proof.
  unfold Legacy.calculateProductHealthScore.
  destruct (String.eqb_spec (Http.method req) "POST") as [Hp|Hp]; simpl.
  2: { repeat split; try discriminate; try reflexivity; solve [settle]. }
  unfold Http.destructure.
  destruct (Http.body req) as [b|] eqn:Hb; simpl.
  2: { repeat split; try discriminate; try reflexivity; solve [settle]. }
  destruct (b !! "productId") as [productId|] eqn:Hid; simpl.
  2: { repeat split; try discriminate; try reflexivity; solve [settle]. }
  destruct (String.eqb_spec productId "") as [He|He]; simpl.
  { repeat split; try discriminate; try reflexivity; solve [settle]. }
  destruct (doc productId) as [productRef|e] eqn:Href.
  2: { rewrite (proj1 (legacy_call_fails doc productId now db) e Href). simpl.
       repeat split; try discriminate; try reflexivity; try solve [settle].
       right. exists b, productId. eauto 6. }
  destruct (db !! productRef) as [d|] eqn:Hdoc.
  2: { rewrite (proj2 (legacy_call_fails doc productId now db) productRef Href Hdoc).
       simpl.
       repeat split; try discriminate; try reflexivity; try solve [settle].
       right. exists b, productId. eauto 8. }
  destruct (legacy_call doc productId productRef d Href) as (ns & Hns & Hcall).
  rewrite (Hcall now db d Hdoc eq_refl). simpl.
  repeat split; try discriminate; try reflexivity; try solve [settle].
  exists b, productId, productRef, (exact_score ns). eexists.
  rewrite (Hcall now db d Hdoc eq_refl).
  split; [exact Hp|]. split; [reflexivity|]. split; [exact Hid|]. split; [exact Href|].
  split; [reflexivity|]. split; [reflexivity|].
  split; [apply exact_score_legacy_range, Hns|].
  split; [apply lookup_insert_eq|]. reflexivity.
Qed.

Lemma keep_number_chars_app (a b : string) :
  keep_number_chars (a ++ b) = keep_number_chars a ++ keep_number_chars b.
Proof.
  induction a as [|c a IH]; [reflexivity|].
  change (String c a ++ b) with (String c (a ++ b)). simpl.
  destruct (isNumberChar c); rewrite IH; reflexivity.
Qed.

Lemma keep_number_chars_none (u : string) :
  all_chars (fun c => negb (isNumberChar c)) u = true -> keep_number_chars u = "".
Proof.
  induction u as [|c u IH]; simpl; [reflexivity|].
  destruct (isNumberChar c); simpl; [discriminate | exact IH].
Qed.

(** X22.  The parser of the first variant ignores units: deleting from a
    text any stretch without digits and dots, wherever it stands, does not
    change the number returned.  So 1.5g and 1.5mg both read as 1.5, and the
    numbers on either side of a deleted stretch are read as one. *)
Theorem first_parser_ignores_units (a u b : string) :
  all_chars (fun c => negb (isNumberChar c)) u = true ->
  Legacy.parseNutritionValue (RStr (a ++ u ++ b))
  = Legacy.parseNutritionValue (RStr (a ++ b)).
Proof.
  intros Hu. unfold Legacy.parseNutritionValue. simpl.
  rewrite !keep_number_chars_app, (keep_number_chars_none u Hu). reflexivity.
Qed.

Lemma first_parser_ignores_units_witness :
  Legacy.parseNutritionValue (RStr ("1.5" ++ " g of " ++ "25"))
  = Legacy.parseNutritionValue (RStr ("1.5" ++ "25")).
Proof. apply (first_parser_ignores_units "1.5" " g of " "25"). reflexivity. Defined.

(** X24.  The first variant rounds the normalized score and then subtracts
    it from 100; the later variants clamp it, subtract it from 100 and then
    round.  On every FSA score from -15 to 40 the two give the same number,
    so the variants score on the same scale. *)
Theorem first_variant_rescales_like_the_others (fsa : Z) :
  -15 <= fsa <= 40 ->
  sub 100%js (Math_round (Engine.normalized fsa)) = Engine.rescale fsa.
Proof.
  intros H. rewrite (inversion_exact fsa H), (rescale_exact fsa H). reflexivity.
Qed.

Lemma first_variant_rescales_like_the_others_witness :
  sub 100%js (Math_round (Engine.normalized 7)) = Engine.rescale 7.
Proof. apply (first_variant_rescales_like_the_others 7). lia. Defined.

(** * What the engine reads of a record *)

Lemma or_else_same_reading (a1 a2 b1 b2 : raw) :
  same_reading a1 a2 -> same_reading b1 b2 ->
  same_reading (or_else a1 b1) (or_else a2 b2).
Proof.
  unfold same_reading, or_else.
  intros [->|[Ha1 Ha2]] Hb.
  - destruct (ToBoolean a2); [left; reflexivity | exact Hb].
  - rewrite Ha1, Ha2. exact Hb.
Qed.

Lemma or_else_default (a1 a2 d : raw) :
  same_reading a1 a2 -> or_else a1 d = or_else a2 d.
Proof.
  unfold same_reading, or_else.
  intros [->|[-> ->]]; reflexivity.
Qed.

(** X23.  Only nine fields of the record matter to the category-aware
    variant, and a falsy value counts as an absent field: two records whose
    nine fields are pairwise equal or both falsy get the same result,
    whatever else they hold. *)
Theorem only_the_consulted_fields_matter (n1 n2 : NutritionRecord) (isBeverage : raw) :
  (forall k : string,
      k ∈ consulted -> same_reading (get (fields n1) k) (get (fields n2) k)) ->
  Engine.calculateHealthScore n1 isBeverage = Engine.calculateHealthScore n2 isBeverage.
Proof.
  intros H. rewrite !health_score_closed.
  assert (Hq : forall d, quantity d n1 = quantity d n2).
  { intros d. unfold quantity. f_equal.
    destruct d; unfold resolved; apply or_else_default;
      try apply or_else_same_reading; apply H; is_consulted. }
  assert (Hb : forall p, bonus_quantity p n1 = bonus_quantity p n2).
  { intros p. unfold bonus_quantity. f_equal.
    destruct p; unfold bonus_resolved; apply or_else_default;
      try apply or_else_same_reading; apply H; is_consulted. }
  unfold negative_total, positive_breakdown, points.
  rewrite !Hq, !Hb. reflexivity.
Qed.

Lemma only_the_consulted_fields_matter_witness :
  Engine.calculateHealthScore
    {| fields := {[ "energy" := RStr ""; "note" := RStr "500 kcal" ]};
       customNutritionFields := Some {[ "saturatedFat" := RStr "30g" ]} |} beverage
  = Engine.calculateHealthScore {| fields := ∅; customNutritionFields := None |} beverage.
Proof.
  apply (only_the_consulted_fields_matter
           {| fields := {[ "energy" := RStr ""; "note" := RStr "500 kcal" ]};
              customNutritionFields := Some {[ "saturatedFat" := RStr "30g" ]} |}
           {| fields := ∅; customNutritionFields := None |} beverage).
  intros k Hk. revert Hk. rewrite list_elem_of_In. simpl.
  intros [<-|[<-|[<-|[<-|[<-|[<-|[<-|[<-|[<-|[]]]]]]]]]];
    vm_compute; auto.
Defined.
